(** * mzn-bench analysis: configuration comparison and status report

    A shallow embedding of [mzn_bench/analysis/analyse_changes.py] and
    [mzn_bench/analysis/report_status.py].

    - A CSV row is what [csv.DictReader] yields for a line that has as many
      cells as the header has names: a finite map from column names to cell
      strings. A statistics table is the list of its rows; a column that
      the header lacks is a name that no row of the table has. Lines with
      fewer or more cells than the header, for which [DictReader] stores
      [None] cells or a list under the key [None], are not represented.
    - Python dictionaries that are iterated ([from_stats], the
      [status_changes] default dictionary, the reporter's [table]) keep
      insertion order, so they are association lists updated in place.
    - Python floats are IEEE 754 binary64 numbers, taken from [SpecFloat]
      with [prec = 53] and [emax = 1024]; float division raises
      [ZeroDivisionError] on a zero divisor.
    - Exceptions are explicit: every function that can raise returns a
      [result].
    - What belongs to the interpreter and its libraries is a parameter of
      the functions that use it: [float] on a string, [Path(...).name],
      [sum], and the format specification [.Nf]. [tabulate] is not
      modelled: [report_status] returns the call that it makes (rows,
      headers and format), not the text that the library prints for it.
    - Line 9 of [report_status.py] is a leftover merge marker; the function
      is read without it. *)

From Stdlib Require Import ZArith String Ascii List Bool SpecFloat.
From Stdlib Require Import Sorted Permutation Lia OrderedTypeEx DecimalString.
From stdpp Require Import base option list gmap strings.

Import ListNotations.
Open Scope string_scope.
Open Scope list_scope.

(** ** Exceptions and results *)

Inductive exn : Type :=
| KeyError (column : string)
| ValueError (text : string)
| ZeroDivisionError.

Inductive result (A : Type) : Type :=
| Ok (a : A)
| Raise (e : exn).

Arguments Ok {A} a.
Arguments Raise {A} e.

#[global] Instance result_bind : MBind result := fun A B k r =>
  match r with
  | Ok a => k a
  | Raise e => Raise e
  end.

(** A [for] loop whose body may raise: the first exception ends the loop. *)
Fixpoint for_each {S X : Type} (body : S -> X -> result S) (s : S) (xs : list X)
  : result S :=
  match xs with
  | [] => Ok s
  | x :: xs' => s' ← body s x; for_each body s' xs'
  end.

(** A list comprehension whose element expression may raise. *)
Fixpoint map_result {X Y : Type} (f : X -> result Y) (xs : list X) : result (list Y) :=
  match xs with
  | [] => Ok []
  | x :: xs' => y ← f x; ys ← map_result f xs'; Ok (y :: ys)
  end.

(** ** Python floats *)

Module PyFloat.

Definition prec : Z := 53.
Definition emax : Z := 1024.

Definition float : Type := spec_float.

Definition nan : float := S754_nan.
Definition of_Z (z : Z) : float := binary_normalize prec emax z 0 false.

Definition sub (x y : float) : float := SFsub prec emax x y.
Definition mul (x y : float) : float := SFmul prec emax x y.
Definition add (x y : float) : float := SFadd prec emax x y.
Definition abs (x : float) : float := SFabs x.
Definition ltb (x y : float) : bool := SFltb x y.
Definition leb (x y : float) : bool := SFleb x y.
Definition eqb (x y : float) : bool := SFeqb x y.

(** [x > y] is [y < x]. *)
Definition gtb (x y : float) : bool := ltb y x.

Definition is_nan (x : float) : bool :=
  match x with
  | S754_nan => true
  | _ => false
  end.

(** [x / y]: Python raises on a zero divisor (of either sign) and
    otherwise divides as IEEE 754 does. *)
Definition div (x y : float) : result float :=
  if eqb y (of_Z 0) then Raise ZeroDivisionError
  else Ok (SFdiv prec emax x y).

End PyFloat.

Abbreviation float := PyFloat.float.

(** ** Rows, instance keys and insertion-ordered dictionaries *)

Abbreviation Row := (gmap string string).

(** [row[column]] *)
Definition row_get (row : Row) (column : string) : result string :=
  match row !! column with
  | Some v => Ok v
  | None => Raise (KeyError column)
  end.

Abbreviation Key := (string * string)%type.

Section Dict.
Context {K V : Type} `{EqDecision K}.

(** [d.get(k, None)] *)
Fixpoint dict_get (k : K) (d : list (K * V)) : option V :=
  match d with
  | [] => None
  | (k', v) :: d' => if decide (k = k') then Some v else dict_get k d'
  end.

(** [d[k] = v]: an existing key keeps its position, a new key goes last. *)
Fixpoint dict_set (k : K) (v : V) (d : list (K * V)) : list (K * V) :=
  match d with
  | [] => [(k, v)]
  | (k', v') :: d' =>
      if decide (k = k') then (k, v) :: d' else (k', v') :: dict_set k v d'
  end.

Definition dict_keys (d : list (K * V)) : list K := map fst d.
End Dict.

(** [d[k].append(x)] on a [defaultdict(list)] *)
Definition dd_append {K X : Type} `{EqDecision K} (k : K) (x : X)
    (d : list (K * list X)) : list (K * list X) :=
  match dict_get k d with
  | Some l => dict_set k (l ++ [x]) d
  | None => d ++ [(k, [x])]
  end.

(** ** analyse_changes.py *)

Definition TimeChange : Type := string * string * float * float.
Definition ObjChange : Type := string * string * float * float * bool.

Record PerformanceChanges : Type := mkChanges {
  time_delta : float;
  obj_delta : float;
  status_changes : list ((string * string) * list Key);
  time_changes : list TimeChange;
  obj_changes : list ObjChange;
  missing_instances : list Key
}.

(** [PerformanceChanges(time_delta, obj_delta)] *)
Definition new_changes (td od : float) : PerformanceChanges :=
  mkChanges td od [] [] [] [].

Definition FromVal : Type := string * float * float * string.
Definition ToVal : Type := string * float * float.

Definition FromStats : Type := list (Key * FromVal).
Definition ToStats : Type := list (Key * ToVal).

Section Compare.

(** [float(s)] on a string is the interpreter's; [None] is its
    [ValueError]. *)
Variable float_of_str : string -> option float.

Definition py_float (s : string) : result float :=
  match float_of_str s with
  | Some x => Ok x
  | None => Raise (ValueError s)
  end.

(** [float(0 if row[col] == "" else row[col])] *)
Definition float_or_zero (row : Row) (col : string) : result float :=
  c ← row_get row col;
  if decide (c = "") then Ok (PyFloat.of_Z 0)
  else c' ← row_get row col; py_float c'.

(** [float(math.nan if row[col] == "" else row[col])] *)
Definition float_or_nan (row : Row) (col : string) : result float :=
  c ← row_get row col;
  if decide (c = "") then Ok PyFloat.nan
  else c' ← row_get row col; py_float c'.

(** The key of the subscript assignment is evaluated after its value. *)
Definition row_key (row : Row) : result Key :=
  m ← row_get row "model";
  d ← row_get row "data_file";
  Ok (m, d).

(** Body of the scan loop (lines 129-142). *)
Definition scan_row (from_conf to_conf : string)
    (st : FromStats * ToStats) (row : Row) : result (FromStats * ToStats) :=
  let '(from_stats, to_stats) := st in
  c ← row_get row "configuration";
  if decide (c = from_conf) then
    status ← row_get row "status";
    time ← float_or_zero row "time";
    objective ← float_or_nan row "objective";
    method ← row_get row "method";
    key ← row_key row;
    Ok (dict_set key (status, time, objective, method) from_stats, to_stats)
  else
    c2 ← row_get row "configuration";
    if decide (c2 = to_conf) then
      status ← row_get row "status";
      time ← float_or_zero row "time";
      objective ← float_or_nan row "objective";
      key ← row_key row;
      Ok (from_stats, dict_set key (status, time, objective) to_stats)
    else Ok (from_stats, to_stats).

Definition scan (from_conf to_conf : string) (rows : list Row)
  : result (FromStats * ToStats) :=
  for_each (scan_row from_conf to_conf) ([], []) rows.

(** Body of the classification loop (lines 146-163). *)
Definition compare_step (to_stats : ToStats) (changes : PerformanceChanges)
    (item : Key * FromVal) : result PerformanceChanges :=
  let '(key, (f_status, f_time, f_obj, f_method)) := item in
  match dict_get key to_stats with
  | None =>
      Ok (mkChanges (time_delta changes) (obj_delta changes)
            (status_changes changes) (time_changes changes)
            (obj_changes changes) (missing_instances changes ++ [key]))
  | Some (t_status, t_time, t_obj) =>
      if negb (bool_decide (f_status = t_status)) then
        Ok (mkChanges (time_delta changes) (obj_delta changes)
              (dd_append (f_status, t_status) key (status_changes changes))
              (time_changes changes) (obj_changes changes)
              (missing_instances changes))
      else if bool_decide (f_status = "OPTIMAL_SOLUTION")
              || (bool_decide (f_status = "SATISFIED")
                  && bool_decide (f_method = "satisfy")) then
        time_change ← PyFloat.div (PyFloat.sub t_time f_time) f_time;
        if PyFloat.gtb (PyFloat.abs time_change) (time_delta changes) then
          Ok (mkChanges (time_delta changes) (obj_delta changes)
                (status_changes changes)
                (time_changes changes ++ [(fst key, snd key, f_time, t_time)])
                (obj_changes changes) (missing_instances changes))
        else Ok changes
      else if bool_decide (f_status = "SATISFIED")
              && negb (bool_decide (f_method = "satisfy")) then
        obj_change ← PyFloat.div (PyFloat.sub t_obj f_obj) f_obj;
        if PyFloat.gtb (PyFloat.abs obj_change) (obj_delta changes) then
          Ok (mkChanges (time_delta changes) (obj_delta changes)
                (status_changes changes) (time_changes changes)
                (obj_changes changes
                   ++ [(fst key, snd key, f_obj, t_obj,
                        bool_decide (f_method = "maximize"))])
                (missing_instances changes))
        else Ok changes
      else Ok changes
  end.

Definition compare_loop (td od : float) (from_stats : FromStats)
    (to_stats : ToStats) : result PerformanceChanges :=
  for_each (compare_step to_stats) (new_changes td od) from_stats.

Definition compare_configurations (rows : list Row) (from_conf to_conf : string)
    (td od : float) : result PerformanceChanges :=
  st ← scan from_conf to_conf rows;
  compare_loop td od (fst st) (snd st).

End Compare.

(** ** [sorted] and [list.sort]

    Python's sort is stable and compares with [<] only; with
    [reverse=True] it reverses the list, sorts it, and reverses the result,
    so that equal elements keep their original order. *)

Section Sort.
Context {K A : Type} (lt : K -> K -> bool).

Fixpoint insert_by (x : K * A) (l : list (K * A)) : list (K * A) :=
  match l with
  | [] => [x]
  | y :: l' => if lt (fst y) (fst x) then y :: insert_by x l' else x :: y :: l'
  end.

Definition stable_sort (l : list (K * A)) : list (K * A) :=
  foldr insert_by [] l.

Definition sort_decorated (reverse : bool) (l : list (K * A)) : list (K * A) :=
  if reverse then rev (stable_sort (rev l)) else stable_sort l.

(** [sorted(l, key=key, reverse=reverse)]: the keys are computed first, in
    list order. *)
Definition py_sorted (key : A -> result K) (reverse : bool) (l : list A)
  : result (list A) :=
  ks ← map_result (fun x => k ← key x; Ok (k, x)) l;
  Ok (map snd (sort_decorated reverse ks)).
End Sort.

(** [l.sort(reverse=reverse)] on a list of strings *)
Definition sort_strings (reverse : bool) (l : list string) : list string :=
  map snd (sort_decorated String.ltb reverse (map (fun s => (s, s)) l)).

Definition nl : string := String (ascii_of_nat 10) EmptyString.

(** [str(n)] *)
Definition str_nat (n : nat) : string := NilZero.string_of_uint (Nat.to_uint n).

(** ** Rendering of timing and objective changes ([__str__], lines 95-111) *)

Section Render.

(** [format(x, ".Nf")] *)
Variable format_f : nat -> float -> string.

Definition hundred : float := PyFloat.of_Z 100.

(** [(it[3] - it[2]) / it[2]] *)
Definition time_rel (it : TimeChange) : result float :=
  let '(_, _, f, t) := it in PyFloat.div (PyFloat.sub t f) f.

(** [(1 if it[4] else -1) * (it[3] - it[2]) / it[2]] *)
Definition obj_key (it : ObjChange) : result float :=
  let '(_, _, f, t, maximise) := it in
  PyFloat.div
    (PyFloat.mul (PyFloat.of_Z (if maximise then 1 else -1)) (PyFloat.sub t f)) f.

(** [(it[3] - it[2]) / it[2]] on an objective change *)
Definition obj_rel (it : ObjChange) : result float :=
  let '(_, _, f, t, _) := it in PyFloat.div (PyFloat.sub t f) f.

Definition time_li (ch : PerformanceChanges) : result (list TimeChange) :=
  py_sorted PyFloat.ltb time_rel true (time_changes ch).

Definition obj_li (ch : PerformanceChanges) : result (list ObjChange) :=
  py_sorted PyFloat.ltb obj_key false (obj_changes ch).

Definition time_line (it : TimeChange) : result string :=
  let '(m, d, f, t) := it in
  r ← time_rel it;
  Ok ("- (" +:+ format_f 1 (PyFloat.mul r hundred) +:+ "%: " +:+ format_f 1 f
        +:+ "s -> " +:+ format_f 1 t +:+ "s) " +:+ m +:+ " " +:+ d +:+ nl).

Definition obj_line (it : ObjChange) : result string :=
  let '(m, d, f, t, maximise) := it in
  r ← obj_rel it;
  Ok ("- (" +:+ format_f 1 (PyFloat.mul r hundred) +:+ "%: "
        +:+ (if maximise then "MAX" else "MIN") +:+ " " +:+ format_f 2 f
        +:+ " -> " +:+ format_f 2 t +:+ ") " +:+ m +:+ " " +:+ d +:+ nl).

(** The detail lines, in the order in which they are appended to [output]. *)
Definition time_lines (ch : PerformanceChanges) : result (list string) :=
  li ← time_li ch; map_result time_line li.

Definition obj_lines (ch : PerformanceChanges) : result (list string) :=
  li ← obj_li ch; map_result obj_line li.

Definition timing_section (ch : PerformanceChanges) : result string :=
  if bool_decide (0 < length (time_changes ch)) then
    ls ← time_lines ch;
    Ok ("Timing Changes (>±" +:+ format_f 1 (PyFloat.mul (time_delta ch) hundred)
          +:+ "%):" +:+ nl +:+ "=========================" +:+ nl
          +:+ String.concat "" ls +:+ nl)
  else Ok "".

Definition objective_section (ch : PerformanceChanges) : result string :=
  if bool_decide (0 < length (obj_changes ch)) then
    ls ← obj_lines ch;
    Ok ("Objective Changes (>±" +:+ format_f 1 (PyFloat.mul (obj_delta ch) hundred)
          +:+ "%):" +:+ nl +:+ "=========================" +:+ nl
          +:+ String.concat "" ls)
  else Ok "".

End Render.

(** ** report_status.py *)

(** The call [tabulate(rows, headers=..., tablefmt=...)] whose value
    [report_status] returns. *)
Record Tabulate : Type := mkTabulate {
  tab_rows : list (list string);
  tab_headers : list string;
  tab_fmt : string
}.

Definition StatusTimes : Type := list (string * list float).
Definition Table : Type := list (list string * StatusTimes).

(** Lines 11-20. *)
Definition header_keys (per_problem per_model per_instance : bool) : list string :=
  ["configuration"]
    ++ (if per_model then ["model"] else [])
    ++ (if per_problem then ["problem"] else [])
    ++ (if per_model then ["model"] else [])
    ++ (if per_instance then ["instance"] else []).

Section Report.

Variable float_of_str : string -> option float.
(** [Path(s).name] *)
Variable path_name : string -> string.
(** [sum] of a list of floats *)
Variable py_sum : list float -> float.
Variable format_f : nat -> float -> string.

(** Lines 28-34 and 37. *)
Definition group_key (per_problem per_model per_instance : bool) (row : Row)
  : result (list string) :=
  c ← row_get row "configuration";
  k1 ← (if per_model then m ← row_get row "model"; Ok [c; m] else Ok [c]);
  k2 ← (if per_problem then p ← row_get row "problem"; Ok (k1 ++ [p]) else Ok k1);
  if per_instance then d ← row_get row "data_file"; Ok (k2 ++ [path_name d])
  else Ok k2.

(** [row.get(avg, 0)]; the result [None] stands for the integer default.
    The names of a row are strings: an unset [avg] is the key [None], which
    no row has, and the default is taken. *)
Definition avg_value (avg : option string) (row : Row) : option string :=
  match avg with
  | Some a => row !! a
  | None => None
  end.

(** [float(0 if avg_value == "" else avg_value)] *)
Definition avg_time (avg : option string) (row : Row) : result float :=
  match avg_value avg row with
  | None => Ok (PyFloat.of_Z 0)
  | Some s => if decide (s = "") then Ok (PyFloat.of_Z 0)
              else py_float float_of_str s
  end.

(** Body of the scan loop (lines 27-46). *)
Definition report_row (per_problem per_model per_instance : bool)
    (avg : option string) (st : gset string * Table) (row : Row)
  : result (gset string * Table) :=
  let '(seen_status, table) := st in
  key ← group_key per_problem per_model per_instance row;
  status ← row_get row "status";
  let seen_status := {[ status ]} ∪ seen_status in
  time ← avg_time avg row;
  match dict_get key table with
  | None => Ok (seen_status, dict_set key [(status, [time])] table)
  | Some r =>
      match dict_get status r with
      | None => Ok (seen_status, dict_set key (dict_set status [time] r) table)
      | Some l =>
          Ok (seen_status, dict_set key (dict_set status (l ++ [time]) r) table)
      end
  end.

Definition report_scan (per_problem per_model per_instance : bool)
    (avg : option string) (rows : list Row) : result (gset string * Table) :=
  for_each (report_row per_problem per_model per_instance avg) (∅, []) rows.

(** Lines 48-49. *)
Definition status_columns (seen_status : gset string) : list string :=
  sort_strings true (elements seen_status).

(** Lines 55-57. *)
Definition cell (avg : option string) (r : StatusTimes) (s : string)
  : result string :=
  match avg, dict_get s r with
  | Some _, Some l =>
      mean ← PyFloat.div (py_sum l) (PyFloat.of_Z (Z.of_nat (length l)));
      Ok (str_nat (length l) +:+ " (" +:+ format_f 2 mean +:+ "s)")
  | _, Some l => Ok (str_nat (length l))
  | _, None => Ok (str_nat 0)
  end.

Definition report_status (per_problem per_model per_instance : bool)
    (rows : list Row) (avg : option string) (tablefmt : string)
  : result Tabulate :=
  st ← report_scan per_problem per_model per_instance avg rows;
  let seen_status := status_columns (fst st) in
  body ← map_result
           (fun kr : list string * StatusTimes =>
              cells ← map_result (cell avg (snd kr)) seen_status;
              Ok (fst kr ++ cells))
           (snd st);
  Ok (mkTabulate body
        (header_keys per_problem per_model per_instance ++ seen_status)
        tablefmt).

End Report.

(** ** Concrete interpreter functions for worked examples *)

Module Concrete.

Definition digit_of (c : ascii) : option Z :=
  let n := Z.of_N (N_of_ascii c) in
  if ((48 <=? n) && (n <=? 57))%Z then Some (n - 48)%Z else None.

(** Reads decimal digits: the number read so far and how many digits. *)
Fixpoint digits (s : string) (acc : Z) (n : nat) : option (Z * nat * string) :=
  match s with
  | EmptyString => Some (acc, n, s)
  | String c s' =>
      match digit_of c with
      | Some d => digits s' (10 * acc + d)%Z (S n)
      | None => Some (acc, n, s)
      end
  end.

(** [float(s)] on plain decimal literals ([-12], [10.0], [0.25]) whose
    digits fit the 53-bit significand with at most 22 decimals: the
    quotient of two exactly represented integers is the correctly rounded
    value. Other texts are rejected. *)
Definition float_of_str (s : string) : option float :=
  let '(neg, body) :=
    match s with
    | String "-" s' => (true, s')
    | String "+" s' => (false, s')
    | _ => (false, s)
    end in
  match digits body 0 0 with
  | Some (int_part, n_int, rest) =>
      let finish (m : Z) (k n : nat) :=
        if bool_decide (0 < n) && (m <? 2 ^ 53)%Z && bool_decide (k <= 22) then
          match PyFloat.div (PyFloat.of_Z m) (PyFloat.of_Z (10 ^ Z.of_nat k)) with
          | Ok x => Some (if neg then SFopp x else x)
          | Raise _ => None
          end
        else None in
      match rest with
      | EmptyString => finish int_part 0 n_int
      | String "." frac =>
          match digits frac int_part 0 with
          | Some (m, k, EmptyString) => finish m k (n_int + k)
          | _ => None
          end
      | _ => None
      end
  | None => None
  end.

(** Left-to-right summation from [0]. *)
Definition py_sum (l : list float) : float :=
  fold_left PyFloat.add l (PyFloat.of_Z 0).

(** Last component of a slash-separated path. *)
Fixpoint path_name_aux (s acc : string) : string :=
  match s with
  | EmptyString => acc
  | String "/" s' => path_name_aux s' ""
  | String c s' => path_name_aux s' (acc +:+ String c EmptyString)
  end.

Definition path_name (s : string) : string := path_name_aux s "".

Definition str_Z (z : Z) : string := NilZero.string_of_uint (N.to_uint (Z.to_N z)).

Fixpoint pad_zeros (n : nat) (s : string) : string :=
  match n with
  | O => s
  | S n' => if bool_decide (String.length s <= n') then pad_zeros n' ("0" +:+ s) else s
  end.

(** [format(x, ".Nf")]: the exact binary value, rounded half-to-even to
    [digits] decimals. *)
Definition format_f (decimals : nat) (x : float) : string :=
  let scale := (10 ^ Z.of_nat decimals)%Z in
  let show (neg : bool) (q : Z) :=
    (if neg then "-" else "") +:+ str_Z (q / scale)
      +:+ (if bool_decide (0 < decimals)
           then "." +:+ pad_zeros decimals (str_Z (q mod scale)) else "") in
  match x with
  | S754_nan => "nan"
  | S754_infinity s => if s then "-inf" else "inf"
  | S754_zero s => show s 0%Z
  | S754_finite s m e =>
      let num := (Z.pos m * scale * 2 ^ Z.max e 0)%Z in
      let den := (2 ^ Z.max (- e) 0)%Z in
      let q := (num / den)%Z in
      let r := (num mod den)%Z in
      let q' :=
        match (2 * r ?= den)%Z with
        | Lt => q
        | Gt => (q + 1)%Z
        | Eq => if Z.even q then q else (q + 1)%Z
        end in
      show s q'
  end.

End Concrete.

(** ** The classification of one instance, read off [compare_step]

    [classify] names the branch that [compare_step] takes for an item of
    [from_stats]; [record] is the append of that branch. *)

Inductive Outcome : Type :=
| IsMissing
| StatusChanged (from_status to_status : string)
| TimeChanged (from_time to_time : float)
| ObjChanged (from_obj to_obj : float) (maximise : bool)
| Unchanged.

Definition time_branch (status method : string) : bool :=
  bool_decide (status = "OPTIMAL_SOLUTION")
  || (bool_decide (status = "SATISFIED") && bool_decide (method = "satisfy")).

Definition obj_branch (status method : string) : bool :=
  bool_decide (status = "SATISFIED") && negb (bool_decide (method = "satisfy")).

Definition classify (to_stats : ToStats) (td od : float) (item : Key * FromVal)
  : result Outcome :=
  let '(key, (f_status, f_time, f_obj, f_method)) := item in
  match dict_get key to_stats with
  | None => Ok IsMissing
  | Some (t_status, t_time, t_obj) =>
      if negb (bool_decide (f_status = t_status)) then
        Ok (StatusChanged f_status t_status)
      else if time_branch f_status f_method then
        time_change ← PyFloat.div (PyFloat.sub t_time f_time) f_time;
        if PyFloat.gtb (PyFloat.abs time_change) td
        then Ok (TimeChanged f_time t_time) else Ok Unchanged
      else if obj_branch f_status f_method then
        obj_change ← PyFloat.div (PyFloat.sub t_obj f_obj) f_obj;
        if PyFloat.gtb (PyFloat.abs obj_change) od
        then Ok (ObjChanged f_obj t_obj (bool_decide (f_method = "maximize")))
        else Ok Unchanged
      else Ok Unchanged
  end.

Definition record (ch : PerformanceChanges) (key : Key) (o : Outcome)
  : PerformanceChanges :=
  match o with
  | IsMissing =>
      mkChanges (time_delta ch) (obj_delta ch) (status_changes ch)
        (time_changes ch) (obj_changes ch) (missing_instances ch ++ [key])
  | StatusChanged a b =>
      mkChanges (time_delta ch) (obj_delta ch)
        (dd_append (a, b) key (status_changes ch))
        (time_changes ch) (obj_changes ch) (missing_instances ch)
  | TimeChanged f t =>
      mkChanges (time_delta ch) (obj_delta ch) (status_changes ch)
        (time_changes ch ++ [(fst key, snd key, f, t)])
        (obj_changes ch) (missing_instances ch)
  | ObjChanged f t mx =>
      mkChanges (time_delta ch) (obj_delta ch) (status_changes ch)
        (time_changes ch) (obj_changes ch ++ [(fst key, snd key, f, t, mx)])
        (missing_instances ch)
  | Unchanged => ch
  end.

Definition classify_all (to_stats : ToStats) (td od : float)
    (from_stats : FromStats) : result (list (Key * Outcome)) :=
  map_result (fun item => o ← classify to_stats td od item; Ok (fst item, o))
    from_stats.

Definition record_all (kos : list (Key * Outcome)) (ch : PerformanceChanges)
  : PerformanceChanges :=
  foldl (fun c ko => record c (fst ko) (snd ko)) ch kos.

(** ** How often an instance key occurs in each container *)

Definition count_key (k : Key) (l : list Key) : nat :=
  length (filter (fun x => x = k) l).

Definition time_change_key (e : TimeChange) : Key :=
  let '(m, d, _, _) := e in (m, d).

Definition obj_change_key (e : ObjChange) : Key :=
  let '(m, d, _, _, _) := e in (m, d).

Definition occ_missing (k : Key) (ch : PerformanceChanges) : nat :=
  count_key k (missing_instances ch).

Definition occ_status (k : Key) (ch : PerformanceChanges) : nat :=
  sum_list (map (fun e => count_key k (snd e)) (status_changes ch)).


Definition occ_time (k : Key) (ch : PerformanceChanges) : nat :=
  count_key k (map time_change_key (time_changes ch)).

Definition occ_obj (k : Key) (ch : PerformanceChanges) : nat :=
  count_key k (map obj_change_key (obj_changes ch)).

Definition occurrences (k : Key) (ch : PerformanceChanges) : nat :=
  occ_missing k ch + occ_status k ch + occ_time k ch + occ_obj k ch.

Definition status_count {P : Type} (k : Key) (d : list (P * list Key)) : nat :=
  sum_list (map (fun e => count_key k (snd e)) d).

Inductive Container : Type := InMissing | InStatus | InTime | InObj.

Definition occ (c : Container) (k : Key) (ch : PerformanceChanges) : nat :=
  match c with
  | InMissing => occ_missing k ch
  | InStatus => occ_status k ch
  | InTime => occ_time k ch
  | InObj => occ_obj k ch
  end.

(** The container an outcome appends to. *)
Definition goes_to (c : Container) (o : Outcome) : nat :=
  match c, o with
  | InMissing, IsMissing => 1
  | InStatus, StatusChanged _ _ => 1
  | InTime, TimeChanged _ _ => 1
  | InObj, ObjChanged _ _ _ => 1
  | _, _ => 0
  end.

(** ** The entries that the scan stores for a row *)

Definition fv_status (fv : FromVal) : string := let '(s, _, _, _) := fv in s.
Definition tv_status (tv : ToVal) : string := let '(s, _, _) := tv in s.

Section Entries.
Variable float_of_str : string -> option float.

(** The value and key stored in [from_stats] (lines 131-136). *)
Definition from_entry (row : Row) : result (Key * FromVal) :=
  status ← row_get row "status";
  time ← float_or_zero float_of_str row "time";
  objective ← float_or_nan float_of_str row "objective";
  method ← row_get row "method";
  key ← row_key row;
  Ok (key, (status, time, objective, method)).

(** The value and key stored in [to_stats] (lines 138-142). *)
Definition to_entry (row : Row) : result (Key * ToVal) :=
  status ← row_get row "status";
  time ← float_or_zero float_of_str row "time";
  objective ← float_or_nan float_of_str row "objective";
  key ← row_key row;
  Ok (key, (status, time, objective)).
End Entries.

Definition row_conf_is (conf : string) (row : Row) : bool :=
  bool_decide (row !! "configuration" = Some conf).

Definition row_has_key (k : Key) (row : Row) : bool :=
  bool_decide (row !! "model" = Some (fst k))
  && bool_decide (row !! "data_file" = Some (snd k)).

(** Rows that the scan stores in [from_stats], and in [to_stats]. *)
Definition from_side (from_conf : string) (row : Row) : bool :=
  row_conf_is from_conf row.

Definition to_side (from_conf to_conf : string) (row : Row) : bool :=
  negb (row_conf_is from_conf row) && row_conf_is to_conf row.

(** The last row of the table, in file order, that is selected by [sel]
    and carries the instance key [k]. *)
Fixpoint last_row (sel : Row -> bool) (k : Key) (rows : list Row) : option Row :=
  match rows with
  | [] => None
  | r :: rest =>
      match last_row sel k rest with
      | Some r' => Some r'
      | None => if sel r && row_has_key k r then Some r else None
      end
  end.

(** The outcome that the last rows of the two sides give for a key: what
    the comparison of [k] is when it is computed from those rows alone. *)
Definition last_rows_outcome (float_of_str : string -> option float)
    (from_conf to_conf : string) (td od : float) (k : Key) (rows : list Row)
  : result (option Outcome) :=
  match last_row (from_side from_conf) k rows with
  | None => Ok None
  | Some rf =>
      e ← from_entry float_of_str rf;
      ts ← match last_row (to_side from_conf to_conf) k rows with
           | None => Ok []
           | Some rt => te ← to_entry float_of_str rt; Ok [te]
           end;
      o ← classify ts td od e;
      Ok (Some o)
  end.

(** Two rows that differ at most in the value of their [method] cell. *)
Definition same_except_method (r r' : Row) : Prop :=
  (forall col, col <> "method" -> r !! col = r' !! col)
  /\ is_Some (r !! "method") /\ is_Some (r' !! "method").

(** Two tables that differ at most in the [method] values of rows of the
    configuration [to_conf]. *)
Definition differ_in_to_method (to_conf : string) (rows rows' : list Row) : Prop :=
  Forall2 (fun r r' => r = r'
                       \/ (row_conf_is to_conf r = true /\ same_except_method r r'))
    rows rows'.

(** ** Columns read by indexing, and the errors of a scan *)

(** The columns that the comparator's scan reads from a row with [row[...]]. *)
Definition compare_reads (from_conf to_conf : string) (row : Row) : list string :=
  "configuration"
    :: match row !! "configuration" with
       | Some c =>
           if decide (c = from_conf) then
             ["status"; "time"; "objective"; "method"; "model"; "data_file"]
           else if decide (c = to_conf) then
             ["status"; "time"; "objective"; "model"; "data_file"]
           else []
       | None => []
       end.

(** The columns that the reporter's scan reads from a row with [row[...]]. *)
Definition report_reads (per_problem per_model per_instance : bool) : list string :=
  ["configuration"]
    ++ (if per_model then ["model"] else [])
    ++ (if per_problem then ["problem"] else [])
    ++ (if per_instance then ["data_file"] else [])
    ++ ["status"].

(** [e] is a lookup error for a column that [row] lacks, or a parse error. *)
Definition row_error (row : Row) (e : exn) : Prop :=
  (exists col, e = KeyError col /\ row !! col = None) \/ (exists s, e = ValueError s).

(** Every time and objective cell of the table is empty or a number. *)
Definition numbers_ok (float_of_str : string -> option float) (rows : list Row)
  : Prop :=
  forall row col s,
    row ∈ rows -> col ∈ ["time"; "objective"] -> row !! col = Some s ->
    s = "" \/ is_Some (float_of_str s).

(** ** Orders used by the sorts *)

(** Agreement of two results up to a relation on their values. *)
Definition agree {A : Type} (P : A -> A -> Prop) (r r' : result A) : Prop :=
  match r, r' with
  | Ok a, Ok a' => P a a'
  | Raise e, Raise e' => e = e'
  | _, _ => False
  end.

(** [a] may stand before [b] in ascending order: [b] is not below [a]. *)
Definition not_above {K A : Type} (lt : K -> K -> bool) (a b : K * A) : Prop :=
  lt (fst b) (fst a) = false.

(** The order in which [sorted] leaves two elements [a], [b]: ascending
    keys, descending keys with [reverse=True]. *)
Definition in_order {K A : Type} (lt : K -> K -> bool) (key : A -> result K)
    (reverse : bool) (a b : A) : Prop :=
  exists ka kb, key a = Ok ka /\ key b = Ok kb
                /\ (if reverse then lt ka kb else lt kb ka) = false.


(** A position of the non-NaN floats in a lexicographic order of integer
    triples, and that order. *)
Definition rank (x : float) : Z * Z * Z :=
  match x with
  | S754_nan => (0, 0, 0)
  | S754_infinity true => (-2, 0, 0)
  | S754_infinity false => (2, 0, 0)
  | S754_zero _ => (0, 0, 0)
  | S754_finite true m e => (-1, - e, - Z.pos m)
  | S754_finite false m e => (1, e, Z.pos m)
  end%Z.

Definition le3 (a b : Z * Z * Z) : Prop :=
  let '(a1, a2, a3) := a in
  let '(b1, b2, b3) := b in
  (a1 < b1 \/ (a1 = b1 /\ (a2 < b2 \/ (a2 = b2 /\ a3 <= b3))))%Z.

(** Every element of [l] has a sort key, and no key is NaN. *)
Definition keys_ok {X : Type} (key : X -> result float) (l : list X) : Prop :=
  forall x, x ∈ l -> exists k, key x = Ok k /\ PyFloat.is_nan k = false.

(** [a] before [b] is in descending (ascending) order of [key]. *)
Definition descending_by {X : Type} (key : X -> result float) (a b : X) : Prop :=
  exists ka kb, key a = Ok ka /\ key b = Ok kb /\ PyFloat.leb kb ka = true.

Definition ascending_by {X : Type} (key : X -> result float) (a b : X) : Prop :=
  exists ka kb, key a = Ok ka /\ key b = Ok kb /\ PyFloat.leb ka kb = true.

(** The key by which C5 says the objective changes are sorted: the
    relative change, with the sign flipped for maximize entries. *)
Definition claimed_obj_key (it : ObjChange) : result float :=
  let '(_, _, f, t, maximise) := it in
  PyFloat.div
    (PyFloat.mul (PyFloat.of_Z (if maximise then -1 else 1)) (PyFloat.sub t f)) f.

(** ** Sample tables *)

Module Sample.

(** One CSV record under the header
    [configuration,problem,model,data_file,status,time,objective,method]. *)
Definition csv_row (configuration problem model data_file status time
    objective method : string) : Row :=
  list_to_map
    [("configuration", configuration); ("problem", problem); ("model", model);
     ("data_file", data_file); ("status", status); ("time", time);
     ("objective", objective); ("method", method)].

(** The float [0.1]. *)
Definition tenth : float := S754_finite false 7205759403792794 (-56).
(** The floats [10.0] and [15.0]. *)
Definition ten : float := S754_finite false 5629499534213120 (-49).
Definition fifteen : float := S754_finite false 8444249301319680 (-49).

(** (confA, m1, d1, SATISFIED, 10.0, , satisfy) and
    (confB, m1, d1, SATISFIED, 15.0, , satisfy) *)
Definition slower : list Row :=
  [csv_row "confA" "p" "m1" "d1" "SATISFIED" "10.0" "" "satisfy";
   csv_row "confB" "p" "m1" "d1" "SATISFIED" "15.0" "" "satisfy"].

(** A run that took no measurable time, and its counterpart. *)
Definition zero_time : list Row :=
  [csv_row "confA" "p" "m1" "d1" "OPTIMAL_SOLUTION" "0" "7" "minimize";
   csv_row "confB" "p" "m1" "d1" "OPTIMAL_SOLUTION" "5" "7" "minimize"].

(** A minimisation whose first objective value is 0, and one whose first
    run reported no objective. *)
Definition zero_objective : list Row :=
  [csv_row "confA" "p" "m1" "d1" "SATISFIED" "1" "0" "minimize";
   csv_row "confB" "p" "m1" "d1" "SATISFIED" "1" "5" "minimize"].

Definition no_objective : list Row :=
  [csv_row "confA" "p" "m1" "d1" "SATISFIED" "1" "" "minimize";
   csv_row "confB" "p" "m1" "d1" "SATISFIED" "1" "5" "minimize"].

(** Two instances of confA, one of them also solved by confB. *)
Definition one_missing : list Row :=
  [csv_row "confA" "p" "m1" "d1" "SATISFIED" "10.0" "" "satisfy";
   csv_row "confA" "p" "m1" "d2" "UNKNOWN" "60" "" "satisfy";
   csv_row "confB" "p" "m1" "d1" "SATISFIED" "15.0" "" "satisfy"].

(** confA has two rows for the instance (m1, d1); the later one has the
    same time as the row of confB. *)
Definition repeated : list Row :=
  [csv_row "confA" "p" "m1" "d1" "SATISFIED" "10.0" "" "satisfy";
   csv_row "confA" "p" "m1" "d1" "SATISFIED" "15.0" "" "satisfy";
   csv_row "confB" "p" "m1" "d1" "SATISFIED" "15.0" "" "satisfy"].

(** [slower] with another method written in the row of confB. *)
Definition slower_other_method : list Row :=
  [csv_row "confA" "p" "m1" "d1" "SATISFIED" "10.0" "" "satisfy";
   <["method" := "maximize"]>
     (csv_row "confB" "p" "m1" "d1" "SATISFIED" "15.0" "" "satisfy")].

(** Two slower proofs of optimality (d3, d4) and two changed objectives of
    a minimisation (d1, d2). *)
Definition mixed : list Row :=
  [csv_row "confA" "p" "m1" "d1" "SATISFIED" "1" "10" "minimize";
   csv_row "confA" "p" "m1" "d2" "SATISFIED" "1" "10" "minimize";
   csv_row "confA" "p" "m1" "d3" "OPTIMAL_SOLUTION" "10" "7" "minimize";
   csv_row "confA" "p" "m1" "d4" "OPTIMAL_SOLUTION" "10" "7" "minimize";
   csv_row "confB" "p" "m1" "d1" "SATISFIED" "1" "15" "minimize";
   csv_row "confB" "p" "m1" "d2" "SATISFIED" "1" "5" "minimize";
   csv_row "confB" "p" "m1" "d3" "OPTIMAL_SOLUTION" "15" "7" "minimize";
   csv_row "confB" "p" "m1" "d4" "OPTIMAL_SOLUTION" "30" "7" "minimize"].

(** The floats [5.0] and [30.0]. *)
Definition five : float := S754_finite false 5629499534213120 (-50).
Definition thirty : float := S754_finite false 8444249301319680 (-48).

(** What the comparison of confA with confB reports for [mixed] with both
    thresholds at 0.1. *)
Definition mixed_changes : PerformanceChanges :=
  mkChanges tenth tenth []
    [("m1", "d3", ten, fifteen); ("m1", "d4", ten, thirty)]
    [("m1", "d1", ten, fifteen, false); ("m1", "d2", ten, five, false)]
    [].

(** [slower] read from a file whose header has no [time] column. *)
Definition without_time : list Row := map (delete "time") slower.

(** [slower] read from a file whose header has no [status] column. *)
Definition without_status : list Row := map (delete "status") slower.


(** Four runs of one configuration with three distinct statuses. *)
Definition statuses : list Row :=
  [csv_row "c1" "p" "m1" "d1" "SATISFIED" "5" "" "satisfy";
   csv_row "c1" "p" "m1" "d2" "UNKNOWN" "60" "" "satisfy";
   csv_row "c1" "p" "m1" "d3" "SATISFIED" "15" "" "satisfy";
   csv_row "c1" "p" "m1" "d4" "ERROR" "1" "" "satisfy"].

(** The set of statuses and the table that the reporter's scan of
    [statuses] builds when it averages [time] per configuration. *)
Definition statuses_seen : gset string :=
  {[ "SATISFIED" ]} ∪ ({[ "UNKNOWN" ]} ∪ ({[ "ERROR" ]} ∪ ∅)).

Definition statuses_table : Table :=
  [(["c1"],
    [("SATISFIED", [S754_finite false 5629499534213120 (-50); fifteen]);
     ("UNKNOWN", [S754_finite false 8444249301319680 (-47)]);
     ("ERROR", [S754_finite false 4503599627370496 (-52)])])].

(** (confA, m1, d1, UNKNOWN) and (confB, m1, d1, OPTIMAL_SOLUTION) *)
Definition solved : list Row :=
  [csv_row "confA" "p" "m1" "d1" "UNKNOWN" "60" "" "minimize";
   csv_row "confB" "p" "m1" "d1" "OPTIMAL_SOLUTION" "5" "7" "minimize"].

(** An instance that neither configuration could decide. *)
Definition both_unknown : list Row :=
  [csv_row "confA" "p" "m1" "d1" "UNKNOWN" "10.0" "" "minimize";
   csv_row "confB" "p" "m1" "d1" "UNKNOWN" "30" "" "minimize"].

(** confB solved the instance (m1, d9), which confA did not run. *)
Definition only_in_to : list Row :=
  [csv_row "confA" "p" "m1" "d1" "UNKNOWN" "10.0" "" "minimize";
   csv_row "confB" "p" "m1" "d1" "UNKNOWN" "30" "" "minimize";
   csv_row "confB" "p" "m1" "d9" "OPTIMAL_SOLUTION" "5" "7" "minimize"].

(** [slower] with a row of a third configuration in between. *)
Definition three_configurations : list Row :=
  [csv_row "confA" "p" "m1" "d1" "SATISFIED" "10.0" "" "satisfy";
   csv_row "confC" "p" "m1" "d1" "ERROR" "" "" "satisfy";
   csv_row "confB" "p" "m1" "d1" "SATISFIED" "15.0" "" "satisfy"].

(** The table that the scan of [statuses] builds without an average
    field: every value is the default 0. *)
Definition statuses_counted : Table :=
  [(["c1"],
    [("SATISFIED", [S754_zero false; S754_zero false]);
     ("UNKNOWN", [S754_zero false]);
     ("ERROR", [S754_zero false])])].

End Sample.

(** ** The whole of [PerformanceChanges.__str__] (lines 24-118) *)

(** Lines 29-38. *)
Definition pos_status_changes : list (string * string) :=
  [("ERROR", "SATISFIED");
   ("ERROR", "UNSATISFIABLE");
   ("ERROR", "OPTIMAL_SOLUTION");
   ("ERROR", "UNKNOWN");
   ("UNKNOWN", "SATISFIED");
   ("UNKNOWN", "UNSATISFIABLE");
   ("UNKNOWN", "OPTIMAL_SOLUTION");
   ("SATISFIED", "OPTIMAL_SOLUTION")].

(** Lines 40-45. *)
Definition conflicting_status_changes : list (string * string) :=
  [("UNSATISFIABLE", "SATISFIED");
   ("SATISFIED", "UNSATISFIABLE");
   ("UNSATISFIABLE", "OPTIMAL_SOLUTION");
   ("OPTIMAL_SOLUTION", "UNSATISFIABLE")].

(** The local variables that the loop of lines 51-62 updates. *)
Record StatusSections : Type := mkSections {
  n_pos_status_changes : nat;
  n_bad_status_changes : nat;
  stat_bad_str : string;
  stat_pos_str : string;
  stat_neg_str : string
}.

(** Lines 52-54. *)
Definition change_block (change : string * string) (li : list Key) : string :=
  foldl (fun s i => s +:+ "  - " +:+ fst i +:+ " " +:+ snd i +:+ nl)
    (fst change +:+ " -> " +:+ snd change +:+ ":" +:+ nl) li.

(** Body of the loop of lines 51-62. *)
Definition sections_step (acc : StatusSections)
    (entry : (string * string) * list Key) : StatusSections :=
  let '(change, li) := entry in
  let s := change_block change li in
  if bool_decide (change ∈ conflicting_status_changes) then
    mkSections (n_pos_status_changes acc) (n_bad_status_changes acc + length li)
      (stat_bad_str acc +:+ s) (stat_pos_str acc) (stat_neg_str acc)
  else if bool_decide (change ∈ pos_status_changes) then
    mkSections (n_pos_status_changes acc + length li) (n_bad_status_changes acc)
      (stat_bad_str acc) (stat_pos_str acc +:+ s) (stat_neg_str acc)
  else
    mkSections (n_pos_status_changes acc) (n_bad_status_changes acc)
      (stat_bad_str acc) (stat_pos_str acc) (stat_neg_str acc +:+ s).

Definition status_sections (ch : PerformanceChanges) : StatusSections :=
  foldl sections_step (mkSections 0 0 "" "" "") (status_changes ch).

(** Line 25. *)
Definition n_status_changes (ch : PerformanceChanges) : nat :=
  sum_list (map (fun e => length (snd e)) (status_changes ch)).

(** Lines 64-76: a non-empty block gets its title. *)
Definition titled (title rule block : string) : string :=
  if bool_decide (block <> "") then title +:+ nl +:+ rule +:+ nl +:+ block
  else block.

(** [len([x for x in self.time_changes if (x[3] - x[2]) / x[2] < 0])] *)
Definition n_faster (ch : PerformanceChanges) : result nat :=
  rels ← map_result time_rel (time_changes ch);
  Ok (length (List.filter (fun r => PyFloat.ltb r (PyFloat.of_Z 0)) rels)).

(** [len([x for x in self.obj_changes
          if (1 if x[4] else -1) * (x[3] - x[2]) / x[2] > 0])] *)
Definition n_better (ch : PerformanceChanges) : result nat :=
  keys ← map_result obj_key (obj_changes ch);
  Ok (length (List.filter (fun r => PyFloat.gtb r (PyFloat.of_Z 0)) keys)).

Section Str.
Variable format_f : nat -> float -> string.

(** Lines 113-116: the lines of the missing instances have no line end. *)
Definition missing_section (ch : PerformanceChanges) : string :=
  if bool_decide (0 < length (missing_instances ch)) then
    foldl (fun s it => s +:+ "- " +:+ fst it +:+ " " +:+ snd it)
      ("Missing Instances:" +:+ nl +:+ "==================" +:+ nl)
      (missing_instances ch)
  else "".

Definition performance_changes_str (ch : PerformanceChanges) : result string :=
  let n := n_status_changes ch in
  let acc := status_sections ch in
  let bad := titled "Conflicting Status Changes:" "---------------------------"
               (stat_bad_str acc) in
  let pos := titled "Positive Status Changes:" "------------------------"
               (stat_pos_str acc) in
  let neg := titled "Negative Status Changes:" "------------------------"
               (stat_neg_str acc) in
  faster ← n_faster ch;
  better ← n_better ch;
  let output :=
    "Summary:" +:+ nl +:+ "========" +:+ nl
    +:+ "- Status Changes: " +:+ str_nat n +:+ " ("
    +:+ (if bool_decide (0 < n_bad_status_changes acc)
         then "conflicts: " +:+ str_nat (n_bad_status_changes acc) +:+ ", "
         else "")
    +:+ "positive: " +:+ str_nat (n_pos_status_changes acc) +:+ ")" +:+ nl
    +:+ "- Runtime Changes: " +:+ str_nat (length (time_changes ch))
    +:+ " (positive: " +:+ str_nat faster +:+ ")" +:+ nl
    +:+ "- Objective Changes: " +:+ str_nat (length (obj_changes ch))
    +:+ " (posxive: " +:+ str_nat better +:+ ")" +:+ nl in
  let output := output +:+ nl +:+ nl in
  let output :=
    output
    +:+ (if bool_decide (0 < n)
         then "Status Changes:" +:+ nl +:+ "===============" +:+ nl
              +:+ bad +:+ nl +:+ neg +:+ nl +:+ pos +:+ nl
         else "") in
  timing ← timing_section format_f ch;
  objective ← objective_section format_f ch;
  Ok (output +:+ timing +:+ objective +:+ missing_section ch).

End Str.

(** The number of instances listed in [d] under the pairs of [table]. *)
Definition count_in (table : list (string * string))
    (d : list ((string * string) * list Key)) : nat :=
  sum_list (map (fun e => length (snd e))
              (List.filter (fun e => bool_decide (fst e ∈ table)) d)).

(** Some timing or objective change has a zero first value. *)
Definition zero_denominator (ch : PerformanceChanges) : Prop :=
  (exists m d f t, (m, d, f, t) ∈ time_changes ch
                   /\ PyFloat.eqb f (PyFloat.of_Z 0) = true)
  \/ (exists m d f t mx, (m, d, f, t, mx) ∈ obj_changes ch
                          /\ PyFloat.eqb f (PyFloat.of_Z 0) = true).

(** ** Further notions for the report *)

(** [table[key].get(s, [])], and the empty list for a key that is not in
    the table. *)
Definition table_times (key : list string) (s : string) (table : Table)
  : list float :=
  match dict_get key table with
  | Some r => default [] (dict_get s r)
  | None => []
  end.

(** The values of the average field of the rows with group key [key] and
    status [s], in file order. *)
Fixpoint group_times (float_of_str : string -> option float)
    (path_name : string -> string) (per_problem per_model per_instance : bool)
    (avg : option string) (key : list string) (s : string) (rows : list Row)
  : list float :=
  match rows with
  | [] => []
  | row :: rest =>
      match group_key path_name per_problem per_model per_instance row,
            row_get row "status", avg_time float_of_str avg row with
      | Ok k, Ok status, Ok time =>
          if bool_decide (k = key) && bool_decide (status = s) then [time] else []
      | _, _, _ => []
      end
      ++ group_times float_of_str path_name per_problem per_model per_instance
           avg key s rest
  end.

(** The number of values that the table holds. *)
Definition total_runs (table : Table) : nat :=
  sum_list (map (fun kr => sum_list (map (fun sl => length (snd sl)) (snd kr)))
              table).

(** The group keys of the rows, each once, in the order of their first
    rows. *)
Definition first_occurrences (keys : list (list string)) : list (list string) :=
  rev (remove_dups (rev keys)).

(** ** Further notions for the comparison *)

(** [k in changes.status_changes[pair]], for a pair that is a key of the
    dictionary. *)
Definition listed_under (pair : string * string) (k : Key)
    (ch : PerformanceChanges) : Prop :=
  exists l, dict_get pair (status_changes ch) = Some l /\ k ∈ l.

(** [key not in to_stats] *)
Definition absent_from (to_stats : ToStats) (key : Key) : bool :=
  match dict_get key to_stats with
  | Some _ => false
  | None => true
  end.

(** The rows that belong to one of the two compared configurations. *)
Definition compared_row (from_conf to_conf : string) (row : Row) : bool :=
  row_conf_is from_conf row || row_conf_is to_conf row.

(** Every list the scan stores holds at least the value that created it. *)
Definition lists_filled (table : Table) : Prop :=
  Forall (fun kr : list string * StatusTimes =>
            Forall (fun sl : string * list float => snd sl <> []) (snd kr))
    table.

(** * Properties *)

(** ** Results and loops *)

Lemma bind_Ok_inv {A B : Type} (r : result A) (k : A -> result B) (b : B) :
  (r ≫= k) = Ok b -> exists a, r = Ok a /\ k a = Ok b.
Proof. destruct r as [a|e]; simpl; [eauto | discriminate]. Qed.

Lemma for_each_app {S X : Type} (body : S -> X -> result S) (s : S) (xs ys : list X) :
  for_each body s (xs ++ ys) = (for_each body s xs ≫= fun s' => for_each body s' ys).
Proof.
  revert s. induction xs as [|x xs IH]; intros s; simpl; [reflexivity|].
  destruct (body s x) as [s'|e]; simpl; [apply IH | reflexivity].
Qed.

Lemma for_each_invariant {S X : Type} (body : S -> X -> result S) (P : S -> Prop)
    (xs : list X) :
  (forall s x s', P s -> body s x = Ok s' -> P s') ->
  forall s s', P s -> for_each body s xs = Ok s' -> P s'.
Proof.
  intros Hstep. induction xs as [|x xs IH]; intros s s' Hs Hrun; simpl in Hrun.
  - by inversion Hrun; subst.
  - apply bind_Ok_inv in Hrun as (s1 & H1 & H2). eauto.
Qed.

Lemma map_result_Forall2 {X Y : Type} (f : X -> result Y) (xs : list X) (ys : list Y) :
  map_result f xs = Ok ys <-> Forall2 (fun x y => f x = Ok y) xs ys.
Proof.
  revert ys. induction xs as [|x xs IH]; intros ys; simpl.
  - split; [intros [= <-]; constructor | by inversion 1].
  - split.
    + intros H. apply bind_Ok_inv in H as (y & Hy & H).
      apply bind_Ok_inv in H as (ys' & Hys & [= <-]).
      constructor; [done | by apply IH].
    + inversion 1 as [|? y ? ys' Hy Hys]; subst.
      rewrite Hy. simpl. apply IH in Hys. rewrite Hys. reflexivity.
Qed.

Lemma Forall2_elem_l {X Y : Type} (P : X -> Y -> Prop) (xs : list X) (ys : list Y) x :
  Forall2 P xs ys -> x ∈ xs -> exists y, y ∈ ys /\ P x y.
Proof.
  intros HF Hx. apply list_elem_of_lookup in Hx as [i Hi].
  destruct (Forall2_lookup_l _ _ _ _ _ HF Hi) as (y & Hy & HP).
  exists y. split; [by eapply list_elem_of_lookup_2 | done].
Qed.

Lemma Forall2_elem_r {X Y : Type} (P : X -> Y -> Prop) (xs : list X) (ys : list Y) y :
  Forall2 P xs ys -> y ∈ ys -> exists x, x ∈ xs /\ P x y.
Proof.
  intros HF Hy. apply list_elem_of_lookup in Hy as [i Hi].
  destruct (Forall2_lookup_r _ _ _ _ _ HF Hi) as (x & Hx & HP).
  exists x. split; [by eapply list_elem_of_lookup_2 | done].
Qed.

(** ** Insertion-ordered dictionaries *)

Section DictFacts.
Context {K V : Type} `{EqDecision K}.
Implicit Types (d : list (K * V)) (k : K) (v : V).

Lemma dict_get_set_eq k v d : dict_get k (dict_set k v d) = Some v.
Proof.
  induction d as [|[k' v'] d IH]; simpl.
  - by rewrite decide_True.
  - destruct (decide (k = k')) as [->|Hne]; simpl.
    + by rewrite decide_True.
    + by rewrite decide_False.
Qed.

Lemma dict_get_set_ne k k' v d :
  k <> k' -> dict_get k' (dict_set k v d) = dict_get k' d.
Proof.
  intros Hne. induction d as [|[k0 v0] d IH]; simpl.
  - by rewrite decide_False.
  - destruct (decide (k = k0)) as [->|Hne0]; simpl.
    + by rewrite !decide_False.
    + destruct (decide (k' = k0)); [done | apply IH].
Qed.

Lemma dict_get_None k d : dict_get k d = None <-> k ∉ dict_keys d.
Proof.
  unfold dict_keys. induction d as [|[k' v'] d IH]; simpl.
  - split; [intros _; apply not_elem_of_nil | done].
  - rewrite not_elem_of_cons. destruct (decide (k = k')) as [->|Hne].
    + split; [done | intros [? _]; done].
    + rewrite IH. tauto.
Qed.

Lemma dict_get_Some_elem k v d : dict_get k d = Some v -> (k, v) ∈ d.
Proof.
  induction d as [|[k' v'] d IH]; simpl; [done|].
  destruct (decide (k = k')) as [->|Hne].
  - intros [= ->]. apply list_elem_of_here.
  - intros H. apply list_elem_of_further. auto.
Qed.

Lemma dict_elem_get k v d : NoDup (dict_keys d) -> (k, v) ∈ d -> dict_get k d = Some v.
Proof.
  unfold dict_keys. induction d as [|[k' v'] d IH]; simpl; intros Hnd Hin.
  - by apply elem_of_nil in Hin.
  - apply NoDup_cons in Hnd as [Hk' Hnd].
    apply elem_of_cons in Hin as [[= -> ->]|Hin].
    + by rewrite decide_True.
    + rewrite decide_False; [auto|].
      intros ->. apply Hk'. apply list_elem_of_fmap. by exists (k', v).
Qed.

Lemma dict_keys_set k v d :
  dict_keys (dict_set k v d)
  = match dict_get k d with
    | Some _ => dict_keys d
    | None => dict_keys d ++ [k]
    end.
Proof.
  unfold dict_keys. induction d as [|[k' v'] d IH]; simpl; [done|].
  destruct (decide (k = k')) as [->|Hne]; simpl; [done|].
  rewrite IH. by destruct (dict_get k d).
Qed.

Lemma dict_set_NoDup k v d : NoDup (dict_keys d) -> NoDup (dict_keys (dict_set k v d)).
Proof.
  intros Hnd. rewrite dict_keys_set.
  destruct (dict_get k d) eqn:Hg; [done|].
  apply NoDup_app. split_and!; [done | | apply NoDup_singleton].
  intros x Hx Hx'. apply list_elem_of_singleton in Hx' as ->.
  by apply dict_get_None in Hg.
Qed.

End DictFacts.

(** ** The classification loop *)

Lemma compare_step_classify (ts : ToStats) (ch : PerformanceChanges)
    (item : Key * FromVal) :
  compare_step ts ch item
  = (classify ts (time_delta ch) (obj_delta ch) item
       ≫= fun o => Ok (record ch (fst item) o)).
Proof.
  destruct item as [key [[[fs ft] fo] fm]]. unfold compare_step, classify.
  destruct (dict_get key ts) as [[[tst tt] to]|]; simpl; [|done].
  destruct (negb (bool_decide (fs = tst))); simpl; [done|].
  fold (time_branch fs fm). fold (obj_branch fs fm).
  destruct (time_branch fs fm).
  { destruct (PyFloat.div (PyFloat.sub tt ft) ft) as [c|e]; simpl; [|done].
    destruct (PyFloat.gtb (PyFloat.abs c) (time_delta ch)); simpl; [done|].
    by destruct ch. }
  destruct (obj_branch fs fm); [|by destruct ch].
  destruct (PyFloat.div (PyFloat.sub to fo) fo) as [c|e]; simpl; [|done].
  destruct (PyFloat.gtb (PyFloat.abs c) (obj_delta ch)); simpl; [done|].
  by destruct ch.
Qed.

Lemma record_deltas (ch : PerformanceChanges) (k : Key) (o : Outcome) :
  time_delta (record ch k o) = time_delta ch
  /\ obj_delta (record ch k o) = obj_delta ch.
Proof. by destruct o. Qed.

Lemma for_each_compare_step (ts : ToStats) (fs : FromStats) (ch : PerformanceChanges) :
  for_each (compare_step ts) ch fs
  = (classify_all ts (time_delta ch) (obj_delta ch) fs
       ≫= fun kos => Ok (record_all kos ch)).
Proof.
  revert ch. induction fs as [|item fs IH]; intros ch; simpl; [done|].
  rewrite compare_step_classify. unfold classify_all. simpl.
  destruct (classify ts (time_delta ch) (obj_delta ch) item) as [o|e]; simpl; [|done].
  rewrite IH. destruct (record_deltas ch (fst item) o) as [-> ->].
  fold (classify_all ts (time_delta ch) (obj_delta ch) fs).
  by destruct (classify_all ts (time_delta ch) (obj_delta ch) fs).
Qed.

Lemma compare_loop_outcomes (td od : float) (fs : FromStats) (ts : ToStats) :
  compare_loop td od fs ts
  = (classify_all ts td od fs
       ≫= fun kos => Ok (record_all kos (new_changes td od))).
Proof. unfold compare_loop. by rewrite for_each_compare_step. Qed.

Lemma classify_all_Forall2 ts td od fs kos :
  classify_all ts td od fs = Ok kos <->
  Forall2 (fun item ko => fst ko = fst item /\ classify ts td od item = Ok (snd ko))
    fs kos.
Proof.
  unfold classify_all. rewrite map_result_Forall2.
  split; intros HF; (eapply Forall2_impl; [exact HF|]); intros item [k o]; simpl.
  - intros H. apply bind_Ok_inv in H as (o' & Ho & [= <- <-]). done.
  - intros [-> ->]. done.
Qed.

Lemma classify_all_keys ts td od fs kos :
  classify_all ts td od fs = Ok kos -> map fst kos = dict_keys fs.
Proof.
  rewrite classify_all_Forall2. unfold dict_keys.
  induction 1 as [|item ko fs kos [Hk _] _ IH]; simpl; [done|].
  by rewrite Hk, IH.
Qed.

Lemma classify_all_lookup ts td od fs kos k fv :
  classify_all ts td od fs = Ok kos -> NoDup (dict_keys fs) ->
  dict_get k fs = Some fv ->
  exists o, classify ts td od (k, fv) = Ok o /\ dict_get k kos = Some o.
Proof.
  intros Hall Hnd Hget. apply dict_get_Some_elem in Hget.
  assert (Hnd' : NoDup (dict_keys kos)).
  { unfold dict_keys. by rewrite (classify_all_keys _ _ _ _ _ Hall). }
  apply classify_all_Forall2 in Hall.
  destruct (Forall2_elem_l _ _ _ _ Hall Hget) as ([k' o] & Hin & Hk & Ho).
  simpl in *. subst k'.
  exists o. split; [done|]. by apply dict_elem_get.
Qed.

(** ** Counting occurrences *)

Lemma goes_to_once (o : Outcome) :
  goes_to InMissing o + goes_to InStatus o + goes_to InTime o + goes_to InObj o <= 1.
Proof. destruct o; simpl; lia. Qed.

Lemma count_key_snoc (k x : Key) (l : list Key) :
  count_key k (l ++ [x]) = count_key k l + (if decide (x = k) then 1 else 0).
Proof.
  unfold count_key. rewrite filter_app, length_app. f_equal.
  rewrite filter_cons, filter_nil. by destruct (decide (x = k)).
Qed.

Lemma count_key_elem (k : Key) (l : list Key) : 0 < count_key k l <-> k ∈ l.
Proof.
  unfold count_key. induction l as [|x l IH].
  - rewrite filter_nil. simpl. split; [lia | by intros ?%elem_of_nil].
  - rewrite filter_cons, elem_of_cons. destruct (decide (x = k)) as [->|Hne]; simpl.
    + split; [auto | lia].
    + rewrite IH. split; [auto | intros [->|?]; done].
Qed.

Section StatusCount.
Context {P : Type} `{EqDecision P}.
Implicit Types (d : list (P * list Key)).

Lemma status_count_set k p l l' d :
  dict_get p d = Some l ->
  status_count k (dict_set p l' d) + count_key k l
  = status_count k d + count_key k l'.
Proof.
  unfold status_count. induction d as [|[p0 l0] d IH]; simpl; [done|].
  destruct (decide (p = p0)) as [->|Hne]; simpl.
  - intros [= ->]. lia.
  - intros H. specialize (IH H). lia.
Qed.

Lemma status_count_append k p x d :
  status_count k (dd_append p x d)
  = status_count k d + (if decide (x = k) then 1 else 0).
Proof.
  unfold dd_append. destruct (dict_get p d) as [l|] eqn:Hg.
  - pose proof (status_count_set k p l (l ++ [x]) d Hg) as H.
    rewrite count_key_snoc in H. lia.
  - unfold status_count. rewrite map_app, sum_list_with_app. simpl.
    unfold count_key at 2. rewrite filter_cons, filter_nil.
    destruct (decide (x = k)); simpl; lia.
Qed.
End StatusCount.

Lemma occ_record (c : Container) (k k' : Key) (ch : PerformanceChanges) (o : Outcome) :
  occ c k (record ch k' o)
  = occ c k ch + (if decide (k' = k) then goes_to c o else 0).
Proof.
  destruct k' as [m d].
  destruct c, o; simpl;
    unfold occ_missing, occ_status, occ_time, occ_obj; simpl;
    try (case_decide; lia).
  - apply count_key_snoc.
  - apply (status_count_append k).
  - rewrite map_app. simpl. apply count_key_snoc.
  - rewrite map_app. simpl. apply count_key_snoc.
Qed.

Lemma occ_record_all (c : Container) (k : Key) (kos : list (Key * Outcome))
    (ch : PerformanceChanges) :
  occ c k (record_all kos ch)
  = occ c k ch
    + sum_list (map (fun ko => if decide (fst ko = k) then goes_to c (snd ko) else 0) kos).
Proof.
  unfold record_all. revert ch.
  induction kos as [|[k' o] kos IH]; intros ch; simpl; [lia|].
  rewrite IH, occ_record. lia.
Qed.

Lemma sum_at_key {V : Type} (g : V -> nat) (k : Key) (d : list (Key * V)) :
  NoDup (dict_keys d) ->
  sum_list (map (fun kv => if decide (fst kv = k) then g (snd kv) else 0) d)
  = match dict_get k d with Some v => g v | None => 0 end.
Proof.
  unfold dict_keys. induction d as [|[k' v] d IH]; simpl; intros Hnd; [done|].
  apply NoDup_cons in Hnd as [Hk' Hnd]. specialize (IH Hnd).
  destruct (decide (k' = k)) as [->|Hne].
  - rewrite decide_True by done.
    assert (dict_get k d = None) as Hnone by by apply dict_get_None.
    rewrite Hnone in IH. lia.
  - rewrite decide_False by done. simpl. exact IH.
Qed.

Lemma occ_new_changes c k td od : occ c k (new_changes td od) = 0.
Proof. by destruct c. Qed.

(** The occurrences of a key in the result of the loop are those of the
    outcome of its one item. *)
Lemma occ_compare_loop (c : Container) (k : Key) td od fs ts ch :
  NoDup (dict_keys fs) ->
  compare_loop td od fs ts = Ok ch ->
  match dict_get k fs with
  | Some fv => exists o, classify ts td od (k, fv) = Ok o /\ occ c k ch = goes_to c o
  | None => occ c k ch = 0
  end.
Proof.
  intros Hnd Hrun. rewrite compare_loop_outcomes in Hrun.
  apply bind_Ok_inv in Hrun as (kos & Hall & [= <-]).
  rewrite occ_record_all, occ_new_changes. simpl.
  assert (Hnd' : NoDup (dict_keys kos)).
  { unfold dict_keys. by rewrite (classify_all_keys _ _ _ _ _ Hall). }
  rewrite sum_at_key by done.
  destruct (dict_get k fs) as [fv|] eqn:Hget.
  - destruct (classify_all_lookup _ _ _ _ _ _ _ Hall Hnd Hget) as (o & Ho & Hko).
    exists o. by rewrite Hko.
  - assert (dict_get k kos = None) as ->; [|done].
    apply dict_get_None. unfold dict_keys. rewrite (classify_all_keys _ _ _ _ _ Hall).
    by apply dict_get_None.
Qed.

(** ** The scan *)

Section ScanFacts.
Variable float_of_str : string -> option float.

Lemma scan_row_entries from_conf to_conf fs ts row :
  scan_row float_of_str from_conf to_conf (fs, ts) row
  = (row_get row "configuration" ≫= fun c =>
     if decide (c = from_conf) then
       from_entry float_of_str row ≫= fun e => Ok (dict_set (fst e) (snd e) fs, ts)
     else if decide (c = to_conf) then
       to_entry float_of_str row ≫= fun e => Ok (fs, dict_set (fst e) (snd e) ts)
     else Ok (fs, ts)).
Proof.
  unfold scan_row, from_entry, to_entry.
  destruct (row_get row "configuration") as [c|e] eqn:Hc; simpl; [|done].
  destruct (decide (c = from_conf)).
  - destruct (row_get row "status"); simpl; [|done].
    destruct (float_or_zero _ row "time"); simpl; [|done].
    destruct (float_or_nan _ row "objective"); simpl; [|done].
    destruct (row_get row "method"); simpl; [|done].
    by destruct (row_key row).
  - destruct (decide (c = to_conf)); [|done].
    destruct (row_get row "status"); simpl; [|done].
    destruct (float_or_zero _ row "time"); simpl; [|done].
    destruct (float_or_nan _ row "objective"); simpl; [|done].
    by destruct (row_key row).
Qed.

Lemma row_get_Ok row col v : row_get row col = Ok v <-> row !! col = Some v.
Proof. unfold row_get. destruct (row !! col); split; congruence. Qed.

Lemma row_key_Ok row k : row_key row = Ok k <-> row_has_key k row = true.
Proof.
  unfold row_key, row_has_key, row_get. destruct k as [m d]. simpl.
  rewrite andb_true_iff, !bool_decide_eq_true.
  destruct (row !! "model") as [m'|]; simpl.
  - destruct (row !! "data_file") as [d'|]; simpl.
    + split; [intros [= -> ->]; done | intros [[= ->] [= ->]]; done].
    + split; [done | intros [_ ?]; done].
  - split; [done | intros [? _]; done].
Qed.

Lemma from_entry_key row k v : from_entry float_of_str row = Ok (k, v) -> row_has_key k row = true.
Proof.
  unfold from_entry. intros H.
  do 4 (apply bind_Ok_inv in H as (? & _ & H)).
  apply bind_Ok_inv in H as (k' & Hk & [= <- <-]). by apply row_key_Ok.
Qed.

Lemma to_entry_key row k v : to_entry float_of_str row = Ok (k, v) -> row_has_key k row = true.
Proof.
  unfold to_entry. intros H.
  do 3 (apply bind_Ok_inv in H as (? & _ & H)).
  apply bind_Ok_inv in H as (k' & Hk & [= <- <-]). by apply row_key_Ok.
Qed.

Lemma row_has_key_inj k k' row :
  row_has_key k row = true -> row_has_key k' row = true -> k = k'.
Proof.
  unfold row_has_key. rewrite !andb_true_iff, !bool_decide_eq_true.
  destruct k, k'; simpl. intros [-> ->] [[= ->] [= ->]]. done.
Qed.

Lemma scan_row_NoDup from_conf to_conf fs ts fs' ts' row :
  NoDup (dict_keys fs) /\ NoDup (dict_keys ts) ->
  scan_row float_of_str from_conf to_conf (fs, ts) row = Ok (fs', ts') ->
  NoDup (dict_keys fs') /\ NoDup (dict_keys ts').
Proof.
  intros [Hf Ht]. rewrite scan_row_entries. intros H.
  apply bind_Ok_inv in H as (c & _ & H).
  destruct (decide (c = from_conf)).
  - apply bind_Ok_inv in H as (en & _ & [= <- <-]). split; [by apply dict_set_NoDup | done].
  - destruct (decide (c = to_conf)).
    + apply bind_Ok_inv in H as (en & _ & [= <- <-]). split; [done | by apply dict_set_NoDup].
    + by injection H as <- <-.
Qed.

Lemma scan_NoDup from_conf to_conf rows fs ts :
  scan float_of_str from_conf to_conf rows = Ok (fs, ts) ->
  NoDup (dict_keys fs) /\ NoDup (dict_keys ts).
Proof.
  unfold scan. intros H.
  refine (for_each_invariant _
            (fun st => NoDup (dict_keys (fst st)) /\ NoDup (dict_keys (snd st)))
            rows _ ([], []) (fs, ts) _ H).
  - intros [f t] row [f' t'] Hinv Hstep. simpl in *. by eapply scan_row_NoDup.
  - simpl. split; apply NoDup_nil_2.
Qed.

Lemma compare_configurations_scan rows from_conf to_conf td od fs ts :
  scan float_of_str from_conf to_conf rows = Ok (fs, ts) ->
  compare_configurations float_of_str rows from_conf to_conf td od
  = compare_loop td od fs ts.
Proof. unfold compare_configurations. by intros ->. Qed.

End ScanFacts.

(** ** Claims on [compare_configurations] *)

Lemma classify_status_same ts td od k fv tv o :
  dict_get k ts = Some tv -> fv_status fv = tv_status tv ->
  classify ts td od (k, fv) = Ok o ->
  goes_to InStatus o = 0 /\ goes_to InMissing o = 0.
Proof.
  destruct fv as [[[fs ft] fo] fm], tv as [[tst tt] to]. simpl.
  intros Hts <-. unfold classify. rewrite Hts.
  rewrite bool_decide_true by done. simpl.
  destruct (time_branch fs fm).
  { intros H. apply bind_Ok_inv in H as (c & _ & H).
    destruct (PyFloat.gtb _ _); by injection H as <-. }
  destruct (obj_branch fs fm); [|by intros [= <-]].
  intros H. apply bind_Ok_inv in H as (c & _ & H).
  destruct (PyFloat.gtb _ _); by injection H as <-.
Qed.

Lemma classify_absent ts td od k fv :
  dict_get k ts = None -> classify ts td od (k, fv) = Ok IsMissing.
Proof. destruct fv as [[[fs ft] fo] fm]. unfold classify. by intros ->. Qed.

(** C3: the classification places every instance key of [from_stats] in at
    most one of the four containers (and at most once); a key whose two
    entries have the same status is in neither [status_changes] nor
    [missing_instances]; a key absent from [to_stats] is in
    [missing_instances] and in no other container. *)
Theorem C3_key_in_at_most_one_container
    (float_of_str : string -> option float)
    (rows : list Row) (from_conf to_conf : string) (td od : float)
    (from_stats : FromStats) (to_stats : ToStats) (changes : PerformanceChanges)
    (k : Key) (fv : FromVal) :
  scan float_of_str from_conf to_conf rows = Ok (from_stats, to_stats) ->
  compare_configurations float_of_str rows from_conf to_conf td od = Ok changes ->
  dict_get k from_stats = Some fv ->
  occurrences k changes <= 1
  /\ (forall tv, dict_get k to_stats = Some tv -> fv_status fv = tv_status tv ->
        occ_status k changes = 0 /\ occ_missing k changes = 0)
  /\ (dict_get k to_stats = None ->
        occ_missing k changes = 1 /\ occ_status k changes = 0
        /\ occ_time k changes = 0 /\ occ_obj k changes = 0).
Proof.
  intros Hscan Hcmp Hk.
  rewrite (compare_configurations_scan _ _ _ _ _ _ _ _ Hscan) in Hcmp.
  destruct (scan_NoDup _ _ _ _ _ _ Hscan) as [Hnd _].
  assert (Hocc : exists o, classify to_stats td od (k, fv) = Ok o
                   /\ forall c, occ c k changes = goes_to c o).
  { pose proof (occ_compare_loop InMissing k _ _ _ _ _ Hnd Hcmp) as H.
    rewrite Hk in H. destruct H as (o & Ho & _). exists o. split; [done|].
    intros c. pose proof (occ_compare_loop c k _ _ _ _ _ Hnd Hcmp) as H.
    rewrite Hk in H. destruct H as (o' & Ho' & ->). congruence. }
  destruct Hocc as (o & Ho & Hocc).
  pose proof (Hocc InMissing) as Hm. pose proof (Hocc InStatus) as Hs.
  pose proof (Hocc InTime) as Ht. pose proof (Hocc InObj) as Hob.
  change (occ_missing k changes = goes_to InMissing o) in Hm.
  change (occ_status k changes = goes_to InStatus o) in Hs.
  change (occ_time k changes = goes_to InTime o) in Ht.
  change (occ_obj k changes = goes_to InObj o) in Hob.
  split_and!.
  - unfold occurrences. rewrite Hm, Hs, Ht, Hob. apply goes_to_once.
  - intros tv Htv Hst.
    destruct (classify_status_same _ _ _ _ _ _ _ Htv Hst Ho) as [Hs0 Hm0].
    by rewrite Hs, Hm.
  - intros Hnone. rewrite (classify_absent _ td od _ fv Hnone) in Ho.
    injection Ho as <-. by rewrite Hm, Hs, Ht, Hob.
Qed.

Lemma C3_key_in_at_most_one_container_witness :
  let changes :=
    mkChanges Sample.tenth Sample.tenth [] [("m1", "d1", Sample.ten, Sample.fifteen)]
      [] [("m1", "d2")] in
  occurrences ("m1", "d2") changes <= 1
  /\ (forall tv,
        dict_get ("m1", "d2")
          [(("m1", "d1"), ("SATISFIED", Sample.fifteen, PyFloat.nan))] = Some tv ->
        "UNKNOWN" = tv_status tv ->
        occ_status ("m1", "d2") changes = 0 /\ occ_missing ("m1", "d2") changes = 0)
  /\ (dict_get ("m1", "d2")
        [(("m1", "d1"), ("SATISFIED", Sample.fifteen, PyFloat.nan))] = None ->
        occ_missing ("m1", "d2") changes = 1 /\ occ_status ("m1", "d2") changes = 0
        /\ occ_time ("m1", "d2") changes = 0 /\ occ_obj ("m1", "d2") changes = 0).
Proof.
  apply (C3_key_in_at_most_one_container Concrete.float_of_str
           Sample.one_missing "confA" "confB"
           Sample.tenth Sample.tenth
           [(("m1", "d1"), ("SATISFIED", Sample.ten, PyFloat.nan, "satisfy"));
            (("m1", "d2"),
             ("UNKNOWN", S754_finite false 8444249301319680 (-47), PyFloat.nan,
              "satisfy"))]
           [(("m1", "d1"), ("SATISFIED", Sample.fifteen, PyFloat.nan))]
           _ ("m1", "d2")
           ("UNKNOWN", S754_finite false 8444249301319680 (-47), PyFloat.nan,
            "satisfy")).
  - vm_compute. reflexivity.
  - vm_compute. reflexivity.
  - vm_compute. reflexivity.
Defined.

Lemma elem_time_changes_record_all (e : TimeChange) (kos : list (Key * Outcome))
    (ch : PerformanceChanges) :
  e ∈ time_changes (record_all kos ch) <->
  e ∈ time_changes ch
  \/ exists k f t, (k, TimeChanged f t) ∈ kos /\ e = (fst k, snd k, f, t).
Proof.
  unfold record_all. revert ch.
  induction kos as [|[k' o] kos IH]; intros ch; simpl.
  - split; [auto | intros [?|(k & f & t & Hin & _)]; [done | by apply elem_of_nil in Hin]].
  - rewrite IH. split.
    + intros [Hin|(k & f & t & Hin & ->)].
      * destruct o; simpl in Hin; auto.
        apply elem_of_app in Hin as [Hin|Hin]; [auto|].
        apply list_elem_of_singleton in Hin as ->. right.
        exists k', from_time, to_time. split; [apply list_elem_of_here | done].
      * right. exists k, f, t. split; [by apply list_elem_of_further | done].
    + intros [Hin|(k & f & t & Hin & ->)].
      * left. destruct o; simpl; auto. apply elem_of_app. auto.
      * apply elem_of_cons in Hin as [[= <- <-]|Hin].
        -- left. simpl. apply elem_of_app. right. by apply list_elem_of_singleton.
        -- right. eauto.
Qed.

Lemma time_branch_true status method :
  time_branch status method = true <->
  status = "OPTIMAL_SOLUTION" \/ (status = "SATISFIED" /\ method = "satisfy").
Proof.
  unfold time_branch.
  rewrite orb_true_iff, andb_true_iff, !bool_decide_eq_true. done.
Qed.

Lemma obj_branch_true status method :
  obj_branch status method = true <->
  status = "SATISFIED" /\ method <> "satisfy".
Proof.
  unfold obj_branch.
  rewrite andb_true_iff, negb_true_iff, bool_decide_eq_true, bool_decide_eq_false.
  done.
Qed.

(** C6: for a shared instance key with the same status on both sides, that
    status being OPTIMAL_SOLUTION, or SATISFIED with from-side method
    "satisfy", the relative time change [(to_time - from_time) / from_time]
    is computed, and [(model, data_file, from_time, to_time)] is in
    [time_changes] exactly when its absolute value is strictly greater than
    [time_delta]. *)
Theorem C6_time_change_iff_above_threshold
    (float_of_str : string -> option float)
    (rows : list Row) (from_conf to_conf : string) (td od : float)
    (from_stats : FromStats) (to_stats : ToStats) (changes : PerformanceChanges)
    (k : Key) (status method : string) (from_time from_obj to_time to_obj : float) :
  scan float_of_str from_conf to_conf rows = Ok (from_stats, to_stats) ->
  compare_configurations float_of_str rows from_conf to_conf td od = Ok changes ->
  dict_get k from_stats = Some (status, from_time, from_obj, method) ->
  dict_get k to_stats = Some (status, to_time, to_obj) ->
  status = "OPTIMAL_SOLUTION" \/ (status = "SATISFIED" /\ method = "satisfy") ->
  exists rel,
    PyFloat.div (PyFloat.sub to_time from_time) from_time = Ok rel
    /\ ((fst k, snd k, from_time, to_time) ∈ time_changes changes
        <-> PyFloat.gtb (PyFloat.abs rel) td = true).
Proof.
  intros Hscan Hcmp Hf Ht Hbr. apply time_branch_true in Hbr.
  rewrite (compare_configurations_scan _ _ _ _ _ _ _ _ Hscan) in Hcmp.
  destruct (scan_NoDup _ _ _ _ _ _ Hscan) as [Hnd _].
  rewrite compare_loop_outcomes in Hcmp.
  apply bind_Ok_inv in Hcmp as (kos & Hall & [= <-]).
  assert (Hnd' : NoDup (dict_keys kos)).
  { unfold dict_keys. by rewrite (classify_all_keys _ _ _ _ _ Hall). }
  destruct (classify_all_lookup _ _ _ _ _ _ _ Hall Hnd Hf) as (o & Ho & Hko).
  unfold classify in Ho. rewrite Ht, bool_decide_true, Hbr in Ho by done.
  simpl in Ho. apply bind_Ok_inv in Ho as (rel & Hrel & Ho).
  exists rel. split; [done|].
  rewrite elem_time_changes_record_all. simpl. split.
  - intros [Hin|(k' & f & t & Hin & Heq)]; [by apply elem_of_nil in Hin|].
    assert (k' = k) as -> by (destruct k, k'; simpl in *; congruence).
    injection Heq as <- <-.
    apply (dict_elem_get _ _ _ Hnd') in Hin. rewrite Hko in Hin.
    injection Hin as ->. by destruct (PyFloat.gtb (PyFloat.abs rel) td).
  - intros Hgt. rewrite Hgt in Ho. injection Ho as <-.
    right. exists k, from_time, to_time. split; [|done].
    by apply dict_get_Some_elem.
Qed.

Lemma C6_time_change_iff_above_threshold_witness :
  compare_configurations Concrete.float_of_str Sample.slower "confA" "confB"
    Sample.tenth Sample.tenth
  = Ok (mkChanges Sample.tenth Sample.tenth []
          [("m1", "d1", Sample.ten, Sample.fifteen)] [] [])
  /\ exists rel,
       PyFloat.div (PyFloat.sub Sample.fifteen Sample.ten) Sample.ten = Ok rel
       /\ (("m1", "d1", Sample.ten, Sample.fifteen)
             ∈ [("m1", "d1", Sample.ten, Sample.fifteen)]
           <-> PyFloat.gtb (PyFloat.abs rel) Sample.tenth = true).
Proof.
  split; [vm_compute; reflexivity|].
  apply (C6_time_change_iff_above_threshold Concrete.float_of_str
           Sample.slower "confA" "confB" Sample.tenth Sample.tenth
           [(("m1", "d1"), ("SATISFIED", Sample.ten, PyFloat.nan, "satisfy"))]
           [(("m1", "d1"), ("SATISFIED", Sample.fifteen, PyFloat.nan))]
           (mkChanges Sample.tenth Sample.tenth []
              [("m1", "d1", Sample.ten, Sample.fifteen)] [] [])
           ("m1", "d1") "SATISFIED" "satisfy" Sample.ten PyFloat.nan
           Sample.fifteen PyFloat.nan).
  - vm_compute. reflexivity.
  - vm_compute. reflexivity.
  - vm_compute. reflexivity.
  - vm_compute. reflexivity.
  - right. split; reflexivity.
Defined.

Lemma scan_same_conf_to_stats (float_of_str : string -> option float)
    (c : string) (rows : list Row) (fs : FromStats) (ts : ToStats) :
  scan float_of_str c c rows = Ok (fs, ts) -> ts = [].
Proof.
  unfold scan. intros H.
  refine (for_each_invariant _ (fun st => snd st = []) rows _ ([], []) (fs, ts) _ H);
    [|done].
  intros [f t] row [f' t'] Hinv Hstep. simpl in Hinv. subst t.
  rewrite scan_row_entries in Hstep. simpl.
  apply bind_Ok_inv in Hstep as (c' & _ & Hstep).
  destruct (decide (c' = c)).
  - apply bind_Ok_inv in Hstep as (en & _ & [= _ <-]). done.
  - by injection Hstep as _ <-.
Qed.

Lemma classify_all_empty_to td od (fs : FromStats) :
  classify_all [] td od fs = Ok (map (fun item => (fst item, IsMissing)) fs).
Proof.
  unfold classify_all. induction fs as [|[k [[[s t] o] m]] fs IH]; simpl; [done|].
  by rewrite IH.
Qed.

Lemma record_all_missing (fs : FromStats) (ch : PerformanceChanges) :
  record_all (map (fun item => (fst item, IsMissing)) fs) ch
  = mkChanges (time_delta ch) (obj_delta ch) (status_changes ch) (time_changes ch)
      (obj_changes ch) (missing_instances ch ++ dict_keys fs).
Proof.
  unfold record_all, dict_keys. revert ch.
  induction fs as [|[k v] fs IH]; intros ch; simpl.
  - rewrite app_nil_r. by destruct ch.
  - rewrite IH. simpl. by rewrite <- app_assoc.
Qed.

Lemma compare_same_conf (float_of_str : string -> option float)
    (rows : list Row) (c : string) (td od : float) :
  compare_configurations float_of_str rows c c td od
  = (scan float_of_str c c rows
       ≫= fun st => Ok (mkChanges td od [] [] [] (dict_keys (fst st)))).
Proof.
  unfold compare_configurations.
  destruct (scan float_of_str c c rows) as [[fs ts]|e] eqn:Hscan; [|done].
  pose proof (scan_same_conf_to_stats _ _ _ _ _ Hscan) as ->. simpl.
  rewrite compare_loop_outcomes, classify_all_empty_to. simpl.
  by rewrite record_all_missing.
Qed.

(** C1, as the code has it: with [from_conf = to_conf = c] every row of
    configuration [c] is stored in [from_stats] and none in [to_stats], so
    [status_changes], [time_changes] and [obj_changes] are empty and
    [missing_instances] lists every instance key of [from_stats], in
    insertion order. *)
Theorem C1_self_comparison_all_missing
    (float_of_str : string -> option float)
    (rows : list Row) (c : string) (td od : float)
    (from_stats : FromStats) (to_stats : ToStats) :
  scan float_of_str c c rows = Ok (from_stats, to_stats) ->
  to_stats = []
  /\ compare_configurations float_of_str rows c c td od
     = Ok (mkChanges td od [] [] [] (dict_keys from_stats)).
Proof.
  intros Hscan. pose proof (scan_same_conf_to_stats _ _ _ _ _ Hscan) as ->.
  split; [done|]. by rewrite compare_same_conf, Hscan.
Qed.

Lemma C1_self_comparison_all_missing_witness :
  @nil (Key * ToVal) = []
  /\ compare_configurations Concrete.float_of_str Sample.one_missing
       "confA" "confA" Sample.tenth Sample.tenth
     = Ok (mkChanges Sample.tenth Sample.tenth [] [] []
             [("m1", "d1"); ("m1", "d2")]).
Proof.
  apply (C1_self_comparison_all_missing Concrete.float_of_str Sample.one_missing
           "confA" Sample.tenth Sample.tenth
           [(("m1", "d1"), ("SATISFIED", Sample.ten, PyFloat.nan, "satisfy"));
            (("m1", "d2"),
             ("UNKNOWN", S754_finite false 8444249301319680 (-47), PyFloat.nan,
              "satisfy"))]
           []).
  vm_compute. reflexivity.
Defined.

(** C1 as stated fails: comparing confA with itself, with both thresholds
    0.1 > 0, reports the instance of confA as missing. *)
Lemma C1_self_comparison_counterexample :
  PyFloat.gtb Sample.tenth (PyFloat.of_Z 0) = true
  /\ exists changes,
       compare_configurations Concrete.float_of_str Sample.slower
         "confA" "confA" Sample.tenth Sample.tenth = Ok changes
       /\ missing_instances changes = [("m1", "d1")]
       /\ missing_instances changes <> [].
Proof.
  split; [vm_compute; reflexivity|].
  eexists. split; [vm_compute; reflexivity|]. simpl. split; [reflexivity | discriminate].
Qed.

(** ** Division by zero *)

Example zero_objective_raises :
  compare_configurations Concrete.float_of_str Sample.zero_objective
    "confA" "confB" Sample.tenth Sample.tenth
  = Raise ZeroDivisionError.
Proof. vm_compute. reflexivity. Qed.

(** A NaN denominator is no division by zero: the change is NaN, compares
    false with the threshold, and nothing is recorded. *)
Example no_objective_unchanged :
  compare_configurations Concrete.float_of_str Sample.no_objective
    "confA" "confB" Sample.tenth Sample.tenth
  = Ok (mkChanges Sample.tenth Sample.tenth [] [] [] []).
Proof. vm_compute. reflexivity. Qed.

Lemma classify_raise ts td od item e :
  classify ts td od item = Raise e -> e = ZeroDivisionError.
Proof.
  destruct item as [k [[[fs ft] fo] fm]]. unfold classify, PyFloat.div.
  destruct (dict_get k ts) as [[[tst tt] to]|]; [|done].
  destruct (negb _); [done|].
  destruct (time_branch fs fm).
  { destruct (PyFloat.eqb ft _); simpl; [congruence|].
    by destruct (PyFloat.gtb _ _). }
  destruct (obj_branch fs fm); [|done].
  destruct (PyFloat.eqb fo _); simpl; [congruence|].
  by destruct (PyFloat.gtb _ _).
Qed.

Lemma classify_all_raise ts td od (fs : FromStats) item e :
  item ∈ fs -> classify ts td od item = Raise e ->
  classify_all ts td od fs = Raise ZeroDivisionError.
Proof.
  unfold classify_all. induction fs as [|x fs IH]; intros Hin Hr.
  - by apply elem_of_nil in Hin.
  - simpl. destruct (classify ts td od x) as [o|e'] eqn:Hx; simpl.
    + apply elem_of_cons in Hin as [->|Hin]; [congruence|].
      by rewrite (IH Hin Hr).
    + by rewrite (classify_raise _ _ _ _ _ Hx).
Qed.

(** C2, as the code has it: the division is not guarded, and Python's float
    division raises on a zero divisor. Whenever a shared instance key
    reaches the relative time change with [from_time == 0], or the relative
    objective change with [from_obj == 0], the comparison ends with
    [ZeroDivisionError] and returns no result. *)
Theorem C2_zero_denominator_raises
    (float_of_str : string -> option float)
    (rows : list Row) (from_conf to_conf : string) (td od : float)
    (from_stats : FromStats) (to_stats : ToStats)
    (k : Key) (status method : string) (from_time from_obj to_time to_obj : float) :
  scan float_of_str from_conf to_conf rows = Ok (from_stats, to_stats) ->
  dict_get k from_stats = Some (status, from_time, from_obj, method) ->
  dict_get k to_stats = Some (status, to_time, to_obj) ->
  ((status = "OPTIMAL_SOLUTION" \/ (status = "SATISFIED" /\ method = "satisfy"))
   /\ PyFloat.eqb from_time (PyFloat.of_Z 0) = true)
  \/ ((status = "SATISFIED" /\ method <> "satisfy")
      /\ PyFloat.eqb from_obj (PyFloat.of_Z 0) = true) ->
  compare_configurations float_of_str rows from_conf to_conf td od
  = Raise ZeroDivisionError.
Proof.
  intros Hscan Hf Ht Hzero.
  rewrite (compare_configurations_scan _ _ _ _ _ _ _ _ Hscan).
  rewrite compare_loop_outcomes.
  assert (Hr : classify to_stats td od (k, (status, from_time, from_obj, method))
               = Raise ZeroDivisionError).
  { unfold classify. rewrite Ht, bool_decide_true by done. cbn [negb].
    destruct Hzero as [[Hbr Hz]|[Hbr Hz]].
    - apply time_branch_true in Hbr. rewrite Hbr. unfold PyFloat.div. by rewrite Hz.
    - assert (time_branch status method = false) as ->.
      { destruct Hbr as [-> Hm]. unfold time_branch.
        by rewrite (bool_decide_false _ Hm), andb_false_r. }
      apply obj_branch_true in Hbr. rewrite Hbr. unfold PyFloat.div. by rewrite Hz. }
  apply dict_get_Some_elem in Hf.
  by rewrite (classify_all_raise _ _ _ _ _ _ Hf Hr).
Qed.

Lemma C2_zero_denominator_raises_witness :
  compare_configurations Concrete.float_of_str Sample.zero_time "confA" "confB"
    Sample.tenth Sample.tenth
  = Raise ZeroDivisionError.
Proof.
  apply (C2_zero_denominator_raises Concrete.float_of_str Sample.zero_time
           "confA" "confB" Sample.tenth Sample.tenth
           [(("m1", "d1"),
             ("OPTIMAL_SOLUTION", S754_zero false,
              S754_finite false 7881299347898368 (-50), "minimize"))]
           [(("m1", "d1"),
             ("OPTIMAL_SOLUTION", S754_finite false 5629499534213120 (-50),
              S754_finite false 7881299347898368 (-50)))]
           ("m1", "d1") "OPTIMAL_SOLUTION" "minimize" (S754_zero false)
           (S754_finite false 7881299347898368 (-50))
           (S754_finite false 5629499534213120 (-50))
           (S754_finite false 7881299347898368 (-50))).
  - vm_compute. reflexivity.
  - vm_compute. reflexivity.
  - vm_compute. reflexivity.
  - left. split; [left; reflexivity | vm_compute; reflexivity].
Defined.

(** C2 as stated fails: with [from_time = 0] the comparison does not
    complete; it ends with [ZeroDivisionError] instead of a result that
    carries an infinite or NaN change. *)
Lemma C2_zero_denominator_counterexample :
  scan Concrete.float_of_str "confA" "confB" Sample.zero_time
  = Ok ([(("m1", "d1"),
          ("OPTIMAL_SOLUTION", S754_zero false,
           S754_finite false 7881299347898368 (-50), "minimize"))],
        [(("m1", "d1"),
          ("OPTIMAL_SOLUTION", S754_finite false 5629499534213120 (-50),
           S754_finite false 7881299347898368 (-50)))])
  /\ compare_configurations Concrete.float_of_str Sample.zero_time
       "confA" "confB" Sample.tenth Sample.tenth = Raise ZeroDivisionError
  /\ ~ exists changes,
         compare_configurations Concrete.float_of_str Sample.zero_time
           "confA" "confB" Sample.tenth Sample.tenth = Ok changes.
Proof.
  split; [vm_compute; reflexivity|].
  split; [vm_compute; reflexivity|].
  intros [changes H]. vm_compute in H. discriminate.
Qed.

(** ** Last row wins *)

Section LastRow.
Variable float_of_str : string -> option float.
Variables from_conf to_conf : string.

Lemma row_conf_is_get row conf c :
  row_get row "configuration" = Ok c -> row_conf_is conf row = bool_decide (c = conf).
Proof.
  intros H%row_get_Ok. unfold row_conf_is. rewrite H.
  apply bool_decide_ext. split; congruence.
Qed.

Lemma scan_row_from_lookup fs0 ts0 fs1 ts1 row k :
  scan_row float_of_str from_conf to_conf (fs0, ts0) row = Ok (fs1, ts1) ->
  if from_side from_conf row && row_has_key k row
  then exists v, from_entry float_of_str row = Ok (k, v) /\ dict_get k fs1 = Some v
  else dict_get k fs1 = dict_get k fs0.
Proof.
  rewrite scan_row_entries. intros H.
  apply bind_Ok_inv in H as (c & Hc & H).
  unfold from_side. rewrite (row_conf_is_get _ from_conf _ Hc).
  destruct (decide (c = from_conf)) as [->|Hne].
  - rewrite bool_decide_true by done. simpl.
    apply bind_Ok_inv in H as ([k' v] & He & [= <- <-]). simpl.
    pose proof (from_entry_key _ _ _ _ He) as Hk'.
    destruct (row_has_key k row) eqn:Hk.
    + rewrite (row_has_key_inj _ _ _ Hk Hk') in *. exists v.
      split; [done | apply dict_get_set_eq].
    + apply dict_get_set_ne. intros ->. congruence.
  - rewrite bool_decide_false by done. simpl.
    destruct (decide (c = to_conf)).
    + apply bind_Ok_inv in H as (en & _ & [= <- _]). done.
    + by injection H as <- _.
Qed.

Lemma scan_row_to_lookup fs0 ts0 fs1 ts1 row k :
  scan_row float_of_str from_conf to_conf (fs0, ts0) row = Ok (fs1, ts1) ->
  if to_side from_conf to_conf row && row_has_key k row
  then exists v, to_entry float_of_str row = Ok (k, v) /\ dict_get k ts1 = Some v
  else dict_get k ts1 = dict_get k ts0.
Proof.
  rewrite scan_row_entries. intros H.
  apply bind_Ok_inv in H as (c & Hc & H).
  unfold to_side.
  rewrite (row_conf_is_get _ from_conf _ Hc), (row_conf_is_get _ to_conf _ Hc).
  destruct (decide (c = from_conf)) as [->|Hne].
  - rewrite (bool_decide_true (from_conf = from_conf)) by done. simpl.
    apply bind_Ok_inv in H as (en & _ & [= _ <-]). done.
  - rewrite (bool_decide_false (c = from_conf)) by done. simpl.
    destruct (decide (c = to_conf)) as [->|Hne'].
    + rewrite bool_decide_true by done. simpl.
      apply bind_Ok_inv in H as ([k' v] & He & [= _ <-]). simpl.
      pose proof (to_entry_key _ _ _ _ He) as Hk'.
      destruct (row_has_key k row) eqn:Hk.
      * rewrite (row_has_key_inj _ _ _ Hk Hk') in *. exists v.
        split; [done | apply dict_get_set_eq].
      * apply dict_get_set_ne. intros ->. congruence.
    + rewrite bool_decide_false by done. simpl. by injection H as _ <-.
Qed.

Lemma for_each_scan_from_lookup rows fs0 ts0 fs ts k :
  for_each (scan_row float_of_str from_conf to_conf) (fs0, ts0) rows = Ok (fs, ts) ->
  match last_row (from_side from_conf) k rows with
  | Some r => exists v, from_entry float_of_str r = Ok (k, v) /\ dict_get k fs = Some v
  | None => dict_get k fs = dict_get k fs0
  end.
Proof.
  revert fs0 ts0. induction rows as [|row rows IH]; intros fs0 ts0 H; simpl in *.
  - by injection H as <- _.
  - apply bind_Ok_inv in H as ([fs1 ts1] & Hstep & Hrest).
    specialize (IH _ _ Hrest).
    destruct (last_row (from_side from_conf) k rows) as [r'|]; [done|].
    pose proof (scan_row_from_lookup _ _ _ _ _ k Hstep) as Hrow.
    destruct (from_side from_conf row && row_has_key k row).
    + destruct Hrow as (v & Hv & Hget). exists v. split; [done | congruence].
    + congruence.
Qed.

Lemma for_each_scan_to_lookup rows fs0 ts0 fs ts k :
  for_each (scan_row float_of_str from_conf to_conf) (fs0, ts0) rows = Ok (fs, ts) ->
  match last_row (to_side from_conf to_conf) k rows with
  | Some r => exists v, to_entry float_of_str r = Ok (k, v) /\ dict_get k ts = Some v
  | None => dict_get k ts = dict_get k ts0
  end.
Proof.
  revert fs0 ts0. induction rows as [|row rows IH]; intros fs0 ts0 H; simpl in *.
  - by injection H as _ <-.
  - apply bind_Ok_inv in H as ([fs1 ts1] & Hstep & Hrest).
    specialize (IH _ _ Hrest).
    destruct (last_row (to_side from_conf to_conf) k rows) as [r'|]; [done|].
    pose proof (scan_row_to_lookup _ _ _ _ _ k Hstep) as Hrow.
    destruct (to_side from_conf to_conf row && row_has_key k row).
    + destruct Hrow as (v & Hv & Hget). exists v. split; [done | congruence].
    + congruence.
Qed.

End LastRow.

Lemma elem_obj_changes_record_all (e : ObjChange) (kos : list (Key * Outcome))
    (ch : PerformanceChanges) :
  e ∈ obj_changes (record_all kos ch) <->
  e ∈ obj_changes ch
  \/ exists k f t mx, (k, ObjChanged f t mx) ∈ kos /\ e = (fst k, snd k, f, t, mx).
Proof.
  unfold record_all. revert ch.
  induction kos as [|[k' o] kos IH]; intros ch; simpl.
  - split; [auto | intros [?|(k & f & t & mx & Hin & _)];
                     [done | by apply elem_of_nil in Hin]].
  - rewrite IH. split.
    + intros [Hin|(k & f & t & mx & Hin & ->)].
      * destruct o; simpl in Hin; auto.
        apply elem_of_app in Hin as [Hin|Hin]; [auto|].
        apply list_elem_of_singleton in Hin as ->. right.
        exists k', from_obj, to_obj, maximise. split; [apply list_elem_of_here | done].
      * right. exists k, f, t, mx. split; [by apply list_elem_of_further | done].
    + intros [Hin|(k & f & t & mx & Hin & ->)].
      * left. destruct o; simpl; auto. apply elem_of_app. auto.
      * apply elem_of_cons in Hin as [[= <- <-]|Hin].
        -- left. simpl. apply elem_of_app. right. by apply list_elem_of_singleton.
        -- right. eauto 6.
Qed.

Lemma elem_time_changes_lookup (kos : list (Key * Outcome)) td od k f t :
  NoDup (dict_keys kos) ->
  (fst k, snd k, f, t) ∈ time_changes (record_all kos (new_changes td od))
  <-> dict_get k kos = Some (TimeChanged f t).
Proof.
  intros Hnd. rewrite elem_time_changes_record_all. simpl. split.
  - intros [Hin|(k' & f' & t' & Hin & Heq)]; [by apply elem_of_nil in Hin|].
    assert (k' = k) as -> by (destruct k, k'; simpl in *; congruence).
    injection Heq as <- <-. by apply dict_elem_get.
  - intros H%dict_get_Some_elem. right. eauto.
Qed.

Lemma elem_obj_changes_lookup (kos : list (Key * Outcome)) td od k f t mx :
  NoDup (dict_keys kos) ->
  (fst k, snd k, f, t, mx) ∈ obj_changes (record_all kos (new_changes td od))
  <-> dict_get k kos = Some (ObjChanged f t mx).
Proof.
  intros Hnd. rewrite elem_obj_changes_record_all. simpl. split.
  - intros [Hin|(k' & f' & t' & mx' & Hin & Heq)]; [by apply elem_of_nil in Hin|].
    assert (k' = k) as -> by (destruct k, k'; simpl in *; congruence).
    injection Heq as <- <- <-. by apply dict_elem_get.
  - intros H%dict_get_Some_elem. right. eauto 6.
Qed.

Lemma classify_ext (ts ts' : ToStats) td od k fv :
  dict_get k ts = dict_get k ts' ->
  classify ts td od (k, fv) = classify ts' td od (k, fv).
Proof. destruct fv as [[[s t] o] m]. unfold classify. by intros ->. Qed.

(** C10: when several rows of one side share an instance key, the entry
    kept in [from_stats] (in [to_stats]) is that of the last such row, and
    what the comparison reports for the key is what the last rows of the
    two sides give. *)
Theorem C10_last_row_wins
    (float_of_str : string -> option float)
    (rows : list Row) (from_conf to_conf : string) (td od : float)
    (from_stats : FromStats) (to_stats : ToStats) (k : Key) :
  scan float_of_str from_conf to_conf rows = Ok (from_stats, to_stats) ->
  match last_row (from_side from_conf) k rows with
  | Some r => exists v, from_entry float_of_str r = Ok (k, v)
                        /\ dict_get k from_stats = Some v
  | None => dict_get k from_stats = None
  end
  /\ match last_row (to_side from_conf to_conf) k rows with
     | Some r => exists v, to_entry float_of_str r = Ok (k, v)
                           /\ dict_get k to_stats = Some v
     | None => dict_get k to_stats = None
     end
  /\ forall changes,
       compare_configurations float_of_str rows from_conf to_conf td od
       = Ok changes ->
       exists oo,
         last_rows_outcome float_of_str from_conf to_conf td od k rows = Ok oo
         /\ (forall c, occ c k changes
                       = match oo with Some o => goes_to c o | None => 0 end)
         /\ (forall f t, (fst k, snd k, f, t) ∈ time_changes changes
                         <-> oo = Some (TimeChanged f t))
         /\ (forall f t mx, (fst k, snd k, f, t, mx) ∈ obj_changes changes
                            <-> oo = Some (ObjChanged f t mx)).
Proof.
  intros Hscan.
  pose proof (for_each_scan_from_lookup _ _ _ _ _ _ _ _ k Hscan) as Hfrom.
  pose proof (for_each_scan_to_lookup _ _ _ _ _ _ _ _ k Hscan) as Hto.
  simpl in Hfrom, Hto.
  split; [exact Hfrom|]. split; [exact Hto|].
  intros changes Hcmp.
  rewrite (compare_configurations_scan _ _ _ _ _ _ _ _ Hscan) in Hcmp.
  destruct (scan_NoDup _ _ _ _ _ _ Hscan) as [Hnd _].
  rewrite compare_loop_outcomes in Hcmp.
  apply bind_Ok_inv in Hcmp as (kos & Hall & [= <-]).
  assert (Hnd' : NoDup (dict_keys kos)).
  { unfold dict_keys. by rewrite (classify_all_keys _ _ _ _ _ Hall). }
  unfold last_rows_outcome.
  destruct (last_row (from_side from_conf) k rows) as [rf|].
  - destruct Hfrom as (fv & Hfe & Hfget). rewrite Hfe.
    destruct (classify_all_lookup _ _ _ _ _ _ _ Hall Hnd Hfget) as (o & Ho & Hko).
    exists (Some o). split_and!.
    + destruct (last_row (to_side from_conf to_conf) k rows) as [rt|].
      * destruct Hto as (tv & Hte & Htget). rewrite Hte.
        unfold mbind, result_bind.
        rewrite (classify_ext [(k, tv)] to_stats); [by rewrite Ho|].
        simpl. by rewrite decide_True.
      * unfold mbind, result_bind.
        rewrite (classify_ext [] to_stats); [by rewrite Ho|]. done.
    + intros c. rewrite occ_record_all, occ_new_changes, sum_at_key by done.
      by rewrite Hko.
    + intros f t. etrans; [by apply elem_time_changes_lookup|].
      rewrite Hko. split; congruence.
    + intros f t mx. etrans; [by apply elem_obj_changes_lookup|].
      rewrite Hko. split; congruence.
  - assert (Hko : dict_get k kos = None).
    { apply dict_get_None. unfold dict_keys.
      rewrite (classify_all_keys _ _ _ _ _ Hall). by apply dict_get_None. }
    exists None. split; [done|]. split_and!.
    + intros c. rewrite occ_record_all, occ_new_changes, sum_at_key by done.
      by rewrite Hko.
    + intros f t. etrans; [by apply elem_time_changes_lookup|].
      by rewrite Hko.
    + intros f t mx. etrans; [by apply elem_obj_changes_lookup|].
      by rewrite Hko.
Qed.

Lemma C10_last_row_wins_witness :
  let k : Key := ("m1", "d1") in
  let from_stats : FromStats :=
    [(k, ("SATISFIED", Sample.fifteen, PyFloat.nan, "satisfy"))] in
  let to_stats : ToStats := [(k, ("SATISFIED", Sample.fifteen, PyFloat.nan))] in
  (exists v,
     from_entry Concrete.float_of_str
       (Sample.csv_row "confA" "p" "m1" "d1" "SATISFIED" "15.0" "" "satisfy")
     = Ok (k, v)
     /\ dict_get k from_stats = Some v)
  /\ (exists v,
        to_entry Concrete.float_of_str
          (Sample.csv_row "confB" "p" "m1" "d1" "SATISFIED" "15.0" "" "satisfy")
        = Ok (k, v)
        /\ dict_get k to_stats = Some v)
  /\ forall changes,
       compare_configurations Concrete.float_of_str Sample.repeated
         "confA" "confB" Sample.tenth Sample.tenth = Ok changes ->
       exists oo,
         last_rows_outcome Concrete.float_of_str "confA" "confB"
           Sample.tenth Sample.tenth k Sample.repeated = Ok oo
         /\ (forall c, occ c k changes
                       = match oo with Some o => goes_to c o | None => 0 end)
         /\ (forall f t, (fst k, snd k, f, t) ∈ time_changes changes
                         <-> oo = Some (TimeChanged f t))
         /\ (forall f t mx, (fst k, snd k, f, t, mx) ∈ obj_changes changes
                            <-> oo = Some (ObjChanged f t mx)).
Proof.
  intros k from_stats to_stats.
  apply (C10_last_row_wins Concrete.float_of_str Sample.repeated "confA" "confB"
           Sample.tenth Sample.tenth from_stats to_stats k).
  vm_compute. reflexivity.
Defined.

Example repeated_rows_compare_last :
  compare_configurations Concrete.float_of_str Sample.repeated "confA" "confB"
    Sample.tenth Sample.tenth
  = Ok (mkChanges Sample.tenth Sample.tenth [] [] [] []).
Proof. vm_compute. reflexivity. Qed.

(** ** Independence from the method of to-configuration rows *)

Section MethodIndependence.
Variable float_of_str : string -> option float.

#[local] Arguments scan_row : simpl never.

Lemma row_get_same r r' col :
  same_except_method r r' -> col <> "method" -> row_get r col = row_get r' col.
Proof. intros [H _] Hne. unfold row_get. by rewrite (H col Hne). Qed.

Lemma float_or_zero_same r r' col :
  same_except_method r r' -> col <> "method" ->
  float_or_zero float_of_str r col = float_or_zero float_of_str r' col.
Proof. intros H Hne. unfold float_or_zero. by rewrite (row_get_same _ _ _ H Hne). Qed.

Lemma float_or_nan_same r r' col :
  same_except_method r r' -> col <> "method" ->
  float_or_nan float_of_str r col = float_or_nan float_of_str r' col.
Proof. intros H Hne. unfold float_or_nan. by rewrite (row_get_same _ _ _ H Hne). Qed.

Lemma row_key_same r r' : same_except_method r r' -> row_key r = row_key r'.
Proof.
  intros H. unfold row_key.
  by rewrite (row_get_same _ _ "model" H), (row_get_same _ _ "data_file" H).
Qed.

Lemma to_entry_same r r' :
  same_except_method r r' -> to_entry float_of_str r = to_entry float_of_str r'.
Proof.
  intros H. unfold to_entry.
  by rewrite (row_get_same _ _ "status" H), (float_or_zero_same _ _ "time" H),
    (float_or_nan_same _ _ "objective" H), (row_key_same _ _ H).
Qed.

(** With distinct configuration names a row of [to_conf] is stored without
    its method being read. *)
Lemma scan_row_to_conf_same from_conf to_conf st r r' :
  from_conf <> to_conf -> row_conf_is to_conf r = true -> same_except_method r r' ->
  scan_row float_of_str from_conf to_conf st r
  = scan_row float_of_str from_conf to_conf st r'.
Proof.
  intros Hne Hconf Hsame. destruct st as [fs ts]. rewrite !scan_row_entries.
  rewrite <- (row_get_same _ _ "configuration" Hsame) by done.
  unfold row_conf_is in Hconf. apply bool_decide_eq_true in Hconf.
  assert (row_get r "configuration" = Ok to_conf) as ->.
  { unfold row_get. by rewrite Hconf. }
  simpl. destruct (decide (to_conf = from_conf)); [congruence|].
  rewrite !decide_True by done.
  by rewrite (to_entry_same _ _ Hsame).
Qed.

Lemma scan_differ_distinct from_conf to_conf rows rows' st :
  from_conf <> to_conf -> differ_in_to_method to_conf rows rows' ->
  for_each (scan_row float_of_str from_conf to_conf) st rows
  = for_each (scan_row float_of_str from_conf to_conf) st rows'.
Proof.
  intros Hne Hrows. revert st.
  induction Hrows as [|r r' rows rows' Hr _ IH]; intros st; simpl; [done|].
  assert (scan_row float_of_str from_conf to_conf st r
          = scan_row float_of_str from_conf to_conf st r') as ->.
  { destruct Hr as [->|[Hc Hs]]; [done | by apply scan_row_to_conf_same]. }
  destruct (scan_row float_of_str from_conf to_conf st r'); simpl; [apply IH | done].
Qed.

Lemma from_entry_same_key r r' :
  same_except_method r r' ->
  agree (fun e e' => fst e = fst e')
    (from_entry float_of_str r) (from_entry float_of_str r').
Proof.
  intros H. unfold from_entry.
  rewrite (row_get_same _ _ "status" H), (float_or_zero_same _ _ "time" H),
    (float_or_nan_same _ _ "objective" H), (row_key_same _ _ H) by done.
  destruct H as (_ & [m Hm] & [m' Hm']).
  apply row_get_Ok in Hm, Hm'. rewrite Hm, Hm'.
  destruct (row_get r' "status"); simpl; [|done].
  destruct (float_or_zero _ r' "time"); simpl; [|done].
  destruct (float_or_nan _ r' "objective"); simpl; [|done].
  by destruct (row_key r').
Qed.

Lemma dict_keys_set_same {V V' : Type} (k : Key) (v : V) (v' : V')
    (d : list (Key * V)) (d' : list (Key * V')) :
  dict_keys d = dict_keys d' ->
  dict_keys (dict_set k v d) = dict_keys (dict_set k v' d').
Proof.
  intros Hk. rewrite !dict_keys_set.
  destruct (dict_get k d) eqn:Hd, (dict_get k d') eqn:Hd'; try by rewrite Hk.
  - apply dict_get_None in Hd'. rewrite <- Hk in Hd'. apply dict_get_None in Hd'.
    congruence.
  - apply dict_get_None in Hd. rewrite Hk in Hd. apply dict_get_None in Hd.
    congruence.
Qed.

Lemma scan_row_same_conf_keys c fs fs' ts r r' :
  dict_keys fs = dict_keys fs' ->
  r = r' \/ (row_conf_is c r = true /\ same_except_method r r') ->
  agree (fun st st' => dict_keys (fst st) = dict_keys (fst st') /\ snd st = snd st')
    (scan_row float_of_str c c (fs, ts) r)
    (scan_row float_of_str c c (fs', ts) r').
Proof.
  intros Hk Hr. rewrite !scan_row_entries.
  assert (Hc : row_get r "configuration" = row_get r' "configuration").
  { destruct Hr as [->|[_ Hs]]; [done | by apply row_get_same]. }
  rewrite <- Hc. destruct (row_get r "configuration") as [c'|e]; simpl; [|done].
  destruct (decide (c' = c)) as [->|Hne]; [|done].
  assert (He : agree (fun e e' => fst e = fst e')
                 (from_entry float_of_str r) (from_entry float_of_str r')).
  { destruct Hr as [->|[_ Hs]]; [|by apply from_entry_same_key].
    unfold agree. by destruct (from_entry float_of_str r'). }
  destruct (from_entry float_of_str r) as [[k v]|e],
    (from_entry float_of_str r') as [[k' v']|e']; simpl in *; try done.
  subst k'. split; [by apply dict_keys_set_same | done].
Qed.

Lemma scan_differ_same_conf c rows rows' fs fs' ts :
  differ_in_to_method c rows rows' -> dict_keys fs = dict_keys fs' ->
  agree (fun st st' => dict_keys (fst st) = dict_keys (fst st') /\ snd st = snd st')
    (for_each (scan_row float_of_str c c) (fs, ts) rows)
    (for_each (scan_row float_of_str c c) (fs', ts) rows').
Proof.
  intros Hrows. revert fs fs' ts.
  induction Hrows as [|r r' rows rows' Hr _ IH]; intros fs fs' ts Hk; simpl; [done|].
  pose proof (scan_row_same_conf_keys c fs fs' ts r r' Hk Hr) as Hstep.
  destruct (scan_row float_of_str c c (fs, ts) r) as [[fs1 ts1]|e],
    (scan_row float_of_str c c (fs', ts) r') as [[fs1' ts1']|e'];
    simpl in *; try done.
  destruct Hstep as [Hk1 ->]. by apply IH.
Qed.

End MethodIndependence.

(** C9: two tables that differ only in the [method] values of rows of the
    to-configuration give the same result, or the same exception. *)
Theorem C9_to_method_irrelevant
    (float_of_str : string -> option float)
    (rows rows' : list Row) (from_conf to_conf : string) (td od : float) :
  differ_in_to_method to_conf rows rows' ->
  compare_configurations float_of_str rows from_conf to_conf td od
  = compare_configurations float_of_str rows' from_conf to_conf td od.
Proof.
  intros Hrows. destruct (decide (from_conf = to_conf)) as [->|Hne].
  - rewrite !compare_same_conf. unfold scan.
    pose proof (scan_differ_same_conf float_of_str to_conf rows rows' [] [] []
                  Hrows eq_refl) as H.
    destruct (for_each _ _ rows) as [[fs ts]|e], (for_each _ _ rows') as [[fs' ts']|e'];
      simpl in *; try done.
    + destruct H as [-> _]. done.
    + by subst.
  - unfold compare_configurations, scan.
    by rewrite (scan_differ_distinct float_of_str _ _ _ _ _ Hne Hrows).
Qed.

Lemma C9_to_method_irrelevant_witness :
  compare_configurations Concrete.float_of_str Sample.slower "confA" "confB"
    Sample.tenth Sample.tenth
  = compare_configurations Concrete.float_of_str Sample.slower_other_method
      "confA" "confB" Sample.tenth Sample.tenth.
Proof.
  apply (C9_to_method_irrelevant Concrete.float_of_str Sample.slower
           Sample.slower_other_method "confA" "confB" Sample.tenth Sample.tenth).
  constructor; [left; reflexivity|].
  constructor; [|constructor].
  right. split; [vm_compute; reflexivity|]. split_and!.
  - intros col Hcol. symmetry. by apply lookup_insert_ne.
  - vm_compute. eexists. reflexivity.
  - rewrite lookup_insert_eq. eexists. reflexivity.
Defined.

(** ** Missing columns *)

Lemma for_each_raises {S X : Type} (body : S -> X -> result S) (x : X) (xs : list X)
    (s0 : S) :
  x ∈ xs -> (forall s, exists e, body s x = Raise e) ->
  exists e x' s, for_each body s0 xs = Raise e /\ x' ∈ xs /\ body s x' = Raise e.
Proof.
  intros Hin Hx. revert s0. induction xs as [|y xs IH]; intros s0.
  - by apply elem_of_nil in Hin.
  - simpl. destruct (body s0 y) as [s1|e] eqn:Hy.
    + apply elem_of_cons in Hin as [->|Hin].
      { destruct (Hx s0) as [e He]. congruence. }
      destruct (IH Hin s1) as (e & x' & s & Hrun & Hx' & Hb).
      exists e, x', s. split_and!; [done | by apply list_elem_of_further | done].
    + exists e, y, s0. split_and!; [done | apply list_elem_of_here | done].
Qed.

Lemma for_each_Raise_inv {S X : Type} (body : S -> X -> result S) (xs : list X)
    (s0 : S) (e : exn) :
  for_each body s0 xs = Raise e -> exists s x, x ∈ xs /\ body s x = Raise e.
Proof.
  revert s0. induction xs as [|x xs IH]; intros s0 H; simpl in H; [discriminate H|].
  destruct (body s0 x) as [s1|e1] eqn:Hx; simpl in H.
  - destruct (IH _ H) as (s & y & Hy & Hb).
    exists s, y. split; [by apply list_elem_of_further | done].
  - injection H as ->. exists s0, x. split; [apply list_elem_of_here | done].
Qed.

Lemma bind_Raise_inv {A B : Type} (r : result A) (k : A -> result B) (e : exn) :
  (r ≫= k) = Raise e -> r = Raise e \/ exists a, r = Ok a /\ k a = Raise e.
Proof. destruct r as [a|e']; simpl; [eauto | intros [= ->]; auto]. Qed.

Lemma row_get_raise row col e : row_get row col = Raise e -> row_error row e.
Proof.
  unfold row_get. destruct (row !! col) eqn:H; [done|].
  intros [= <-]. left. eauto.
Qed.

Lemma row_get_is_Some row col v : row_get row col = Ok v -> is_Some (row !! col).
Proof. intros H%row_get_Ok. eauto. Qed.

Lemma row_key_raise row e : row_key row = Raise e -> row_error row e.
Proof.
  unfold row_key. intros H.
  apply bind_Raise_inv in H as [H|(m & _ & H)]; [by eapply row_get_raise|].
  apply bind_Raise_inv in H as [H|(d & _ & H)]; [by eapply row_get_raise | done].
Qed.

Lemma row_key_is_Some row k :
  row_key row = Ok k -> is_Some (row !! "model") /\ is_Some (row !! "data_file").
Proof.
  unfold row_key. intros H.
  apply bind_Ok_inv in H as (m & Hm & H). apply bind_Ok_inv in H as (d & Hd & _).
  split; by eapply row_get_is_Some.
Qed.

Section MissingColumns.
Variable float_of_str : string -> option float.

Lemma py_float_raise row s e : py_float float_of_str s = Raise e -> row_error row e.
Proof.
  unfold py_float. destruct (float_of_str s); [done|]. intros [= <-]. right. eauto.
Qed.

Lemma float_or_zero_raise row col e :
  float_or_zero float_of_str row col = Raise e -> row_error row e.
Proof.
  unfold float_or_zero. intros H.
  apply bind_Raise_inv in H as [H|(c & _ & H)]; [by eapply row_get_raise|].
  destruct (decide (c = "")); [done|].
  apply bind_Raise_inv in H as [H|(c' & _ & H)]; [by eapply row_get_raise|].
  by eapply py_float_raise.
Qed.

Lemma float_or_nan_raise row col e :
  float_or_nan float_of_str row col = Raise e -> row_error row e.
Proof.
  unfold float_or_nan. intros H.
  apply bind_Raise_inv in H as [H|(c & _ & H)]; [by eapply row_get_raise|].
  destruct (decide (c = "")); [done|].
  apply bind_Raise_inv in H as [H|(c' & _ & H)]; [by eapply row_get_raise|].
  by eapply py_float_raise.
Qed.

Lemma float_or_zero_is_Some row col x :
  float_or_zero float_of_str row col = Ok x -> is_Some (row !! col).
Proof.
  unfold float_or_zero. intros H. apply bind_Ok_inv in H as (c & Hc & _).
  by eapply row_get_is_Some.
Qed.

Lemma float_or_nan_is_Some row col x :
  float_or_nan float_of_str row col = Ok x -> is_Some (row !! col).
Proof.
  unfold float_or_nan. intros H. apply bind_Ok_inv in H as (c & Hc & _).
  by eapply row_get_is_Some.
Qed.

Lemma from_entry_raise row e :
  from_entry float_of_str row = Raise e -> row_error row e.
Proof.
  unfold from_entry. intros H.
  apply bind_Raise_inv in H as [H|(? & _ & H)]; [by eapply row_get_raise|].
  apply bind_Raise_inv in H as [H|(? & _ & H)]; [by eapply float_or_zero_raise|].
  apply bind_Raise_inv in H as [H|(? & _ & H)]; [by eapply float_or_nan_raise|].
  apply bind_Raise_inv in H as [H|(? & _ & H)]; [by eapply row_get_raise|].
  apply bind_Raise_inv in H as [H|(? & _ & H)]; [by eapply row_key_raise | done].
Qed.

Lemma to_entry_raise row e :
  to_entry float_of_str row = Raise e -> row_error row e.
Proof.
  unfold to_entry. intros H.
  apply bind_Raise_inv in H as [H|(? & _ & H)]; [by eapply row_get_raise|].
  apply bind_Raise_inv in H as [H|(? & _ & H)]; [by eapply float_or_zero_raise|].
  apply bind_Raise_inv in H as [H|(? & _ & H)]; [by eapply float_or_nan_raise|].
  apply bind_Raise_inv in H as [H|(? & _ & H)]; [by eapply row_key_raise | done].
Qed.

Lemma from_entry_reads row en col :
  from_entry float_of_str row = Ok en ->
  col ∈ ["status"; "time"; "objective"; "method"; "model"; "data_file"] ->
  is_Some (row !! col).
Proof.
  unfold from_entry. intros H Hcol.
  apply bind_Ok_inv in H as (? & H1 & H). apply bind_Ok_inv in H as (? & H2 & H).
  apply bind_Ok_inv in H as (? & H3 & H). apply bind_Ok_inv in H as (? & H4 & H).
  apply bind_Ok_inv in H as (? & H5 & _).
  apply row_key_is_Some in H5 as [H5 H6].
  apply row_get_is_Some in H1, H4.
  apply float_or_zero_is_Some in H2. apply float_or_nan_is_Some in H3.
  repeat (apply elem_of_cons in Hcol as [->|Hcol]; [done|]).
  by apply elem_of_nil in Hcol.
Qed.

Lemma to_entry_reads row en col :
  to_entry float_of_str row = Ok en ->
  col ∈ ["status"; "time"; "objective"; "model"; "data_file"] ->
  is_Some (row !! col).
Proof.
  unfold to_entry. intros H Hcol.
  apply bind_Ok_inv in H as (? & H1 & H). apply bind_Ok_inv in H as (? & H2 & H).
  apply bind_Ok_inv in H as (? & H3 & H). apply bind_Ok_inv in H as (? & H5 & _).
  apply row_key_is_Some in H5 as [H5 H6].
  apply row_get_is_Some in H1.
  apply float_or_zero_is_Some in H2. apply float_or_nan_is_Some in H3.
  repeat (apply elem_of_cons in Hcol as [->|Hcol]; [done|]).
  by apply elem_of_nil in Hcol.
Qed.

Lemma scan_row_raise from_conf to_conf st row e :
  scan_row float_of_str from_conf to_conf st row = Raise e -> row_error row e.
Proof.
  destruct st as [fs ts]. rewrite scan_row_entries. intros H.
  apply bind_Raise_inv in H as [H|(c & _ & H)]; [by eapply row_get_raise|].
  destruct (decide (c = from_conf)).
  - apply bind_Raise_inv in H as [H|(? & _ & H)]; [by eapply from_entry_raise | done].
  - destruct (decide (c = to_conf)); [|done].
    apply bind_Raise_inv in H as [H|(? & _ & H)]; [by eapply to_entry_raise | done].
Qed.

Lemma scan_row_reads from_conf to_conf st st' row col :
  scan_row float_of_str from_conf to_conf st row = Ok st' ->
  col ∈ compare_reads from_conf to_conf row -> is_Some (row !! col).
Proof.
  destruct st as [fs ts]. rewrite scan_row_entries. intros H.
  apply bind_Ok_inv in H as (c & Hc & H). apply row_get_Ok in Hc.
  unfold compare_reads. rewrite Hc. intros Hcol.
  apply elem_of_cons in Hcol as [->|Hcol]; [by rewrite Hc|].
  destruct (decide (c = from_conf)).
  - apply bind_Ok_inv in H as (en & He & _). by eapply from_entry_reads.
  - destruct (decide (c = to_conf)); [|by apply elem_of_nil in Hcol].
    apply bind_Ok_inv in H as (en & He & _). by eapply to_entry_reads.
Qed.

Lemma compare_missing_column rows from_conf to_conf td od row col :
  row ∈ rows -> col ∈ compare_reads from_conf to_conf row -> row !! col = None ->
  exists e row',
    compare_configurations float_of_str rows from_conf to_conf td od = Raise e
    /\ row' ∈ rows /\ row_error row' e.
Proof.
  intros Hrow Hcol Hnone.
  destruct (for_each_raises (scan_row float_of_str from_conf to_conf) row rows
              ([], []) Hrow) as (e & row' & st & Hrun & Hin & Hstep).
  { intros st. destruct (scan_row float_of_str from_conf to_conf st row) eqn:Hs;
      [|eauto].
    pose proof (scan_row_reads _ _ _ _ _ _ Hs Hcol) as [v Hv]. congruence. }
  exists e, row'. split_and!; [|done|by eapply scan_row_raise].
  unfold compare_configurations, scan. by rewrite Hrun.
Qed.

End MissingColumns.

Section ReportColumns.
Variable float_of_str : string -> option float.
Variable path_name : string -> string.
Variable py_sum : list float -> float.
Variable format_f : nat -> float -> string.
Variables per_problem per_model per_instance : bool.
Variable avg : option string.

Lemma group_key_raise row e :
  group_key path_name per_problem per_model per_instance row = Raise e ->
  row_error row e.
Proof.
  unfold group_key. intros H.
  apply bind_Raise_inv in H as [H|(c & _ & H)]; [by eapply row_get_raise|].
  apply bind_Raise_inv in H as [H|(k1 & _ & H)].
  { destruct per_model; [|done].
    apply bind_Raise_inv in H as [H|(? & _ & H)]; [by eapply row_get_raise | done]. }
  apply bind_Raise_inv in H as [H|(k2 & _ & H)].
  { destruct per_problem; [|done].
    apply bind_Raise_inv in H as [H|(? & _ & H)]; [by eapply row_get_raise | done]. }
  destruct per_instance; [|done].
  apply bind_Raise_inv in H as [H|(? & _ & H)]; [by eapply row_get_raise | done].
Qed.

Lemma group_key_reads row key col :
  group_key path_name per_problem per_model per_instance row = Ok key ->
  col ∈ ["configuration"]
          ++ (if per_model then ["model"] else [])
          ++ (if per_problem then ["problem"] else [])
          ++ (if per_instance then ["data_file"] else []) ->
  is_Some (row !! col).
Proof.
  unfold group_key. intros H Hcol.
  apply bind_Ok_inv in H as (c & Hc & H). apply row_get_is_Some in Hc.
  apply bind_Ok_inv in H as (k1 & H1 & H).
  apply bind_Ok_inv in H as (k2 & H2 & H3).
  apply elem_of_app in Hcol as [Hcol|Hcol].
  { by apply list_elem_of_singleton in Hcol as ->. }
  apply elem_of_app in Hcol as [Hcol|Hcol].
  { destruct per_model; [|by apply elem_of_nil in Hcol].
    apply list_elem_of_singleton in Hcol as ->.
    apply bind_Ok_inv in H1 as (? & Hm & _). by eapply row_get_is_Some. }
  apply elem_of_app in Hcol as [Hcol|Hcol].
  { destruct per_problem; [|by apply elem_of_nil in Hcol].
    apply list_elem_of_singleton in Hcol as ->.
    apply bind_Ok_inv in H2 as (? & Hp & _). by eapply row_get_is_Some. }
  destruct per_instance; [|by apply elem_of_nil in Hcol].
  apply list_elem_of_singleton in Hcol as ->.
  apply bind_Ok_inv in H3 as (? & Hd & _). by eapply row_get_is_Some.
Qed.

Lemma avg_time_raise row e :
  avg_time float_of_str avg row = Raise e -> row_error row e.
Proof.
  unfold avg_time. destruct (avg_value avg row) as [s|]; [|done].
  destruct (decide (s = "")); [done|]. by apply py_float_raise.
Qed.

Lemma report_row_raise st row e :
  report_row float_of_str path_name per_problem per_model per_instance avg st row
  = Raise e -> row_error row e.
Proof.
  destruct st as [seen table]. unfold report_row. intros H.
  apply bind_Raise_inv in H as [H|(key & _ & H)]; [by eapply group_key_raise|].
  apply bind_Raise_inv in H as [H|(status & _ & H)]; [by eapply row_get_raise|].
  apply bind_Raise_inv in H as [H|(time & _ & H)]; [by eapply avg_time_raise|].
  destruct (dict_get key table) as [r|]; [|done].
  by destruct (dict_get status r).
Qed.

Lemma report_row_reads st st' row col :
  report_row float_of_str path_name per_problem per_model per_instance avg st row
  = Ok st' ->
  col ∈ report_reads per_problem per_model per_instance -> is_Some (row !! col).
Proof.
  destruct st as [seen table]. unfold report_row, report_reads. intros H Hcol.
  apply bind_Ok_inv in H as (key & Hkey & H).
  apply bind_Ok_inv in H as (status & Hst & _).
  rewrite !app_assoc in Hcol. apply elem_of_app in Hcol as [Hcol|Hcol].
  - rewrite <- !app_assoc in Hcol. by eapply group_key_reads.
  - apply list_elem_of_singleton in Hcol as ->. by eapply row_get_is_Some.
Qed.

Lemma report_missing_column rows tablefmt row col :
  row ∈ rows -> col ∈ report_reads per_problem per_model per_instance ->
  row !! col = None ->
  exists e row',
    report_status float_of_str path_name py_sum format_f
      per_problem per_model per_instance rows avg tablefmt = Raise e
    /\ row' ∈ rows /\ row_error row' e.
Proof.
  intros Hrow Hcol Hnone.
  destruct (for_each_raises
              (report_row float_of_str path_name per_problem per_model
                 per_instance avg) row rows (∅, []) Hrow)
    as (e & row' & st & Hrun & Hin & Hstep).
  { intros st.
    destruct (report_row float_of_str path_name per_problem per_model
                per_instance avg st row) eqn:Hs; [|eauto].
    pose proof (report_row_reads _ _ _ _ Hs Hcol) as [v Hv]. congruence. }
  exists e, row'. split_and!; [|done|by eapply report_row_raise].
  unfold report_status, report_scan. by rewrite Hrun.
Qed.


End ReportColumns.


Section ConversionErrors.
Variable float_of_str : string -> option float.








End ConversionErrors.

Section FirstRow.
Variable float_of_str : string -> option float.
Variable path_name : string -> string.
Variables per_problem per_model per_instance : bool.
Variable avg : option string.



End FirstRow.




(** Every time of [without_status] is a number and every objective is
    empty. *)
Example without_status_numbers_ok :
  numbers_ok Concrete.float_of_str Sample.without_status.
Proof.
  intros row col s Hrow Hcol Hs.
  repeat (apply elem_of_cons in Hrow as [->|Hrow];
          [repeat (apply elem_of_cons in Hcol as [->|Hcol];
                   [vm_compute in Hs; injection Hs as <-; vm_compute; eauto|]);
           by apply elem_of_nil in Hcol|]).
  by apply elem_of_nil in Hrow.
Qed.

Example without_status_raises :
  compare_configurations Concrete.float_of_str Sample.without_status
    "confA" "confB" Sample.tenth Sample.tenth
  = Raise (KeyError "status")
  /\ report_status Concrete.float_of_str Concrete.path_name Concrete.py_sum
       Concrete.format_f false false false Sample.without_status None "grid"
     = Raise (KeyError "status").
Proof. split; vm_compute; reflexivity. Qed.

Example without_time_compare_raises :
  compare_configurations Concrete.float_of_str Sample.without_time
    "confA" "confB" Sample.tenth Sample.tenth
  = Raise (KeyError "time").
Proof. vm_compute. reflexivity. Qed.


(** ** The reporter's header *)

Lemma group_key_length (path_name : string -> string)
    (per_problem per_model per_instance : bool) (row : Row) (key : list string) :
  group_key path_name per_problem per_model per_instance row = Ok key ->
  length key
  = 1 + (if per_model then 1 else 0) + (if per_problem then 1 else 0)
    + (if per_instance then 1 else 0).
Proof.
  unfold group_key. intros H.
  apply bind_Ok_inv in H as (c & _ & H).
  apply bind_Ok_inv in H as (k1 & H1 & H).
  apply bind_Ok_inv in H as (k2 & H2 & H3).
  assert (length k1 = 1 + (if per_model then 1 else 0)) as L1.
  { destruct per_model; [|by injection H1 as <-].
    apply bind_Ok_inv in H1 as (m & _ & [= <-]). done. }
  assert (length k2 = length k1 + (if per_problem then 1 else 0)) as L2.
  { destruct per_problem; [|injection H2 as <-; lia].
    apply bind_Ok_inv in H2 as (p & _ & [= <-]). rewrite length_app. done. }
  destruct per_instance.
  - apply bind_Ok_inv in H3 as (d & _ & [= <-]). rewrite length_app. simpl. lia.
  - injection H3 as <-. lia.
Qed.

(** Without [per_model] the header names the components of the group key. *)
Lemma header_keys_length_no_model (path_name : string -> string)
    (per_problem per_instance : bool) (row : Row) (key : list string) :
  group_key path_name per_problem false per_instance row = Ok key ->
  length (header_keys per_problem false per_instance) = length key.
Proof.
  intros H%group_key_length. rewrite H. by destruct per_problem, per_instance.
Qed.

(** C4, on the code: with [per_model] set, lines 13-14 and 17-18 both
    append "model", so the header names "model" twice, while the group key
    of a row holds the model once; the header is one name longer than the
    key of every row. *)
Theorem C4_model_header_appended_twice (path_name : string -> string)
    (per_problem per_instance : bool) (row : Row) (key : list string) :
  group_key path_name per_problem true per_instance row = Ok key ->
  header_keys per_problem true per_instance
  = ["configuration"; "model"] ++ (if per_problem then ["problem"] else [])
      ++ ["model"] ++ (if per_instance then ["instance"] else [])
  /\ length (header_keys per_problem true per_instance) = S (length key).
Proof.
  intros H%group_key_length. split; [done|].
  rewrite H. by destruct per_problem, per_instance.
Qed.

Lemma C4_model_header_appended_twice_witness :
  header_keys false true false = ["configuration"; "model"; "model"]
  /\ length (header_keys false true false) = S (length ["confA"; "m1"]).
Proof.
  apply (C4_model_header_appended_twice Concrete.path_name false false
           (Sample.csv_row "confA" "p" "m1" "d1" "SATISFIED" "10.0" "" "satisfy")
           ["confA"; "m1"]).
  vm_compute. reflexivity.
Defined.

Example report_per_model_table :
  report_status Concrete.float_of_str Concrete.path_name Concrete.py_sum
    Concrete.format_f false true false Sample.slower None "simple"
  = Ok (mkTabulate [["confA"; "m1"; "1"]; ["confB"; "m1"; "1"]]
          ["configuration"; "model"; "model"; "SATISFIED"] "simple").
Proof. vm_compute. reflexivity. Qed.

(** ** Sorting *)

Section SortFacts.
Context {K A : Type} (lt : K -> K -> bool).
Variable good : K -> Prop.
Hypothesis lt_asym : forall a b, lt a b = true -> lt b a = false.
Hypothesis not_lt_trans : forall a b c,
  good a -> good b -> good c -> lt b a = false -> lt c b = false -> lt c a = false.

Lemma insert_by_perm (x : K * A) (l : list (K * A)) :
  Permutation (insert_by lt x l) (x :: l).
Proof.
  induction l as [|y l IH]; simpl; [done|].
  destruct (lt (fst y) (fst x)); [|done].
  rewrite IH. apply perm_swap.
Qed.

Lemma stable_sort_perm (l : list (K * A)) : Permutation (stable_sort lt l) l.
Proof.
  induction l as [|x l IH]; simpl; [done|].
  rewrite insert_by_perm. by rewrite IH.
Qed.

Lemma sort_decorated_perm (reverse : bool) (l : list (K * A)) :
  Permutation (sort_decorated lt reverse l) l.
Proof.
  unfold sort_decorated. destruct reverse; [|apply stable_sort_perm].
  rewrite <- Permutation_rev, stable_sort_perm. symmetry. apply Permutation_rev.
Qed.

Lemma insert_by_sorted (x : K * A) (l : list (K * A)) :
  good (fst x) -> Forall (fun y => good (fst y)) l ->
  StronglySorted (not_above lt) l -> StronglySorted (not_above lt) (insert_by lt x l).
Proof.
  intros Hx Hl Hs. induction l as [|y l IH]; simpl.
  - repeat constructor.
  - apply Forall_cons in Hl as [Hy Hl].
    apply StronglySorted_inv in Hs as [Hs Hyl].
    destruct (lt (fst y) (fst x)) eqn:Hlt.
    + constructor; [by apply IH|].
      rewrite insert_by_perm. constructor; [|done].
      unfold not_above. by apply lt_asym.
    + constructor; [by constructor|].
      constructor; [done|].
      rewrite Forall_forall in Hyl, Hl. apply Forall_forall. intros z Hz.
      unfold not_above in *. apply (not_lt_trans _ (fst y)); auto.
Qed.

Lemma stable_sort_sorted (l : list (K * A)) :
  Forall (fun y => good (fst y)) l -> StronglySorted (not_above lt) (stable_sort lt l).
Proof.
  induction l as [|x l IH]; simpl; intros Hl; [constructor|].
  apply Forall_cons in Hl as [Hx Hl].
  apply insert_by_sorted; [done | | by apply IH].
  by rewrite stable_sort_perm.
Qed.

End SortFacts.

Lemma StronglySorted_app {X : Type} (R : X -> X -> Prop) (l1 l2 : list X) :
  StronglySorted R l1 -> StronglySorted R l2 ->
  (forall a b, a ∈ l1 -> b ∈ l2 -> R a b) ->
  StronglySorted R (l1 ++ l2).
Proof.
  intros H1 H2 H12. induction l1 as [|x l1 IH]; simpl; [done|].
  apply StronglySorted_inv in H1 as [H1 Hx].
  constructor.
  - apply IH; [done|]. intros a b Ha Hb. apply H12; [by apply list_elem_of_further | done].
  - apply Forall_app. split; [done|].
    apply Forall_forall. intros b Hb. apply H12; [apply list_elem_of_here | done].
Qed.

Lemma StronglySorted_rev {X : Type} (R : X -> X -> Prop) (l : list X) :
  StronglySorted R l -> StronglySorted (fun a b => R b a) (rev l).
Proof.
  induction 1 as [|x l Hs IH Hx]; simpl; [constructor|].
  apply StronglySorted_app; [done | repeat constructor |].
  intros a b Ha Hb. apply list_elem_of_singleton in Hb as ->.
  rewrite Forall_forall in Hx. apply Hx. apply list_elem_of_In in Ha.
  apply list_elem_of_In. by apply in_rev.
Qed.

Lemma StronglySorted_map {X Y : Type} (R : X -> X -> Prop) (R' : Y -> Y -> Prop)
    (P : X -> Prop) (f : X -> Y) (l : list X) :
  (forall a b, P a -> P b -> R a b -> R' (f a) (f b)) ->
  Forall P l -> StronglySorted R l -> StronglySorted R' (map f l).
Proof.
  intros HR HP Hs. induction Hs as [|x l Hs IH Hx]; simpl; [constructor|].
  apply Forall_cons in HP as [Px Pl].
  constructor; [by apply IH|].
  rewrite Forall_forall in Hx, Pl. apply Forall_forall. intros y Hy.
  apply list_elem_of_fmap in Hy as (a & -> & Ha). apply HR; auto.
Qed.

Section PySorted.
Context {K A : Type} (lt : K -> K -> bool).
Variable good : K -> Prop.
Hypothesis lt_asym : forall a b, lt a b = true -> lt b a = false.
Hypothesis not_lt_trans : forall a b c,
  good a -> good b -> good c -> lt b a = false -> lt c b = false -> lt c a = false.
Variable key : A -> result K.

Lemma decorate_inv (l : list A) (ks : list (K * A)) :
  map_result (fun x => key x ≫= fun k => Ok (k, x)) l = Ok ks ->
  map snd ks = l /\ Forall (fun kx => key (snd kx) = Ok (fst kx)) ks.
Proof.
  rewrite map_result_Forall2.
  induction 1 as [|x kx l ks Hx _ [IH1 IH2]]; simpl; [by split|].
  apply bind_Ok_inv in Hx as (k & Hk & [= <-]). simpl.
  split; [by rewrite IH1 | by constructor].
Qed.

Lemma py_sorted_spec (reverse : bool) (l out : list A) :
  (forall x k, x ∈ l -> key x = Ok k -> good k) ->
  py_sorted lt key reverse l = Ok out ->
  Permutation out l /\ StronglySorted (in_order lt key reverse) out.
Proof.
  intros Hgood. unfold py_sorted. intros H.
  apply bind_Ok_inv in H as (ks & Hks & [= <-]).
  apply decorate_inv in Hks as [Hl Hkey].
  assert (Hg : Forall (fun kx => good (fst kx)) ks).
  { rewrite Forall_forall in Hkey. apply Forall_forall. intros kx Hin.
    apply (Hgood (snd kx)); [|by apply Hkey].
    rewrite <- Hl. apply list_elem_of_fmap. by exists kx. }
  split.
  { rewrite <- Hl. apply Permutation_map, sort_decorated_perm. }
  assert (Hkey' : Forall (fun kx => key (snd kx) = Ok (fst kx))
                    (sort_decorated lt reverse ks)).
  { by rewrite sort_decorated_perm. }
  unfold sort_decorated in *. destruct reverse.
  - eapply (StronglySorted_map _ _ _ snd); [|exact Hkey'|].
    2:{ apply StronglySorted_rev, (stable_sort_sorted lt good); [done..|].
        apply Forall_forall. intros kx Hin. rewrite Forall_forall in Hg.
        apply Hg. apply list_elem_of_In. apply in_rev. by apply list_elem_of_In. }
    intros a b Ha Hb Hab. exists (fst a), (fst b). done.
  - eapply (StronglySorted_map _ _ _ snd); [|exact Hkey'|].
    2:{ by apply (stable_sort_sorted lt good). }
    intros a b Ha Hb Hab. exists (fst a), (fst b). done.
Qed.

Lemma py_sorted_total (reverse : bool) (l : list A) :
  (forall x, x ∈ l -> exists k, key x = Ok k) ->
  exists out, py_sorted lt key reverse l = Ok out.
Proof.
  intros Hdef. unfold py_sorted.
  assert (exists ks, map_result (fun x => key x ≫= fun k => Ok (k, x)) l = Ok ks)
    as [ks ->]; [|simpl; eauto].
  induction l as [|x l IH]; simpl; [eauto|].
  destruct (Hdef x) as [k ->]; [apply list_elem_of_here|]. simpl.
  destruct IH as [ks ->]; [|simpl; eauto].
  intros y Hy. apply Hdef. by apply list_elem_of_further.
Qed.

End PySorted.

(** ** The order of floats *)

Lemma SFcompare_antisym (a b : float) :
  SFcompare b a
  = match SFcompare a b with Some c => Some (CompOpp c) | None => None end.
Proof.
  destruct a as [sa|sa| |sa ma ea], b as [sb|sb| |sb mb eb]; simpl;
    try reflexivity;
    try (destruct sa; reflexivity); try (destruct sb; reflexivity);
    try (destruct sa, sb; reflexivity).
  change (Pos.compare_cont Eq ma mb) with (ma ?= mb)%positive.
  change (Pos.compare_cont Eq mb ma) with (mb ?= ma)%positive.
  rewrite (Z.compare_antisym ea eb), (Pos.compare_antisym ma mb).
  destruct sa, sb, (ea ?= eb)%Z, (ma ?= mb)%positive; reflexivity.
Qed.

Lemma ltb_asym (a b : float) : PyFloat.ltb a b = true -> PyFloat.ltb b a = false.
Proof.
  unfold PyFloat.ltb, SFltb. rewrite (SFcompare_antisym a b).
  by destruct (SFcompare a b) as [[]|].
Qed.

Lemma SFcompare_not_nan (a b : float) :
  PyFloat.is_nan a = false -> PyFloat.is_nan b = false ->
  exists c, SFcompare a b = Some c.
Proof.
  destruct a as [sa|sa| |sa ma ea], b as [sb|sb| |sb mb eb]; simpl;
    try discriminate; eauto.
Qed.

Lemma not_ltb_leb (a b : float) :
  PyFloat.is_nan a = false -> PyFloat.is_nan b = false ->
  PyFloat.ltb b a = false <-> PyFloat.leb a b = true.
Proof.
  intros Ha Hb. unfold PyFloat.ltb, PyFloat.leb, SFltb, SFleb.
  rewrite (SFcompare_antisym a b).
  destruct (SFcompare_not_nan a b Ha Hb) as [c ->]. by destruct c.
Qed.

Ltac order_case := simpl; split; solve [lia | reflexivity | discriminate].

Lemma leb_rank (a b : float) :
  PyFloat.is_nan a = false -> PyFloat.is_nan b = false ->
  PyFloat.leb a b = true <-> le3 (rank a) (rank b).
Proof.
  intros Ha Hb. unfold PyFloat.leb, SFleb.
  destruct a as [sa|sa| |sa ma ea], b as [sb|sb| |sb mb eb];
    try discriminate; simpl;
    try order_case;
    try (destruct sa; order_case); try (destruct sb; order_case);
    try (destruct sa, sb; order_case).
  change (Pos.compare_cont Eq ma mb) with (ma ?= mb)%positive.
  destruct sa, sb; try order_case;
    destruct (Z.compare_spec ea eb); try order_case;
    destruct (Pos.compare_spec ma mb); order_case.
Qed.

Lemma le3_trans a b c : le3 a b -> le3 b c -> le3 a c.
Proof. destruct a as [[? ?] ?], b as [[? ?] ?], c as [[? ?] ?]. simpl. lia. Qed.

Lemma not_ltb_trans (a b c : float) :
  PyFloat.is_nan a = false -> PyFloat.is_nan b = false -> PyFloat.is_nan c = false ->
  PyFloat.ltb b a = false -> PyFloat.ltb c b = false -> PyFloat.ltb c a = false.
Proof.
  intros Ha Hb Hc. rewrite !not_ltb_leb, !leb_rank by done. apply le3_trans.
Qed.

Lemma gtb_abs_not_nan (x threshold : float) :
  PyFloat.gtb (PyFloat.abs x) threshold = true -> PyFloat.is_nan x = false.
Proof.
  destruct x; try done. unfold PyFloat.gtb, PyFloat.ltb, SFltb. simpl.
  by destruct threshold.
Qed.

Lemma py_sorted_floats {X : Type} (key : X -> result float) (reverse : bool)
    (l : list X) :
  keys_ok key l ->
  exists out,
    py_sorted PyFloat.ltb key reverse l = Ok out
    /\ Permutation out l
    /\ StronglySorted (if reverse then descending_by key else ascending_by key) out.
Proof.
  intros Hok.
  destruct (py_sorted_total PyFloat.ltb key reverse l) as [out Hout].
  { intros x Hx. destruct (Hok x Hx) as (k & Hk & _). eauto. }
  exists out. split; [done|].
  destruct (py_sorted_spec PyFloat.ltb (fun k => PyFloat.is_nan k = false)
              ltb_asym not_ltb_trans key reverse l out) as [Hperm Hsorted];
    [|done|].
  { intros x k Hx Hk. destruct (Hok x Hx) as (k' & Hk' & Hnan). congruence. }
  split; [done|].
  assert (Hok' : Forall (fun x => exists k, key x = Ok k /\ PyFloat.is_nan k = false)
                   out).
  { apply Forall_forall. intros x Hx. apply Hok. by rewrite <- Hperm. }
  rewrite <- (map_id out).
  eapply (StronglySorted_map _ _ _ id); [|exact Hok'|exact Hsorted].
  intros a b (ka' & Ha & Hna) (kb' & Hb & Hnb) (ka & kb & Hka & Hkb & Hlt).
  assert (ka' = ka) as -> by congruence. assert (kb' = kb) as -> by congruence.
  destruct reverse; exists ka, kb; split_and!; try done; by apply not_ltb_leb.
Qed.

Lemma map_result_total {X Y : Type} (f : X -> result Y) (l : list X) :
  (forall x, x ∈ l -> exists y, f x = Ok y) -> exists ys, map_result f l = Ok ys.
Proof.
  induction l as [|x l IH]; intros Hdef; simpl; [eauto|].
  destruct (Hdef x) as [y ->]; [apply list_elem_of_here|]. simpl.
  destruct IH as [ys ->]; [|simpl; eauto].
  intros z Hz. apply Hdef. by apply list_elem_of_further.
Qed.

Lemma time_line_defined (format_f : nat -> float -> string) (it : TimeChange) k :
  time_rel it = Ok k -> exists line, time_line format_f it = Ok line.
Proof.
  destruct it as [[[m d] f] t]. unfold time_line. intros ->. simpl. eauto.
Qed.

Lemma obj_line_defined (format_f : nat -> float -> string) (it : ObjChange) k :
  obj_key it = Ok k -> exists line, obj_line format_f it = Ok line.
Proof.
  destruct it as [[[[m d] f] t] mx]. unfold obj_line, obj_key, obj_rel, PyFloat.div.
  destruct (PyFloat.eqb f (PyFloat.of_Z 0)); [done|]. simpl. eauto.
Qed.

(** C5, as the code has it: when every sort key is defined and none is
    NaN, the timing lines are the lines of the timing changes in
    descending order of [(to_time - from_time) / from_time], and the
    objective lines are the lines of the objective changes in ascending
    order of [(1 if maximise else -1) * (to_obj - from_obj) / from_obj]:
    the sign of the relative change is flipped for the entries that are
    not maximize entries. *)
Theorem C5_detail_lines_sorted (format_f : nat -> float -> string)
    (ch : PerformanceChanges) :
  keys_ok time_rel (time_changes ch) ->
  keys_ok obj_key (obj_changes ch) ->
  (exists tl lines,
     time_li ch = Ok tl
     /\ Permutation tl (time_changes ch)
     /\ StronglySorted (descending_by time_rel) tl
     /\ time_lines format_f ch = Ok lines
     /\ Forall2 (fun it line => time_line format_f it = Ok line) tl lines)
  /\ (exists ol lines,
        obj_li ch = Ok ol
        /\ Permutation ol (obj_changes ch)
        /\ StronglySorted (ascending_by obj_key) ol
        /\ obj_lines format_f ch = Ok lines
        /\ Forall2 (fun it line => obj_line format_f it = Ok line) ol lines).
Proof.
  intros Ht Ho. split.
  - destruct (py_sorted_floats time_rel true _ Ht) as (tl & Htl & Hp & Hs).
    destruct (map_result_total (time_line format_f) tl) as [lines Hlines].
    { intros it Hit. rewrite Hp in Hit. destruct (Ht it Hit) as (k & Hk & _).
      by eapply time_line_defined. }
    exists tl, lines. unfold time_lines, time_li. rewrite Htl. simpl.
    split_and!; try done. by apply map_result_Forall2.
  - destruct (py_sorted_floats obj_key false _ Ho) as (ol & Hol & Hp & Hs).
    destruct (map_result_total (obj_line format_f) ol) as [lines Hlines].
    { intros it Hit. rewrite Hp in Hit. destruct (Ho it Hit) as (k & Hk & _).
      by eapply obj_line_defined. }
    exists ol, lines. unfold obj_lines, obj_li. rewrite Hol. simpl.
    split_and!; try done. by apply map_result_Forall2.
Qed.

Example mixed_compared :
  compare_configurations Concrete.float_of_str Sample.mixed "confA" "confB"
    Sample.tenth Sample.tenth
  = Ok Sample.mixed_changes.
Proof. vm_compute. reflexivity. Qed.

Example mixed_rendered :
  time_lines Concrete.format_f Sample.mixed_changes
  = Ok ["- (200.0%: 10.0s -> 30.0s) m1 d4" +:+ nl;
        "- (50.0%: 10.0s -> 15.0s) m1 d3" +:+ nl]
  /\ obj_lines Concrete.format_f Sample.mixed_changes
     = Ok ["- (50.0%: MIN 10.00 -> 15.00) m1 d1" +:+ nl;
           "- (-50.0%: MIN 10.00 -> 5.00) m1 d2" +:+ nl].
Proof. split; vm_compute; reflexivity. Qed.

Lemma C5_detail_lines_sorted_witness :
  (exists tl lines,
     time_li Sample.mixed_changes = Ok tl
     /\ Permutation tl (time_changes Sample.mixed_changes)
     /\ StronglySorted (descending_by time_rel) tl
     /\ time_lines Concrete.format_f Sample.mixed_changes = Ok lines
     /\ Forall2 (fun it line => time_line Concrete.format_f it = Ok line) tl lines)
  /\ (exists ol lines,
        obj_li Sample.mixed_changes = Ok ol
        /\ Permutation ol (obj_changes Sample.mixed_changes)
        /\ StronglySorted (ascending_by obj_key) ol
        /\ obj_lines Concrete.format_f Sample.mixed_changes = Ok lines
        /\ Forall2 (fun it line => obj_line Concrete.format_f it = Ok line) ol lines).
Proof.
  apply (C5_detail_lines_sorted Concrete.format_f Sample.mixed_changes).
  - intros it Hit. simpl in Hit.
    apply elem_of_cons in Hit as [->|Hit];
      [eexists; split; vm_compute; reflexivity|].
    apply elem_of_cons in Hit as [->|Hit];
      [eexists; split; vm_compute; reflexivity|].
    by apply elem_of_nil in Hit.
  - intros it Hit. simpl in Hit.
    apply elem_of_cons in Hit as [->|Hit];
      [eexists; split; vm_compute; reflexivity|].
    apply elem_of_cons in Hit as [->|Hit];
      [eexists; split; vm_compute; reflexivity|].
    by apply elem_of_nil in Hit.
Defined.

(** C5 as stated fails for the objective lines: both entries are
    minimisations, the line of the change by +50% is rendered before the
    line of the change by -50%, and so the lines are not in ascending order
    of the relative change (whose sign the claim flips for maximize entries
    only). *)
Lemma C5_objective_order_counterexample :
  obj_li Sample.mixed_changes
  = Ok [("m1", "d1", Sample.ten, Sample.fifteen, false);
        ("m1", "d2", Sample.ten, Sample.five, false)]
  /\ ~ StronglySorted (ascending_by claimed_obj_key)
         [("m1", "d1", Sample.ten, Sample.fifteen, false);
          ("m1", "d2", Sample.ten, Sample.five, false)].
Proof.
  split; [vm_compute; reflexivity|].
  intros Hs. apply StronglySorted_inv in Hs as [_ Hfirst].
  apply Forall_cons in Hfirst as [(ka & kb & Ha & Hb & Hle) _].
  vm_compute in Ha, Hb. injection Ha as <-. injection Hb as <-.
  vm_compute in Hle. discriminate.
Qed.

Lemma classify_time_changed ts td od k fv f t :
  classify ts td od (k, fv) = Ok (TimeChanged f t) ->
  exists rel, PyFloat.div (PyFloat.sub t f) f = Ok rel
              /\ PyFloat.gtb (PyFloat.abs rel) td = true.
Proof.
  destruct fv as [[[fs ft] fo] fm]. unfold classify.
  destruct (dict_get k ts) as [[[tst tt] to]|]; [|done].
  destruct (negb _); [done|].
  destruct (time_branch fs fm).
  - intros H. apply bind_Ok_inv in H as (rel & Hrel & H).
    destruct (PyFloat.gtb (PyFloat.abs rel) td) eqn:Hgt; [|done].
    injection H as <- <-. eauto.
  - destruct (obj_branch fs fm); [|done].
    intros H. apply bind_Ok_inv in H as (rel & Hrel & H).
    by destruct (PyFloat.gtb (PyFloat.abs rel) od).
Qed.

(** The timing changes that a comparison returns always have sort keys:
    each was recorded because its relative change exceeded the threshold. *)
Lemma compare_time_keys_ok (float_of_str : string -> option float)
    (rows : list Row) (from_conf to_conf : string) (td od : float)
    (changes : PerformanceChanges) :
  compare_configurations float_of_str rows from_conf to_conf td od = Ok changes ->
  keys_ok time_rel (time_changes changes).
Proof.
  unfold compare_configurations. intros H.
  apply bind_Ok_inv in H as ([fs ts] & _ & H). simpl in H.
  rewrite compare_loop_outcomes in H.
  apply bind_Ok_inv in H as (kos & Hall & [= <-]).
  intros it Hit. apply elem_time_changes_record_all in Hit.
  destruct Hit as [Hit|(k & f & t & Hin & ->)]; [by apply elem_of_nil in Hit|].
  apply classify_all_Forall2 in Hall.
  destruct (Forall2_elem_r _ _ _ _ Hall Hin) as ([k' fv] & _ & Hk & Hcl).
  simpl in Hk, Hcl. subst k'.
  destruct (classify_time_changed _ _ _ _ _ _ _ Hcl) as (rel & Hrel & Hgt).
  exists rel. split; [done | by eapply gtb_abs_not_nan].
Qed.

(** ** The order of strings and the status columns *)

Lemma string_ltb_lt (a b : string) : String.ltb a b = true <-> String_as_OT.lt a b.
Proof.
  unfold String.ltb. rewrite <- String_as_OT.cmp_lt. unfold String_as_OT.cmp.
  by destruct (String.compare a b).
Qed.

Lemma string_ltb_asym (a b : string) : String.ltb a b = true -> String.ltb b a = false.
Proof.
  unfold String.ltb. rewrite (String.compare_antisym b a).
  by destruct (String.compare a b).
Qed.

Lemma string_ltb_total (a b : string) :
  a <> b -> String.ltb a b = false -> String.ltb b a = true.
Proof.
  unfold String.ltb. rewrite (String.compare_antisym b a).
  destruct (String.compare a b) eqn:Hc; simpl; try done.
  intros Hne. by apply String.compare_eq_iff in Hc.
Qed.

Lemma string_ltb_trans (a b c : string) :
  String.ltb a b = true -> String.ltb b c = true -> String.ltb a c = true.
Proof. rewrite !string_ltb_lt. apply String_as_OT.lt_trans. Qed.

Lemma string_ltb_irrefl (a : string) : String.ltb a a = false.
Proof.
  destruct (String.ltb a a) eqn:H; [|done]. by rewrite (string_ltb_asym _ _ H) in H.
Qed.

Lemma string_not_ltb_trans (a b c : string) :
  True -> True -> True ->
  String.ltb b a = false -> String.ltb c b = false -> String.ltb c a = false.
Proof.
  intros _ _ _ Hba Hcb. destruct (String.ltb c a) eqn:Hca; [|done].
  destruct (decide (a = b)) as [->|Hab]; [congruence|].
  destruct (decide (b = c)) as [->|Hbc]; [congruence|].
  pose proof (string_ltb_total b a (not_eq_sym Hab) Hba) as Hab'.
  pose proof (string_ltb_total c b (not_eq_sym Hbc) Hcb) as Hbc'.
  pose proof (string_ltb_trans _ _ _ Hca Hab') as Hcb'. congruence.
Qed.

Lemma sort_strings_perm (reverse : bool) (l : list string) :
  Permutation (sort_strings reverse l) l.
Proof.
  unfold sort_strings. rewrite sort_decorated_perm, map_map. simpl.
  by rewrite map_id.
Qed.

Lemma sort_strings_sorted (reverse : bool) (l : list string) :
  StronglySorted
    (fun a b => (if reverse then String.ltb a b else String.ltb b a) = false)
    (sort_strings reverse l).
Proof.
  unfold sort_strings. set (ks := map (fun s => (s, s)) l).
  assert (Hdiag : Forall (fun kx : string * string => fst kx = snd kx)
                    (sort_decorated String.ltb reverse ks)).
  { rewrite sort_decorated_perm. subst ks. apply Forall_forall.
    intros kx Hin. apply list_elem_of_fmap in Hin as (s & -> & _). done. }
  assert (Hall : forall l' : list (string * string),
             Forall (fun y => True) l') by (intros; by apply Forall_forall).
  unfold sort_decorated in *. destruct reverse.
  - eapply (StronglySorted_map _ _ _ snd); [|exact Hdiag|].
    2:{ apply StronglySorted_rev,
          (stable_sort_sorted String.ltb (fun _ => True) string_ltb_asym
             string_not_ltb_trans), Hall. }
    intros a b Ha Hb. unfold not_above. by rewrite Ha, Hb.
  - eapply (StronglySorted_map _ _ _ snd); [|exact Hdiag|].
    2:{ apply (stable_sort_sorted String.ltb (fun _ => True) string_ltb_asym
                 string_not_ltb_trans), Hall. }
    intros a b Ha Hb. unfold not_above. by rewrite Ha, Hb.
Qed.

Lemma sorted_NoDup_strict (l : list string) :
  NoDup l -> StronglySorted (fun a b => String.ltb a b = false) l ->
  StronglySorted (fun a b => String.ltb b a = true) l.
Proof.
  intros Hnd Hs. induction Hs as [|x l Hs IH Hx]; [constructor|].
  apply NoDup_cons in Hnd as [Hx' Hnd]. constructor; [by apply IH|].
  rewrite Forall_forall in Hx. apply Forall_forall. intros y Hy.
  apply string_ltb_total; [|by apply Hx]. intros ->. by apply Hx'.
Qed.

Lemma strictly_descending_unique (l1 l2 : list string) :
  StronglySorted (fun a b => String.ltb b a = true) l1 ->
  StronglySorted (fun a b => String.ltb b a = true) l2 ->
  Permutation l1 l2 -> l1 = l2.
Proof.
  intros H1. revert l2. induction H1 as [|a l1 H1 IH Ha]; intros l2 H2 Hp.
  - by apply Permutation_nil in Hp.
  - destruct H2 as [|b l2 H2 Hb].
    { symmetry in Hp. by apply Permutation_nil in Hp. }
    rewrite Forall_forall in Ha, Hb.
    assert (a = b) as <-.
    { assert (Hain : a ∈ b :: l2) by (rewrite <- Hp; apply list_elem_of_here).
      assert (Hbin : b ∈ a :: l1) by (rewrite Hp; apply list_elem_of_here).
      apply elem_of_cons in Hain as [?|Hain]; [done|].
      apply elem_of_cons in Hbin as [?|Hbin]; [done|].
      pose proof (Hb a Hain) as Hab. pose proof (Ha b Hbin) as Hba.
      by rewrite (string_ltb_asym _ _ Hab) in Hba. }
    f_equal. apply IH; [done|]. by apply Permutation_cons_inv in Hp.
Qed.

(** The sorted columns do not depend on the order in which the set of
    seen statuses is listed. *)
Lemma sort_strings_listing_irrelevant (l l' : list string) :
  NoDup l -> Permutation l' l -> sort_strings true l' = sort_strings true l.
Proof.
  intros Hnd Hp. apply strictly_descending_unique.
  - apply sorted_NoDup_strict; [|apply (sort_strings_sorted true)].
    by rewrite sort_strings_perm, Hp.
  - apply sorted_NoDup_strict; [|apply (sort_strings_sorted true)].
    by rewrite sort_strings_perm.
  - by rewrite !sort_strings_perm.
Qed.

Lemma for_each_Ok_elem {S X : Type} (body : S -> X -> result S) (xs : list X)
    (s0 sf : S) (x : X) :
  for_each body s0 xs = Ok sf -> x ∈ xs -> exists s s', body s x = Ok s'.
Proof.
  revert s0. induction xs as [|y xs IH]; intros s0 Hrun Hx.
  - by apply elem_of_nil in Hx.
  - simpl in Hrun. apply bind_Ok_inv in Hrun as (s1 & Hy & Hrest).
    apply elem_of_cons in Hx as [->|Hx]; [eauto | by eapply IH].
Qed.

Lemma for_each_total {S X : Type} (body : S -> X -> result S) (xs : list X) (s0 : S) :
  (forall x, x ∈ xs -> forall s, exists s', body s x = Ok s') ->
  exists sf, for_each body s0 xs = Ok sf.
Proof.
  revert s0. induction xs as [|y xs IH]; intros s0 Hok; simpl; [eauto|].
  destruct (Hok y (list_elem_of_here _ _) s0) as [s1 ->]. simpl.
  apply IH. intros x Hx. apply Hok. by apply list_elem_of_further.
Qed.

Section StatusColumns.
Variable float_of_str : string -> option float.
Variable path_name : string -> string.
Variables per_problem per_model per_instance : bool.
Variable avg : option string.

Lemma report_row_seen seen table seen' table' row :
  report_row float_of_str path_name per_problem per_model per_instance avg
    (seen, table) row = Ok (seen', table') ->
  exists status, row !! "status" = Some status /\ seen' = {[ status ]} ∪ seen.
Proof.
  unfold report_row. intros H.
  apply bind_Ok_inv in H as (key & _ & H).
  apply bind_Ok_inv in H as (status & Hst & H). apply row_get_Ok in Hst.
  apply bind_Ok_inv in H as (time & _ & H).
  exists status. split; [done|].
  destruct (dict_get key table) as [r|]; [|by injection H as <- _].
  destruct (dict_get status r); by injection H as <- _.
Qed.

Lemma report_row_any_state st st1 row st' :
  report_row float_of_str path_name per_problem per_model per_instance avg st row
  = Ok st1 ->
  exists st1',
    report_row float_of_str path_name per_problem per_model per_instance avg st' row
    = Ok st1'.
Proof.
  destruct st as [seen table], st' as [seen' table']. unfold report_row. intros H.
  apply bind_Ok_inv in H as (key & -> & H).
  apply bind_Ok_inv in H as (status & -> & H).
  apply bind_Ok_inv in H as (time & -> & _). simpl.
  destruct (dict_get key table') as [r|]; [|eauto].
  destruct (dict_get status r); eauto.
Qed.

Lemma for_each_report_seen rows seen0 table0 seen table s :
  for_each (report_row float_of_str path_name per_problem per_model per_instance avg)
    (seen0, table0) rows = Ok (seen, table) ->
  s ∈ seen <-> s ∈ seen0 \/ exists row, row ∈ rows /\ row !! "status" = Some s.
Proof.
  revert seen0 table0. induction rows as [|row rows IH]; intros seen0 table0 H.
  - injection H as <- _. split; [auto|]. intros [?|(row & Hin & _)]; [done|].
    by apply elem_of_nil in Hin.
  - simpl in H. apply bind_Ok_inv in H as ([seen1 table1] & Hrow & Hrest).
    apply report_row_seen in Hrow as (status & Hst & ->).
    rewrite (IH _ _ Hrest), elem_of_union, elem_of_singleton. split.
    + intros [[->|?]|(row' & Hin & Hs)]; [right|by left|right].
      * exists row. split; [apply list_elem_of_here | done].
      * exists row'. split; [by apply list_elem_of_further | done].
    + intros [?|(row' & Hin & Hs)]; [by left; right|].
      apply elem_of_cons in Hin as [->|Hin]; [left; left; congruence|].
      right. eauto.
Qed.

End StatusColumns.

Lemma status_columns_of_scan
    (float_of_str : string -> option float) (path_name : string -> string)
    (per_problem per_model per_instance : bool) (avg : option string)
    (rows : list Row) (seen_status : gset string) (table : Table) :
  report_scan float_of_str path_name per_problem per_model per_instance avg rows
  = Ok (seen_status, table) ->
  (forall s, s ∈ status_columns seen_status
             <-> exists row, row ∈ rows /\ row !! "status" = Some s)
  /\ StronglySorted (fun a b => String.ltb b a = true) (status_columns seen_status).
Proof.
  intros Hscan. unfold status_columns, report_scan in *. split.
  - intros s. rewrite sort_strings_perm, elem_of_elements.
    rewrite (for_each_report_seen _ _ _ _ _ _ _ _ _ _ _ s Hscan).
    split; [intros [?|?]; [set_solver | done] | auto].
  - apply sorted_NoDup_strict; [|apply (sort_strings_sorted true)].
    rewrite sort_strings_perm. apply NoDup_elements.
Qed.

(** X19. The status names that [report_status] appends to the header it
    hands to [tabulate] are exactly the distinct status values of the rows,
    in strictly descending lexicographic order; they are the same whatever
    the order in which the set of seen statuses is listed, and the same for
    every permutation of the rows. *)
Theorem status_names_sorted_descending
    (float_of_str : string -> option float) (path_name : string -> string)
    (per_problem per_model per_instance : bool) (avg : option string)
    (rows : list Row) (seen_status : gset string) (table : Table) :
  report_scan float_of_str path_name per_problem per_model per_instance avg rows
  = Ok (seen_status, table) ->
  (forall s, s ∈ status_columns seen_status
             <-> exists row, row ∈ rows /\ row !! "status" = Some s)
  /\ NoDup (status_columns seen_status)
  /\ StronglySorted (fun a b => String.ltb b a = true) (status_columns seen_status)
  /\ (forall listing, Permutation listing (elements seen_status) ->
        sort_strings true listing = status_columns seen_status)
  /\ (forall py_sum format_f tablefmt out,
        report_status float_of_str path_name py_sum format_f
          per_problem per_model per_instance rows avg tablefmt = Ok out ->
        tab_headers out
        = header_keys per_problem per_model per_instance
            ++ status_columns seen_status)
  /\ (forall rows', Permutation rows rows' ->
        (exists seen_status' table',
           report_scan float_of_str path_name per_problem per_model per_instance
             avg rows' = Ok (seen_status', table')
           /\ status_columns seen_status' = status_columns seen_status)
        /\ (forall py_sum format_f tablefmt out',
              report_status float_of_str path_name py_sum format_f
                per_problem per_model per_instance rows' avg tablefmt = Ok out' ->
              tab_headers out'
              = header_keys per_problem per_model per_instance
                  ++ status_columns seen_status)).
Proof.
  intros Hscan. unfold status_columns.
  assert (Hseen : forall s, s ∈ seen_status
                            <-> exists row, row ∈ rows /\ row !! "status" = Some s).
  { intros s. unfold report_scan in Hscan.
    rewrite (for_each_report_seen _ _ _ _ _ _ _ _ _ _ _ s Hscan).
    split; [intros [?|?]; [set_solver | done] | auto]. }
  assert (Hnd : NoDup (sort_strings true (elements seen_status))).
  { rewrite sort_strings_perm. apply NoDup_elements. }
  split_and!.
  - intros s. rewrite sort_strings_perm, elem_of_elements. apply Hseen.
  - done.
  - apply sorted_NoDup_strict; [done | apply (sort_strings_sorted true)].
  - intros listing Hp. apply sort_strings_listing_irrelevant; [|done].
    apply NoDup_elements.
  - intros py_sum format_f tablefmt out. unfold report_status.
    rewrite Hscan. simpl. intros H.
    apply bind_Ok_inv in H as (body & _ & [= <-]). done.
  - intros rows' Hp.
    destruct (for_each_total
                (report_row float_of_str path_name per_problem per_model
                   per_instance avg) rows' (∅, [])) as [[seen' table'] Hscan'].
    { intros row Hrow st. rewrite <- Hp in Hrow.
      destruct (for_each_Ok_elem _ _ _ _ _ Hscan Hrow) as (st0 & st1 & Hok).
      by eapply report_row_any_state. }
    assert (seen' = seen_status) as ->.
    { apply set_eq. intros s. rewrite Hseen.
      rewrite (for_each_report_seen _ _ _ _ _ _ _ _ _ _ _ s Hscan').
      split.
      - intros [?|(row & Hin & Hs)]; [set_solver|].
        exists row. by rewrite Hp.
      - intros (row & Hin & Hs). right. exists row. by rewrite <- Hp. }
    split; [by exists seen_status, table'|].
    intros py_sum format_f tablefmt out'. unfold report_status, report_scan.
    rewrite Hscan'. simpl. intros H.
    apply bind_Ok_inv in H as (body & _ & [= <-]). done.
Qed.

Lemma status_names_sorted_descending_witness :
  let cols := status_columns Sample.statuses_seen in
  (forall s, s ∈ cols
             <-> exists row, row ∈ Sample.statuses /\ row !! "status" = Some s)
  /\ NoDup cols
  /\ StronglySorted (fun a b => String.ltb b a = true) cols
  /\ (forall listing, Permutation listing (elements Sample.statuses_seen) ->
        sort_strings true listing = cols)
  /\ (forall py_sum format_f tablefmt out,
        report_status Concrete.float_of_str Concrete.path_name py_sum format_f
          false false false Sample.statuses (Some "time") tablefmt = Ok out ->
        tab_headers out = header_keys false false false ++ cols)
  /\ (forall rows', Permutation Sample.statuses rows' ->
        (exists seen_status' table',
           report_scan Concrete.float_of_str Concrete.path_name false false false
             (Some "time") rows' = Ok (seen_status', table')
           /\ status_columns seen_status' = cols)
        /\ (forall py_sum format_f tablefmt out',
              report_status Concrete.float_of_str Concrete.path_name py_sum
                format_f false false false rows' (Some "time") tablefmt = Ok out' ->
              tab_headers out' = header_keys false false false ++ cols)).
Proof.
  apply (status_names_sorted_descending Concrete.float_of_str
           Concrete.path_name false false false (Some "time") Sample.statuses
           Sample.statuses_seen Sample.statuses_table).
  vm_compute. reflexivity.
Defined.

Example statuses_reported :
  report_status Concrete.float_of_str Concrete.path_name Concrete.py_sum
    Concrete.format_f false false false Sample.statuses (Some "time") "grid"
  = Ok (mkTabulate [["c1"; "1 (60.00s)"; "2 (10.00s)"; "1 (1.00s)"]]
          ["configuration"; "UNKNOWN"; "SATISFIED"; "ERROR"] "grid").
Proof. vm_compute. reflexivity. Qed.

(** The worked example of C6: the one timing change is rendered as a
    change by 50%. *)
Example slower_rendered :
  time_lines Concrete.format_f
    (mkChanges Sample.tenth Sample.tenth []
       [("m1", "d1", Sample.ten, Sample.fifteen)] [] [])
  = Ok ["- (50.0%: 10.0s -> 15.0s) m1 d1" +:+ nl].
Proof. vm_compute. reflexivity. Qed.

Example sample_floats :
  Concrete.float_of_str "0.1" = Some Sample.tenth
  /\ Concrete.float_of_str "10.0" = Some Sample.ten
  /\ Concrete.float_of_str "15.0" = Some Sample.fifteen
  /\ Concrete.float_of_str "5" = Some Sample.five
  /\ Concrete.float_of_str "30" = Some Sample.thirty.
Proof. repeat split; vm_compute; reflexivity. Qed.

(** * Further properties of [compare_configurations] *)

Lemma compare_run (float_of_str : string -> option float)
    (rows : list Row) (from_conf to_conf : string) (td od : float)
    (fs : FromStats) (ts : ToStats) (ch : PerformanceChanges) :
  scan float_of_str from_conf to_conf rows = Ok (fs, ts) ->
  compare_configurations float_of_str rows from_conf to_conf td od = Ok ch ->
  NoDup (dict_keys fs)
  /\ exists kos,
       classify_all ts td od fs = Ok kos
       /\ NoDup (dict_keys kos)
       /\ ch = record_all kos (new_changes td od).
Proof.
  intros Hscan Hcmp.
  rewrite (compare_configurations_scan _ _ _ _ _ _ _ _ Hscan) in Hcmp.
  destruct (scan_NoDup _ _ _ _ _ _ Hscan) as [Hnd _].
  rewrite compare_loop_outcomes in Hcmp.
  apply bind_Ok_inv in Hcmp as (kos & Hall & [= <-]).
  split; [done|]. exists kos. split_and!; try done.
  unfold dict_keys. by rewrite (classify_all_keys _ _ _ _ _ Hall).
Qed.

Lemma outcome_of_key ts td od fs kos k fv o :
  classify_all ts td od fs = Ok kos -> NoDup (dict_keys fs) ->
  dict_get k fs = Some fv ->
  (k, o) ∈ kos <-> classify ts td od (k, fv) = Ok o.
Proof.
  intros Hall Hnd Hget.
  assert (Hnd' : NoDup (dict_keys kos)).
  { unfold dict_keys. by rewrite (classify_all_keys _ _ _ _ _ Hall). }
  destruct (classify_all_lookup _ _ _ _ _ _ _ Hall Hnd Hget) as (o' & Ho' & Hko).
  split.
  - intros Hin. apply (dict_elem_get _ _ _ Hnd') in Hin. congruence.
  - intros Ho. assert (o = o') as -> by congruence. by apply dict_get_Some_elem.
Qed.

Section DictMore.
Context {K V : Type} `{EqDecision K}.
Implicit Types (d : list (K * V)) (k : K) (v : V).

Lemma dict_get_app k d d' :
  dict_get k (d ++ d')
  = match dict_get k d with Some v => Some v | None => dict_get k d' end.
Proof.
  induction d as [|[k' v'] d IH]; simpl; [done|].
  by destruct (decide (k = k')).
Qed.

Lemma dict_get_set k k' v d :
  dict_get k' (dict_set k v d)
  = if decide (k' = k) then Some v else dict_get k' d.
Proof.
  destruct (decide (k' = k)) as [->|Hne].
  - apply dict_get_set_eq.
  - apply dict_get_set_ne. congruence.
Qed.
End DictMore.

Lemma dict_get_dd_append {K X : Type} `{EqDecision K} (p q : K) (x : X)
    (d : list (K * list X)) :
  dict_get p (dd_append q x d)
  = if decide (p = q) then Some (default [] (dict_get q d) ++ [x])
    else dict_get p d.
Proof.
  unfold dd_append. destruct (dict_get q d) as [l|] eqn:Hq.
  - by rewrite dict_get_set.
  - rewrite dict_get_app. simpl.
    destruct (decide (p = q)) as [->|Hne]; [by rewrite Hq|].
    by destruct (dict_get p d).
Qed.

Lemma listed_under_record (pair : string * string) (k k' : Key)
    (ch : PerformanceChanges) (o : Outcome) :
  listed_under pair k (record ch k' o)
  <-> listed_under pair k ch
      \/ (k' = k /\ o = StatusChanged (fst pair) (snd pair)).
Proof.
  unfold listed_under. destruct o; simpl;
    try (split; [auto | intros [?|[_ ?]]; [done | discriminate]]).
  rewrite dict_get_dd_append.
  destruct (decide (pair = (from_status, to_status))) as [->|Hne]; simpl.
  - split.
    + intros (l & [= <-] & Hin). apply elem_of_app in Hin as [Hin|Hin].
      * left. destruct (dict_get _ _) as [l|]; [eauto | by apply elem_of_nil in Hin].
      * apply list_elem_of_singleton in Hin as ->. by right.
    + intros [(l & Hl & Hin)|[-> _]].
      * rewrite Hl. eexists. split; [done|]. apply elem_of_app. by left.
      * eexists. split; [done|]. apply elem_of_app. right.
        by apply list_elem_of_singleton.
  - split; [auto|]. intros [?|[_ [= H1 H2]]]; [done|].
    destruct Hne. destruct pair. simpl in *. congruence.
Qed.

Lemma listed_under_record_all (pair : string * string) (k : Key)
    (kos : list (Key * Outcome)) (ch : PerformanceChanges) :
  listed_under pair k (record_all kos ch)
  <-> listed_under pair k ch
      \/ (k, StatusChanged (fst pair) (snd pair)) ∈ kos.
Proof.
  unfold record_all. revert ch.
  induction kos as [|[k' o] kos IH]; intros ch; simpl.
  - split; [auto | intros [?|Hin]; [done | by apply elem_of_nil in Hin]].
  - rewrite IH, listed_under_record, elem_of_cons. split.
    + intros [[?|[-> ->]]|?]; auto.
    + intros [?|[[= <- <-]|?]]; auto.
Qed.

Lemma listed_under_new pair k td od : ~ listed_under pair k (new_changes td od).
Proof. by intros (l & Hl & _). Qed.

Lemma classify_shared ts td od k fv tv :
  dict_get k ts = Some tv ->
  forall a b, classify ts td od (k, fv) = Ok (StatusChanged a b)
              <-> fv_status fv <> tv_status tv
                  /\ a = fv_status fv /\ b = tv_status tv.
Proof.
  destruct fv as [[[fs ft] fo] fm], tv as [[tst tt] to]. simpl.
  intros Hts a b. unfold classify. rewrite Hts.
  destruct (decide (fs = tst)) as [->|Hne].
  - rewrite bool_decide_true by done. simpl. split; [|by intros [? _]].
    destruct (time_branch tst fm).
    { intros H. apply bind_Ok_inv in H as (c & _ & H).
      by destruct (PyFloat.gtb _ _). }
    destruct (obj_branch tst fm); [|done].
    intros H. apply bind_Ok_inv in H as (c & _ & H).
    by destruct (PyFloat.gtb _ _).
  - rewrite bool_decide_false by done. simpl. split.
    + by intros [= <- <-].
    + by intros (_ & -> & ->).
Qed.

(** X1. A shared instance key is listed in [status_changes] exactly when its
    two statuses differ, and then under the pair (from status, to status)
    and under no other pair. *)
Theorem status_change_listed_under_its_pair
    (float_of_str : string -> option float)
    (rows : list Row) (from_conf to_conf : string) (td od : float)
    (from_stats : FromStats) (to_stats : ToStats) (changes : PerformanceChanges)
    (k : Key) (fv : FromVal) (tv : ToVal) (pair : string * string) :
  scan float_of_str from_conf to_conf rows = Ok (from_stats, to_stats) ->
  compare_configurations float_of_str rows from_conf to_conf td od = Ok changes ->
  dict_get k from_stats = Some fv ->
  dict_get k to_stats = Some tv ->
  listed_under pair k changes
  <-> fv_status fv <> tv_status tv /\ pair = (fv_status fv, tv_status tv).
Proof.
  intros Hscan Hcmp Hf Ht.
  destruct (compare_run _ _ _ _ _ _ _ _ _ Hscan Hcmp) as (Hnd & kos & Hall & _ & ->).
  rewrite listed_under_record_all.
  rewrite (outcome_of_key _ _ _ _ _ _ _ _ Hall Hnd Hf).
  rewrite (classify_shared _ _ _ _ _ _ Ht). split.
  - intros [H|(Hne & Ha & Hb)]; [by apply listed_under_new in H|].
    split; [done|]. destruct pair. simpl in *. congruence.
  - intros [Hne ->]. by right.
Qed.

Lemma status_change_listed_under_its_pair_witness :
  listed_under ("UNKNOWN", "OPTIMAL_SOLUTION") ("m1", "d1")
    (mkChanges Sample.tenth Sample.tenth
       [(("UNKNOWN", "OPTIMAL_SOLUTION"), [("m1", "d1")])] [] [] [])
  <-> "UNKNOWN" <> "OPTIMAL_SOLUTION"
      /\ ("UNKNOWN", "OPTIMAL_SOLUTION") = ("UNKNOWN", "OPTIMAL_SOLUTION").
Proof.
  apply (status_change_listed_under_its_pair Concrete.float_of_str
           Sample.solved "confA" "confB" Sample.tenth Sample.tenth
           [(("m1", "d1"),
             ("UNKNOWN", S754_finite false 8444249301319680 (-47), PyFloat.nan,
              "minimize"))]
           [(("m1", "d1"),
             ("OPTIMAL_SOLUTION", Sample.five,
              S754_finite false 7881299347898368 (-50)))]
           _ ("m1", "d1")
           ("UNKNOWN", S754_finite false 8444249301319680 (-47), PyFloat.nan,
            "minimize")
           ("OPTIMAL_SOLUTION", Sample.five,
            S754_finite false 7881299347898368 (-50))
           ("UNKNOWN", "OPTIMAL_SOLUTION")).
  - vm_compute. reflexivity.
  - vm_compute. reflexivity.
  - vm_compute. reflexivity.
  - vm_compute. reflexivity.
Defined.

Lemma dd_append_keys_NoDup {K X : Type} `{EqDecision K} (q : K) (x : X)
    (d : list (K * list X)) :
  NoDup (dict_keys d) -> NoDup (dict_keys (dd_append q x d)).
Proof.
  intros Hnd. unfold dd_append. destruct (dict_get q d) as [l|] eqn:Hq.
  - by apply dict_set_NoDup.
  - unfold dict_keys. rewrite map_app. simpl.
    apply NoDup_app. split_and!; [done | | apply NoDup_singleton].
    intros y Hy Hy'. apply list_elem_of_singleton in Hy' as ->.
    by apply dict_get_None in Hq.
Qed.

Lemma dict_set_Forall {K V : Type} `{EqDecision K} (P : K * V -> Prop) (k : K)
    (v : V) (d : list (K * V)) :
  P (k, v) -> Forall P d -> Forall P (dict_set k v d).
Proof.
  intros Hkv. induction 1 as [|[k' v'] d Hx Hd IH]; simpl.
  - by constructor.
  - destruct (decide (k = k')); constructor; auto.
Qed.

Lemma dd_append_Forall {K X : Type} `{EqDecision K} (P : K -> Prop) (q : K) (x : X)
    (d : list (K * list X)) :
  P q ->
  Forall (fun e => P (fst e) /\ snd e <> []) d ->
  Forall (fun e => P (fst e) /\ snd e <> []) (dd_append q x d).
Proof.
  intros Hq Hd. unfold dd_append. destruct (dict_get q d) as [l|].
  - apply dict_set_Forall; [|done]. simpl. split; [done|]. by destruct l.
  - apply Forall_app. split; [done|]. constructor; [|constructor]. done.
Qed.

Lemma classify_status_changed_differ ts td od item a b :
  classify ts td od item = Ok (StatusChanged a b) -> a <> b.
Proof.
  destruct item as [k [[[fs ft] fo] fm]]. unfold classify.
  destruct (dict_get k ts) as [[[tst tt] to]|]; [|done].
  destruct (decide (fs = tst)) as [->|Hne].
  - rewrite bool_decide_true by done. simpl.
    destruct (time_branch tst fm).
    { intros H. apply bind_Ok_inv in H as (c & _ & H).
      by destruct (PyFloat.gtb _ _). }
    destruct (obj_branch tst fm); [|done].
    intros H. apply bind_Ok_inv in H as (c & _ & H).
    by destruct (PyFloat.gtb _ _).
  - rewrite bool_decide_false by done. simpl. by intros [= <- <-].
Qed.

(** X2. [status_changes] holds one entry per pair of statuses; no entry is for
    a pair of equal statuses, and no entry has an empty list of instances. *)
Theorem status_changes_entries_well_formed
    (float_of_str : string -> option float)
    (rows : list Row) (from_conf to_conf : string) (td od : float)
    (changes : PerformanceChanges) :
  compare_configurations float_of_str rows from_conf to_conf td od = Ok changes ->
  NoDup (dict_keys (status_changes changes))
  /\ Forall (fun e : (string * string) * list Key =>
               fst (fst e) <> snd (fst e) /\ snd e <> [])
       (status_changes changes).
Proof.
  unfold compare_configurations. intros H.
  apply bind_Ok_inv in H as ([fs ts] & _ & H). simpl in H.
  rewrite compare_loop_outcomes in H.
  apply bind_Ok_inv in H as (kos & Hall & [= <-]).
  apply classify_all_Forall2 in Hall.
  assert (Hkos : Forall (fun ko => forall a b, snd ko = StatusChanged a b -> a <> b)
                   kos).
  { apply Forall_forall. intros [k o] Hin a b Ho. simpl in Ho. subst o.
    destruct (Forall2_elem_r _ _ _ _ Hall Hin) as (item & _ & _ & Hcl).
    by eapply classify_status_changed_differ. }
  clear Hall. unfold record_all.
  assert (Hinit : NoDup (dict_keys (status_changes (new_changes td od)))
                  /\ Forall (fun e : (string * string) * list Key =>
                               fst (fst e) <> snd (fst e) /\ snd e <> [])
                       (status_changes (new_changes td od))).
  { simpl. split; [apply NoDup_nil_2 | constructor]. }
  revert Hinit. generalize (new_changes td od).
  induction Hkos as [|[k o] kos Ho _ IH]; intros ch Hch; simpl; [done|].
  apply IH. destruct Hch as [Hnd Hall]. destruct o; simpl; try done.
  split; [by apply dd_append_keys_NoDup|].
  apply (dd_append_Forall (fun p : string * string => fst p <> snd p)); [|done].
  simpl. by apply Ho.
Qed.

Lemma status_changes_entries_well_formed_witness :
  NoDup (dict_keys [(("UNKNOWN", "OPTIMAL_SOLUTION"), [("m1", "d1")])])
  /\ Forall (fun e : (string * string) * list Key =>
               fst (fst e) <> snd (fst e) /\ snd e <> [])
       [(("UNKNOWN", "OPTIMAL_SOLUTION"), [("m1", "d1")])].
Proof.
  apply (status_changes_entries_well_formed Concrete.float_of_str Sample.solved
           "confA" "confB" Sample.tenth Sample.tenth
           (mkChanges Sample.tenth Sample.tenth
              [(("UNKNOWN", "OPTIMAL_SOLUTION"), [("m1", "d1")])] [] [] [])).
  vm_compute. reflexivity.
Defined.

(** X3. The counterpart of C6 for objectives: for a shared key with status
    SATISFIED on both sides and a from-side method other than "satisfy",
    the relative objective change is computed, and the only entry that
    [obj_changes] can hold for the key is (model, data_file, from_obj,
    to_obj, method == "maximize"), present exactly when the absolute change
    is strictly greater than [obj_delta]. *)
Theorem objective_change_iff_above_threshold
    (float_of_str : string -> option float)
    (rows : list Row) (from_conf to_conf : string) (td od : float)
    (from_stats : FromStats) (to_stats : ToStats) (changes : PerformanceChanges)
    (k : Key) (method : string) (from_time from_obj to_time to_obj : float) :
  scan float_of_str from_conf to_conf rows = Ok (from_stats, to_stats) ->
  compare_configurations float_of_str rows from_conf to_conf td od = Ok changes ->
  dict_get k from_stats = Some ("SATISFIED", from_time, from_obj, method) ->
  dict_get k to_stats = Some ("SATISFIED", to_time, to_obj) ->
  method <> "satisfy" ->
  exists rel,
    PyFloat.div (PyFloat.sub to_obj from_obj) from_obj = Ok rel
    /\ forall f t mx,
         (fst k, snd k, f, t, mx) ∈ obj_changes changes
         <-> f = from_obj /\ t = to_obj
             /\ mx = bool_decide (method = "maximize")
             /\ PyFloat.gtb (PyFloat.abs rel) od = true.
Proof.
  intros Hscan Hcmp Hf Ht Hm.
  destruct (compare_run _ _ _ _ _ _ _ _ _ Hscan Hcmp)
    as (Hnd & kos & Hall & Hnd' & ->).
  destruct (classify_all_lookup _ _ _ _ _ _ _ Hall Hnd Hf) as (o & Ho & Hko).
  unfold classify in Ho. rewrite Ht, bool_decide_true in Ho by done.
  cbn [negb] in Ho.
  assert (time_branch "SATISFIED" method = false) as Htb.
  { unfold time_branch. by rewrite (bool_decide_false _ Hm), andb_false_r. }
  assert (obj_branch "SATISFIED" method = true) as Hob by by apply obj_branch_true.
  rewrite Htb, Hob in Ho.
  apply bind_Ok_inv in Ho as (rel & Hrel & Ho).
  exists rel. split; [done|]. intros f t mx.
  etrans; [by apply elem_obj_changes_lookup|]. rewrite Hko.
  destruct (PyFloat.gtb (PyFloat.abs rel) od); injection Ho as <-.
  - split; [by intros [= <- <- <-] | by intros (-> & -> & -> & _)].
  - split; [done | by intros (_ & _ & _ & ?)].
Qed.

Lemma objective_change_iff_above_threshold_witness :
  exists rel,
    PyFloat.div (PyFloat.sub Sample.fifteen Sample.ten) Sample.ten = Ok rel
    /\ forall f t mx,
         ("m1", "d1", f, t, mx) ∈ obj_changes Sample.mixed_changes
         <-> f = Sample.ten /\ t = Sample.fifteen
             /\ mx = bool_decide ("minimize" = "maximize")
             /\ PyFloat.gtb (PyFloat.abs rel) Sample.tenth = true.
Proof.
  apply (objective_change_iff_above_threshold Concrete.float_of_str Sample.mixed
           "confA" "confB" Sample.tenth Sample.tenth
           (match scan Concrete.float_of_str "confA" "confB" Sample.mixed with
            | Ok st => fst st | Raise _ => [] end)
           (match scan Concrete.float_of_str "confA" "confB" Sample.mixed with
            | Ok st => snd st | Raise _ => [] end)
           Sample.mixed_changes ("m1", "d1") "minimize"
           (S754_finite false 4503599627370496 (-52)) Sample.ten
           (S754_finite false 4503599627370496 (-52)) Sample.fifteen).
  - vm_compute. reflexivity.
  - vm_compute. reflexivity.
  - vm_compute. reflexivity.
  - vm_compute. reflexivity.
  - discriminate.
Defined.

Lemma occurrences_of_outcome (float_of_str : string -> option float)
    rows from_conf to_conf td od fs ts ch k :
  scan float_of_str from_conf to_conf rows = Ok (fs, ts) ->
  compare_configurations float_of_str rows from_conf to_conf td od = Ok ch ->
  match dict_get k fs with
  | Some fv => exists o, classify ts td od (k, fv) = Ok o
                         /\ forall c, occ c k ch = goes_to c o
  | None => forall c, occ c k ch = 0
  end.
Proof.
  intros Hscan Hcmp.
  rewrite (compare_configurations_scan _ _ _ _ _ _ _ _ Hscan) in Hcmp.
  destruct (scan_NoDup _ _ _ _ _ _ Hscan) as [Hnd _].
  pose proof (fun c => occ_compare_loop c k _ _ _ _ _ Hnd Hcmp) as H.
  destruct (dict_get k fs) as [fv|]; [|done].
  destruct (H InMissing) as (o & Ho & _). exists o. split; [done|].
  intros c. destruct (H c) as (o' & Ho' & ->). congruence.
Qed.

(** X4. A shared instance with the same status on both sides, that status
    being neither OPTIMAL_SOLUTION nor SATISFIED (both ERROR, both UNKNOWN,
    both UNSATISFIABLE, ...), is in none of the four containers, whatever
    its times and objectives. *)
Theorem stable_status_never_reported
    (float_of_str : string -> option float)
    (rows : list Row) (from_conf to_conf : string) (td od : float)
    (from_stats : FromStats) (to_stats : ToStats) (changes : PerformanceChanges)
    (k : Key) (status method : string) (from_time from_obj to_time to_obj : float) :
  scan float_of_str from_conf to_conf rows = Ok (from_stats, to_stats) ->
  compare_configurations float_of_str rows from_conf to_conf td od = Ok changes ->
  dict_get k from_stats = Some (status, from_time, from_obj, method) ->
  dict_get k to_stats = Some (status, to_time, to_obj) ->
  status <> "OPTIMAL_SOLUTION" -> status <> "SATISFIED" ->
  occurrences k changes = 0.
Proof.
  intros Hscan Hcmp Hf Ht Hopt Hsat.
  pose proof (occurrences_of_outcome _ _ _ _ _ _ _ _ _ k Hscan Hcmp) as H.
  rewrite Hf in H. destruct H as (o & Ho & Hocc).
  unfold classify in Ho. rewrite Ht, bool_decide_true in Ho by done.
  cbn [negb] in Ho. unfold time_branch, obj_branch in Ho.
  rewrite (bool_decide_false _ Hopt), (bool_decide_false _ Hsat) in Ho.
  simpl in Ho. injection Ho as <-.
  unfold occurrences.
  change (occ InMissing k changes + occ InStatus k changes
          + occ InTime k changes + occ InObj k changes = 0).
  by rewrite !Hocc.
Qed.

Lemma stable_status_never_reported_witness :
  occurrences ("m1", "d1") (mkChanges Sample.tenth Sample.tenth [] [] [] []) = 0.
Proof.
  apply (stable_status_never_reported Concrete.float_of_str Sample.both_unknown
           "confA" "confB" Sample.tenth Sample.tenth
           [(("m1", "d1"), ("UNKNOWN", Sample.ten, PyFloat.nan, "minimize"))]
           [(("m1", "d1"), ("UNKNOWN", Sample.thirty, PyFloat.nan))]
           _ ("m1", "d1") "UNKNOWN" "minimize" Sample.ten PyFloat.nan
           Sample.thirty PyFloat.nan).
  - vm_compute. reflexivity.
  - vm_compute. reflexivity.
  - vm_compute. reflexivity.
  - vm_compute. reflexivity.
  - discriminate.
  - discriminate.
Defined.

Lemma last_row_None sel k rows :
  last_row sel k rows = None
  <-> forall row, row ∈ rows -> sel row && row_has_key k row = false.
Proof.
  induction rows as [|r rows IH]; simpl.
  - split; [intros _ row Hin; by apply elem_of_nil in Hin | done].
  - destruct (last_row sel k rows) as [r'|].
    + split; [done|]. intros H. destruct IH as [_ IH].
      discriminate IH. intros row Hin. apply H. by apply list_elem_of_further.
    + destruct IH as [IH _]. specialize (IH eq_refl).
      destruct (sel r && row_has_key k r) eqn:Hr.
      * split; [done|]. intros H. rewrite H in Hr; [done | apply list_elem_of_here].
      * split; [|done]. intros _ row Hin.
        apply elem_of_cons in Hin as [->|Hin]; auto.
Qed.

(** X5. An instance without a row of the from-configuration is never reported,
    in any container, even when the to-configuration has rows for it:
    instances that only the to-configuration ran are silently left out. *)
Theorem instance_without_from_row_never_reported
    (float_of_str : string -> option float)
    (rows : list Row) (from_conf to_conf : string) (td od : float)
    (changes : PerformanceChanges) (k : Key) :
  compare_configurations float_of_str rows from_conf to_conf td od = Ok changes ->
  (forall row, row ∈ rows -> row_conf_is from_conf row && row_has_key k row = false) ->
  occurrences k changes = 0
  /\ forall pair, ~ listed_under pair k changes.
Proof.
  intros Hcmp Hrows.
  destruct (scan float_of_str from_conf to_conf rows) as [[fs ts]|e] eqn:Hscan.
  2:{ unfold compare_configurations in Hcmp. by rewrite Hscan in Hcmp. }
  assert (Hnone : dict_get k fs = None).
  { pose proof (for_each_scan_from_lookup _ _ _ _ _ _ _ _ k Hscan) as H.
    assert (last_row (from_side from_conf) k rows = None) as Hl
      by by apply last_row_None.
    by rewrite Hl in H. }
  pose proof (occurrences_of_outcome _ _ _ _ _ _ _ _ _ k Hscan Hcmp) as H.
  rewrite Hnone in H. split.
  - unfold occurrences.
    change (occ InMissing k changes + occ InStatus k changes
            + occ InTime k changes + occ InObj k changes = 0).
    by rewrite !H.
  - intros pair Hl.
    destruct (compare_run _ _ _ _ _ _ _ _ _ Hscan Hcmp)
      as (Hnd & kos & Hall & Hnd' & ->).
    apply listed_under_record_all in Hl as [Hl|Hin];
      [by apply listed_under_new in Hl|].
    assert (k ∈ dict_keys kos) as Hk.
    { unfold dict_keys. apply list_elem_of_fmap. by eexists (_, _). }
    unfold dict_keys in Hk. rewrite (classify_all_keys _ _ _ _ _ Hall) in Hk.
    by apply dict_get_None in Hnone.
Qed.

Lemma instance_without_from_row_never_reported_witness :
  occurrences ("m1", "d9") (mkChanges Sample.tenth Sample.tenth [] [] [] []) = 0
  /\ forall pair,
       ~ listed_under pair ("m1", "d9")
           (mkChanges Sample.tenth Sample.tenth [] [] [] []).
Proof.
  apply (instance_without_from_row_never_reported Concrete.float_of_str
           Sample.only_in_to "confA" "confB" Sample.tenth Sample.tenth).
  - vm_compute. reflexivity.
  - intros row Hin. unfold Sample.only_in_to in Hin.
    apply elem_of_cons in Hin as [->|Hin]; [vm_compute; reflexivity|].
    apply elem_of_cons in Hin as [->|Hin]; [vm_compute; reflexivity|].
    apply elem_of_cons in Hin as [->|Hin]; [vm_compute; reflexivity|].
    by apply elem_of_nil in Hin.
Defined.

Lemma map_result_Raise_inv {X Y : Type} (f : X -> result Y) (xs : list X) (e : exn) :
  map_result f xs = Raise e -> exists x, x ∈ xs /\ f x = Raise e.
Proof.
  induction xs as [|x xs IH]; simpl; [done|]. intros H.
  apply bind_Raise_inv in H as [H|(y & _ & H)].
  - exists x. split; [apply list_elem_of_here | done].
  - apply bind_Raise_inv in H as [H|(ys & _ & H)]; [|done].
    destruct (IH H) as (x' & Hin & Hx'). exists x'.
    split; [by apply list_elem_of_further | done].
Qed.

Lemma classify_Raise_inv ts td od k status ft fo method e :
  classify ts td od (k, (status, ft, fo, method)) = Raise e ->
  exists to_time to_obj,
    dict_get k ts = Some (status, to_time, to_obj)
    /\ (((status = "OPTIMAL_SOLUTION"
          \/ (status = "SATISFIED" /\ method = "satisfy"))
         /\ PyFloat.eqb ft (PyFloat.of_Z 0) = true)
        \/ ((status = "SATISFIED" /\ method <> "satisfy")
            /\ PyFloat.eqb fo (PyFloat.of_Z 0) = true)).
Proof.
  unfold classify.
  destruct (dict_get k ts) as [[[tst tt] to]|]; [|done].
  destruct (decide (status = tst)) as [<-|Hne];
    [rewrite bool_decide_true by done | by rewrite bool_decide_false by done].
  cbn [negb]. intros H. exists tt, to. split; [done|].
  destruct (time_branch status method) eqn:Htb.
  - left. split; [by apply time_branch_true|].
    unfold PyFloat.div in H.
    destruct (PyFloat.eqb ft (PyFloat.of_Z 0)); [done|]. simpl in H.
    by destruct (PyFloat.gtb _ _).
  - destruct (obj_branch status method) eqn:Hob; [|done].
    right. split; [by apply obj_branch_true|].
    unfold PyFloat.div in H.
    destruct (PyFloat.eqb fo (PyFloat.of_Z 0)); [done|]. simpl in H.
    by destruct (PyFloat.gtb _ _).
Qed.

(** X6. The converse of C2: once the scan has succeeded, the comparison can
    only fail with [ZeroDivisionError], and it does so only when some
    shared instance with the same status on both sides reaches the relative
    time change with [from_time == 0] or the relative objective change with
    [from_obj == 0]. *)
Theorem comparison_fails_only_on_zero_denominator
    (float_of_str : string -> option float)
    (rows : list Row) (from_conf to_conf : string) (td od : float)
    (from_stats : FromStats) (to_stats : ToStats) (e : exn) :
  scan float_of_str from_conf to_conf rows = Ok (from_stats, to_stats) ->
  compare_configurations float_of_str rows from_conf to_conf td od = Raise e ->
  e = ZeroDivisionError
  /\ exists k status method from_time from_obj to_time to_obj,
       dict_get k from_stats = Some (status, from_time, from_obj, method)
       /\ dict_get k to_stats = Some (status, to_time, to_obj)
       /\ (((status = "OPTIMAL_SOLUTION"
             \/ (status = "SATISFIED" /\ method = "satisfy"))
            /\ PyFloat.eqb from_time (PyFloat.of_Z 0) = true)
           \/ ((status = "SATISFIED" /\ method <> "satisfy")
               /\ PyFloat.eqb from_obj (PyFloat.of_Z 0) = true)).
Proof.
  intros Hscan Hcmp.
  rewrite (compare_configurations_scan _ _ _ _ _ _ _ _ Hscan) in Hcmp.
  destruct (scan_NoDup _ _ _ _ _ _ Hscan) as [Hnd _].
  rewrite compare_loop_outcomes in Hcmp.
  apply bind_Raise_inv in Hcmp as [Hcmp|(kos & _ & Hcmp)]; [|done].
  unfold classify_all in Hcmp.
  apply map_result_Raise_inv in Hcmp as ([k [[[status ft] fo] method]] & Hin & Hr).
  apply bind_Raise_inv in Hr as [Hr|(o & _ & Hr)]; [|done].
  split; [by eapply classify_raise|].
  destruct (classify_Raise_inv _ _ _ _ _ _ _ _ _ Hr) as (tt & to & Hts & Hz).
  exists k, status, method, ft, fo, tt, to.
  split_and!; [by apply dict_elem_get | done | done].
Qed.

Lemma comparison_fails_only_on_zero_denominator_witness :
  ZeroDivisionError = ZeroDivisionError
  /\ exists k status method from_time from_obj to_time to_obj,
       dict_get k
         [(("m1", "d1"),
           ("OPTIMAL_SOLUTION", S754_zero false,
            S754_finite false 7881299347898368 (-50), "minimize"))]
       = Some (status, from_time, from_obj, method)
       /\ dict_get k
            [(("m1", "d1"),
              ("OPTIMAL_SOLUTION", S754_finite false 5629499534213120 (-50),
               S754_finite false 7881299347898368 (-50)))]
          = Some (status, to_time, to_obj)
       /\ (((status = "OPTIMAL_SOLUTION"
             \/ (status = "SATISFIED" /\ method = "satisfy"))
            /\ PyFloat.eqb from_time (PyFloat.of_Z 0) = true)
           \/ ((status = "SATISFIED" /\ method <> "satisfy")
               /\ PyFloat.eqb from_obj (PyFloat.of_Z 0) = true)).
Proof.
  apply (comparison_fails_only_on_zero_denominator Concrete.float_of_str
           Sample.zero_time "confA" "confB" Sample.tenth Sample.tenth).
  - vm_compute. reflexivity.
  - vm_compute. reflexivity.
Defined.

(** ** The order of the reported instances *)

Lemma missing_record_all (kos : list (Key * Outcome)) (ch : PerformanceChanges) :
  missing_instances (record_all kos ch)
  = missing_instances ch
    ++ omap (fun ko => match snd ko with IsMissing => Some (fst ko) | _ => None end)
         kos.
Proof.
  unfold record_all. revert ch.
  induction kos as [|[k o] kos IH]; intros ch; simpl.
  - by rewrite app_nil_r.
  - rewrite IH. destruct o; simpl; try done. by rewrite <- app_assoc.
Qed.

Lemma classify_IsMissing ts td od k fv :
  classify ts td od (k, fv) = Ok IsMissing <-> absent_from ts k = true.
Proof.
  destruct fv as [[[fs ft] fo] fm]. unfold classify, absent_from.
  destruct (dict_get k ts) as [[[tst tt] to]|]; [|done].
  split; [|done]. destruct (negb _); [done|].
  destruct (time_branch fs fm).
  { intros H. apply bind_Ok_inv in H as (c & _ & H).
    by destruct (PyFloat.gtb _ _). }
  destruct (obj_branch fs fm); [|done].
  intros H. apply bind_Ok_inv in H as (c & _ & H).
  by destruct (PyFloat.gtb _ _).
Qed.

(** X7. [missing_instances] is the list of the keys of [from_stats] that are
    not keys of [to_stats], each once, in the order in which [from_stats]
    received them (the order of their first rows in the file). *)
Theorem missing_instances_in_from_stats_order
    (float_of_str : string -> option float)
    (rows : list Row) (from_conf to_conf : string) (td od : float)
    (from_stats : FromStats) (to_stats : ToStats) (changes : PerformanceChanges) :
  scan float_of_str from_conf to_conf rows = Ok (from_stats, to_stats) ->
  compare_configurations float_of_str rows from_conf to_conf td od = Ok changes ->
  missing_instances changes
  = List.filter (absent_from to_stats) (dict_keys from_stats).
Proof.
  intros Hscan Hcmp.
  destruct (compare_run _ _ _ _ _ _ _ _ _ Hscan Hcmp) as (_ & kos & Hall & _ & ->).
  rewrite missing_record_all. simpl.
  apply classify_all_Forall2 in Hall. unfold dict_keys. clear Hscan Hcmp.
  induction Hall as [|[k fv] [k' o] fs kos [Hk Ho] _ IH]; simpl; [done|].
  cbn [fst snd] in Hk, Ho. subst k'. rewrite <- IH.
  destruct (absent_from to_stats k) eqn:Habs.
  - apply (classify_IsMissing _ td od _ fv) in Habs.
    assert (o = IsMissing) as -> by congruence. done.
  - destruct o; try done.
    apply classify_IsMissing in Ho. congruence.
Qed.

Lemma missing_instances_in_from_stats_order_witness :
  [("m1", "d2")]
  = List.filter
      (absent_from [(("m1", "d1"), ("SATISFIED", Sample.fifteen, PyFloat.nan))])
      (dict_keys
         [(("m1", "d1"), ("SATISFIED", Sample.ten, PyFloat.nan, "satisfy"));
          (("m1", "d2"),
           ("UNKNOWN", S754_finite false 8444249301319680 (-47), PyFloat.nan,
            "satisfy"))]).
Proof.
  apply (missing_instances_in_from_stats_order Concrete.float_of_str
           Sample.one_missing "confA" "confB" Sample.tenth Sample.tenth
           _ _
           (mkChanges Sample.tenth Sample.tenth []
              [("m1", "d1", Sample.ten, Sample.fifteen)] [] [("m1", "d2")])).
  - vm_compute. reflexivity.
  - vm_compute. reflexivity.
Defined.

(** ** Rows of other configurations *)

Lemma scan_row_other_conf (float_of_str : string -> option float)
    (from_conf to_conf : string) (st : FromStats * ToStats) (row : Row) :
  is_Some (row !! "configuration") ->
  compared_row from_conf to_conf row = false ->
  scan_row float_of_str from_conf to_conf st row = Ok st.
Proof.
  intros [c Hc] Hother. destruct st as [fs ts]. rewrite scan_row_entries.
  apply row_get_Ok in Hc. rewrite Hc. simpl.
  unfold compared_row in Hother. apply orb_false_iff in Hother as [Hf Ht].
  rewrite (row_conf_is_get _ from_conf _ Hc) in Hf.
  rewrite (row_conf_is_get _ to_conf _ Hc) in Ht.
  apply bool_decide_eq_false in Hf, Ht.
  by rewrite !decide_False by done.
Qed.

(** X8. Rows of configurations other than the two compared ones do not change
    the result: the comparison of a table in which every row names its
    configuration is the comparison of its rows of [from_conf] and
    [to_conf]. *)
Theorem rows_of_other_configurations_ignored
    (float_of_str : string -> option float)
    (rows : list Row) (from_conf to_conf : string) (td od : float) :
  (forall row, row ∈ rows -> is_Some (row !! "configuration")) ->
  compare_configurations float_of_str rows from_conf to_conf td od
  = compare_configurations float_of_str
      (List.filter (compared_row from_conf to_conf) rows) from_conf to_conf td od.
Proof.
  intros Hconf. unfold compare_configurations, scan. f_equal.
  generalize (@nil (Key * FromVal), @nil (Key * ToVal)).
  induction rows as [|row rows IH]; intros st; simpl; [done|].
  assert (Hrow : is_Some (row !! "configuration"))
    by (apply Hconf, list_elem_of_here).
  assert (Hrest : forall r, r ∈ rows -> is_Some (r !! "configuration"))
    by (intros r Hr; apply Hconf; by apply list_elem_of_further).
  destruct (compared_row from_conf to_conf row) eqn:Hc; simpl.
  - destruct (scan_row float_of_str from_conf to_conf st row); simpl; [|done].
    by apply IH.
  - rewrite (scan_row_other_conf _ _ _ _ _ Hrow Hc). simpl. by apply IH.
Qed.

Lemma rows_of_other_configurations_ignored_witness :
  compare_configurations Concrete.float_of_str Sample.three_configurations
    "confA" "confB" Sample.tenth Sample.tenth
  = compare_configurations Concrete.float_of_str
      (List.filter (compared_row "confA" "confB") Sample.three_configurations)
      "confA" "confB" Sample.tenth Sample.tenth.
Proof.
  apply (rows_of_other_configurations_ignored Concrete.float_of_str
           Sample.three_configurations "confA" "confB" Sample.tenth Sample.tenth).
  intros row Hin. unfold Sample.three_configurations in Hin.
  apply elem_of_cons in Hin as [->|Hin]; [vm_compute; eexists; reflexivity|].
  apply elem_of_cons in Hin as [->|Hin]; [vm_compute; eexists; reflexivity|].
  apply elem_of_cons in Hin as [->|Hin]; [vm_compute; eexists; reflexivity|].
  by apply elem_of_nil in Hin.
Defined.

Example three_configurations_compared :
  List.filter (compared_row "confA" "confB") Sample.three_configurations
  = Sample.slower
  /\ compare_configurations Concrete.float_of_str Sample.three_configurations
       "confA" "confB" Sample.tenth Sample.tenth
     = Ok (mkChanges Sample.tenth Sample.tenth []
             [("m1", "d1", Sample.ten, Sample.fifteen)] [] []).
Proof. split; vm_compute; reflexivity. Qed.

(** ** Larger thresholds *)

Lemma leb_not_nan (a b : float) :
  PyFloat.leb a b = true -> PyFloat.is_nan a = false /\ PyFloat.is_nan b = false.
Proof. by destruct a, b. Qed.

Lemma ltb_not_nan (a b : float) :
  PyFloat.ltb a b = true -> PyFloat.is_nan a = false /\ PyFloat.is_nan b = false.
Proof. by destruct a, b. Qed.

Lemma leb_ltb_trans (a b x : float) :
  PyFloat.leb a b = true -> PyFloat.ltb b x = true -> PyFloat.ltb a x = true.
Proof.
  intros Hab Hbx.
  destruct (leb_not_nan _ _ Hab) as [Ha Hb].
  destruct (ltb_not_nan _ _ Hbx) as [_ Hx].
  destruct (PyFloat.ltb a x) eqn:Hax; [done|].
  apply not_ltb_leb in Hax; [|done..].
  assert (PyFloat.leb x b = true) as Hxb.
  { apply leb_rank; [done..|]. apply (le3_trans _ (rank a)).
    - by apply (leb_rank x a).
    - by apply (leb_rank a b). }
  apply not_ltb_leb in Hxb; [|done..]. congruence.
Qed.

Lemma classify_larger_thresholds ts td od td' od' item o :
  PyFloat.leb td td' = true -> PyFloat.leb od od' = true ->
  classify ts td od item = Ok o ->
  exists o', classify ts td' od' item = Ok o'
             /\ (o' = o
                 \/ (o' = Unchanged
                     /\ goes_to InMissing o = 0 /\ goes_to InStatus o = 0)).
Proof.
  intros Htd Hod. destruct item as [k [[[fs ft] fo] fm]]. unfold classify.
  destruct (dict_get k ts) as [[[tst tt] to]|]; [|eauto].
  destruct (negb _); [eauto|].
  destruct (time_branch fs fm).
  { intros H. apply bind_Ok_inv in H as (c & -> & H). simpl.
    destruct (PyFloat.gtb (PyFloat.abs c) td') eqn:Hgt'.
    - unfold PyFloat.gtb in *. rewrite (leb_ltb_trans _ _ _ Htd Hgt') in H. eauto.
    - eexists. split; [done|].
      destruct (PyFloat.gtb (PyFloat.abs c) td); injection H as <-; auto. }
  destruct (obj_branch fs fm); [|eauto].
  intros H. apply bind_Ok_inv in H as (c & -> & H). simpl.
  destruct (PyFloat.gtb (PyFloat.abs c) od') eqn:Hgt'.
  - unfold PyFloat.gtb in *. rewrite (leb_ltb_trans _ _ _ Hod Hgt') in H. eauto.
  - eexists. split; [done|].
    destruct (PyFloat.gtb (PyFloat.abs c) od); injection H as <-; auto.
Qed.

Lemma classify_all_larger_thresholds ts td od td' od' fs kos :
  PyFloat.leb td td' = true -> PyFloat.leb od od' = true ->
  classify_all ts td od fs = Ok kos ->
  exists kos',
    classify_all ts td' od' fs = Ok kos'
    /\ Forall2 (fun ko' ko =>
                  fst ko' = fst ko
                  /\ (snd ko' = snd ko
                      \/ (snd ko' = Unchanged /\ goes_to InMissing (snd ko) = 0
                          /\ goes_to InStatus (snd ko) = 0)))
         kos' kos.
Proof.
  intros Htd Hod. unfold classify_all. revert kos.
  induction fs as [|item fs IH]; intros kos H; simpl in *.
  - injection H as <-. exists []. split; [done | constructor].
  - apply bind_Ok_inv in H as ([k o] & Hko & H).
    apply bind_Ok_inv in Hko as (o0 & Ho & [= <- <-]).
    apply bind_Ok_inv in H as (kos0 & Hkos & [= <-]).
    destruct (classify_larger_thresholds _ _ _ _ _ _ _ Htd Hod Ho) as (o' & -> & Hw).
    destruct (IH _ Hkos) as (kos' & -> & HF). simpl.
    eexists. split; [done|]. constructor; [|done]. done.
Qed.

Lemma record_all_reports_less (kos' kos : list (Key * Outcome))
    (ch' ch : PerformanceChanges) :
  Forall2 (fun ko' ko =>
             fst ko' = fst ko
             /\ (snd ko' = snd ko
                 \/ (snd ko' = Unchanged /\ goes_to InMissing (snd ko) = 0
                     /\ goes_to InStatus (snd ko) = 0)))
    kos' kos ->
  status_changes ch' = status_changes ch ->
  missing_instances ch' = missing_instances ch ->
  time_changes ch' `sublist_of` time_changes ch ->
  obj_changes ch' `sublist_of` obj_changes ch ->
  status_changes (record_all kos' ch') = status_changes (record_all kos ch)
  /\ missing_instances (record_all kos' ch') = missing_instances (record_all kos ch)
  /\ time_changes (record_all kos' ch') `sublist_of` time_changes (record_all kos ch)
  /\ obj_changes (record_all kos' ch') `sublist_of` obj_changes (record_all kos ch).
Proof.
  unfold record_all. intros HF. revert ch' ch.
  induction HF as [|[k' o'] [k o] kos' kos [Hk Ho] _ IH];
    intros ch' ch Hs Hm Ht Hob; simpl; [done|].
  simpl in Hk, Ho. subst k'. apply IH.
  - destruct Ho as [->|(-> & _ & Hst)]; destruct o; simpl in *; congruence.
  - destruct Ho as [->|(-> & Hmi & _)]; destruct o; simpl in *; congruence.
  - destruct Ho as [->|(-> & _ & _)]; destruct o; simpl; try done.
    + by apply sublist_app.
    + by apply sublist_inserts_r.
  - destruct Ho as [->|(-> & _ & _)]; destruct o; simpl; try done.
    + by apply sublist_app.
    + by apply sublist_inserts_r.
Qed.

(** X9. Raising the thresholds only removes timing and objective changes: with
    [time_delta <= time_delta'] and [obj_delta <= obj_delta'] the
    comparison still returns, with the same status changes and missing
    instances, and its timing and objective changes are sublists (same
    entries, same order) of those reported with the smaller thresholds. *)
Theorem larger_thresholds_report_less
    (float_of_str : string -> option float)
    (rows : list Row) (from_conf to_conf : string) (td od td' od' : float)
    (changes : PerformanceChanges) :
  compare_configurations float_of_str rows from_conf to_conf td od = Ok changes ->
  PyFloat.leb td td' = true -> PyFloat.leb od od' = true ->
  exists changes',
    compare_configurations float_of_str rows from_conf to_conf td' od' = Ok changes'
    /\ status_changes changes' = status_changes changes
    /\ missing_instances changes' = missing_instances changes
    /\ time_changes changes' `sublist_of` time_changes changes
    /\ obj_changes changes' `sublist_of` obj_changes changes.
Proof.
  unfold compare_configurations. intros H Htd Hod.
  apply bind_Ok_inv in H as ([fs ts] & -> & H). simpl in *.
  rewrite compare_loop_outcomes in *.
  apply bind_Ok_inv in H as (kos & Hall & [= <-]).
  destruct (classify_all_larger_thresholds _ _ _ _ _ _ _ Htd Hod Hall)
    as (kos' & Hall' & HF).
  rewrite Hall'. simpl.
  eexists. split; [done|]. by apply record_all_reports_less.
Qed.

Lemma larger_thresholds_report_less_witness :
  exists changes',
    compare_configurations Concrete.float_of_str Sample.mixed "confA" "confB"
      Sample.ten Sample.tenth = Ok changes'
    /\ status_changes changes' = status_changes Sample.mixed_changes
    /\ missing_instances changes' = missing_instances Sample.mixed_changes
    /\ time_changes changes' `sublist_of` time_changes Sample.mixed_changes
    /\ obj_changes changes' `sublist_of` obj_changes Sample.mixed_changes.
Proof.
  apply (larger_thresholds_report_less Concrete.float_of_str Sample.mixed
           "confA" "confB" Sample.tenth Sample.tenth Sample.ten Sample.tenth).
  - vm_compute. reflexivity.
  - vm_compute. reflexivity.
  - vm_compute. reflexivity.
Defined.

(** * Properties of [PerformanceChanges.__str__] *)

Lemma div_cases (x y : float) :
  (PyFloat.eqb y (PyFloat.of_Z 0) = true /\ PyFloat.div x y = Raise ZeroDivisionError)
  \/ (PyFloat.eqb y (PyFloat.of_Z 0) = false /\ exists q, PyFloat.div x y = Ok q).
Proof.
  unfold PyFloat.div. destruct (PyFloat.eqb y (PyFloat.of_Z 0)); [by left|].
  right. eauto.
Qed.

Lemma div_raise (x y : float) (e : exn) :
  PyFloat.div x y = Raise e -> e = ZeroDivisionError.
Proof. destruct (div_cases x y) as [[_ ->]|[_ [q ->]]]; congruence. Qed.

Lemma time_rel_raise it e : time_rel it = Raise e -> e = ZeroDivisionError.
Proof. destruct it as [[[m d] f] t]. apply div_raise. Qed.

Lemma obj_key_raise it e : obj_key it = Raise e -> e = ZeroDivisionError.
Proof. destruct it as [[[[m d] f] t] mx]. apply div_raise. Qed.

Lemma obj_rel_raise it e : obj_rel it = Raise e -> e = ZeroDivisionError.
Proof. destruct it as [[[[m d] f] t] mx]. apply div_raise. Qed.

Lemma map_result_raise_only {X Y : Type} (f : X -> result Y) (l : list X) (e0 : exn) :
  (forall x e, f x = Raise e -> e = e0) ->
  forall e, map_result f l = Raise e -> e = e0.
Proof.
  intros Hf e H. apply map_result_Raise_inv in H as (x & _ & Hx). by eapply Hf.
Qed.

Lemma map_result_not_Ok {X Y : Type} (f : X -> result Y) (l : list X) (x : X) e :
  x ∈ l -> f x = Raise e -> exists e', map_result f l = Raise e'.
Proof.
  intros Hin Hx. destruct (map_result f l) as [ys|e'] eqn:H; [|eauto].
  apply map_result_Forall2 in H.
  destruct (Forall2_elem_l _ _ _ _ H Hin) as (y & _ & Hy). congruence.
Qed.

Lemma py_sorted_raise {K A : Type} (lt : K -> K -> bool) (key : A -> result K)
    (reverse : bool) (l : list A) (e0 : exn) :
  (forall x e, key x = Raise e -> e = e0) ->
  forall e, py_sorted lt key reverse l = Raise e -> e = e0.
Proof.
  intros Hkey e. unfold py_sorted. intros H.
  apply bind_Raise_inv in H as [H|(ks & _ & H)]; [|done].
  apply map_result_Raise_inv in H as (x & _ & Hx).
  apply bind_Raise_inv in Hx as [Hx|(k & _ & Hx)]; [by eapply Hkey | done].
Qed.

Lemma py_sorted_elem {K A : Type} (lt : K -> K -> bool) (key : A -> result K)
    (reverse : bool) (l out : list A) (x : A) :
  py_sorted lt key reverse l = Ok out -> x ∈ out -> x ∈ l.
Proof.
  unfold py_sorted. intros H.
  apply bind_Ok_inv in H as (ks & Hks & [= <-]).
  apply decorate_inv in Hks as [<- _].
  by rewrite sort_decorated_perm.
Qed.

Section StrFacts.
Variable format_f : nat -> float -> string.

Lemma time_line_raise it e :
  time_line format_f it = Raise e -> e = ZeroDivisionError.
Proof.
  destruct it as [[[m d] f] t]. unfold time_line. intros H.
  apply bind_Raise_inv in H as [H|(r & _ & H)]; [by eapply time_rel_raise | done].
Qed.

Lemma obj_line_raise it e :
  obj_line format_f it = Raise e -> e = ZeroDivisionError.
Proof.
  destruct it as [[[[m d] f] t] mx]. unfold obj_line. intros H.
  apply bind_Raise_inv in H as [H|(r & _ & H)]; [by eapply obj_rel_raise | done].
Qed.

Lemma timing_section_raise ch e :
  timing_section format_f ch = Raise e -> e = ZeroDivisionError.
Proof.
  unfold timing_section, time_lines, time_li.
  destruct (bool_decide _); [|done]. intros H.
  apply bind_Raise_inv in H as [H|(ls & _ & H)]; [|done].
  apply bind_Raise_inv in H as [H|(li & _ & H)].
  - by eapply py_sorted_raise, H; apply time_rel_raise.
  - by eapply map_result_raise_only, H; apply time_line_raise.
Qed.

Lemma objective_section_raise ch e :
  objective_section format_f ch = Raise e -> e = ZeroDivisionError.
Proof.
  unfold objective_section, obj_lines, obj_li.
  destruct (bool_decide _); [|done]. intros H.
  apply bind_Raise_inv in H as [H|(ls & _ & H)]; [|done].
  apply bind_Raise_inv in H as [H|(li & _ & H)].
  - by eapply py_sorted_raise, H; apply obj_key_raise.
  - by eapply map_result_raise_only, H; apply obj_line_raise.
Qed.

Lemma str_raise ch e :
  performance_changes_str format_f ch = Raise e -> e = ZeroDivisionError.
Proof.
  unfold performance_changes_str, n_faster, n_better. intros H.
  apply bind_Raise_inv in H as [H|(faster & _ & H)].
  { apply bind_Raise_inv in H as [H|(? & _ & H)]; [|done].
    by eapply map_result_raise_only, H; apply time_rel_raise. }
  apply bind_Raise_inv in H as [H|(better & _ & H)].
  { apply bind_Raise_inv in H as [H|(? & _ & H)]; [|done].
    by eapply map_result_raise_only, H; apply obj_key_raise. }
  apply bind_Raise_inv in H as [H|(timing & _ & H)];
    [by eapply timing_section_raise|].
  apply bind_Raise_inv in H as [H|(objective & _ & H)];
    [by eapply objective_section_raise | done].
Qed.

Lemma timing_section_total ch :
  (forall it, it ∈ time_changes ch -> exists k, time_rel it = Ok k) ->
  exists s, timing_section format_f ch = Ok s.
Proof.
  intros Hdef. unfold timing_section, time_lines, time_li.
  destruct (bool_decide _); [|eauto].
  destruct (py_sorted_total PyFloat.ltb time_rel true _ Hdef) as [li Hli].
  rewrite Hli. simpl.
  destruct (map_result_total (time_line format_f) li) as [ls ->]; [|simpl; eauto].
  intros it Hit. apply (py_sorted_elem _ _ _ _ _ _ Hli) in Hit.
  destruct (Hdef it Hit) as [k Hk]. by eapply time_line_defined.
Qed.

Lemma objective_section_total ch :
  (forall it, it ∈ obj_changes ch -> exists k, obj_key it = Ok k) ->
  exists s, objective_section format_f ch = Ok s.
Proof.
  intros Hdef. unfold objective_section, obj_lines, obj_li.
  destruct (bool_decide _); [|eauto].
  destruct (py_sorted_total PyFloat.ltb obj_key false _ Hdef) as [li Hli].
  rewrite Hli. simpl.
  destruct (map_result_total (obj_line format_f) li) as [ls ->]; [|simpl; eauto].
  intros it Hit. apply (py_sorted_elem _ _ _ _ _ _ Hli) in Hit.
  destruct (Hdef it Hit) as [k Hk]. by eapply obj_line_defined.
Qed.

Lemma str_total ch :
  (forall it, it ∈ time_changes ch -> exists k, time_rel it = Ok k) ->
  (forall it, it ∈ obj_changes ch -> exists k, obj_key it = Ok k) ->
  exists s, performance_changes_str format_f ch = Ok s.
Proof.
  intros Ht Ho. unfold performance_changes_str, n_faster, n_better.
  destruct (map_result_total time_rel _ Ht) as [rels ->]. simpl.
  destruct (map_result_total obj_key _ Ho) as [keys ->]. simpl.
  destruct (timing_section_total ch Ht) as [timing ->]. simpl.
  destruct (objective_section_total ch Ho) as [objective ->]. simpl. eauto.
Qed.

End StrFacts.

(** X10. Rendering fails exactly when a timing or an objective change has a
    zero first value: then [__str__] raises [ZeroDivisionError] (already in
    the summary block); otherwise it returns the text. *)
Theorem str_fails_iff_zero_denominator (format_f : nat -> float -> string)
    (ch : PerformanceChanges) :
  (zero_denominator ch ->
   performance_changes_str format_f ch = Raise ZeroDivisionError)
  /\ (~ zero_denominator ch ->
      exists s, performance_changes_str format_f ch = Ok s).
Proof.
  split.
  - intros Hz.
    destruct (performance_changes_str format_f ch) as [s|e] eqn:Hstr;
      [|by rewrite (str_raise _ _ _ Hstr)].
    exfalso. unfold performance_changes_str, n_faster, n_better in Hstr.
    apply bind_Ok_inv in Hstr as (faster & Hf & Hstr).
    apply bind_Ok_inv in Hstr as (better & Hb & _).
    apply bind_Ok_inv in Hf as (rels & Hrels & _).
    apply bind_Ok_inv in Hb as (keys & Hkeys & _).
    destruct Hz as [(m & d & f & t & Hin & Hzero)|(m & d & f & t & mx & Hin & Hzero)].
    + destruct (map_result_not_Ok time_rel _ _ ZeroDivisionError Hin) as [e He];
        [|congruence].
      unfold time_rel, PyFloat.div. by rewrite Hzero.
    + destruct (map_result_not_Ok obj_key _ _ ZeroDivisionError Hin) as [e He];
        [|congruence].
      unfold obj_key, PyFloat.div. by rewrite Hzero.
  - intros Hnz. apply str_total.
    + intros [[[m d] f] t] Hin. unfold time_rel.
      destruct (div_cases (PyFloat.sub t f) f) as [[Hz _]|[_ ?]]; [|done].
      destruct Hnz. left. eauto 8.
    + intros [[[[m d] f] t] mx] Hin. unfold obj_key.
      destruct (div_cases
                  (PyFloat.mul (PyFloat.of_Z (if mx then 1 else -1))
                     (PyFloat.sub t f)) f) as [[Hz _]|[_ ?]]; [|done].
      destruct Hnz. right. eauto 8.
Qed.

Lemma str_fails_iff_zero_denominator_witness :
  performance_changes_str Concrete.format_f
    (mkChanges Sample.tenth Sample.tenth []
       [("m1", "d1", PyFloat.of_Z 0, Sample.five)] [] [])
  = Raise ZeroDivisionError
  /\ exists s, performance_changes_str Concrete.format_f Sample.mixed_changes = Ok s.
Proof.
  split.
  - apply (str_fails_iff_zero_denominator Concrete.format_f).
    left. exists "m1", "d1", (PyFloat.of_Z 0), Sample.five.
    split; [apply list_elem_of_here | vm_compute; reflexivity].
  - apply (str_fails_iff_zero_denominator Concrete.format_f).
    intros [(m & d & f & t & Hin & Hz)|(m & d & f & t & mx & Hin & Hz)].
    + unfold Sample.mixed_changes in Hin. simpl in Hin.
      apply elem_of_cons in Hin as [[= -> -> -> ->]|Hin]; [by vm_compute in Hz|].
      apply elem_of_cons in Hin as [[= -> -> -> ->]|Hin]; [by vm_compute in Hz|].
      by apply elem_of_nil in Hin.
    + unfold Sample.mixed_changes in Hin. simpl in Hin.
      apply elem_of_cons in Hin as [[= -> -> -> -> ->]|Hin]; [by vm_compute in Hz|].
      apply elem_of_cons in Hin as [[= -> -> -> -> ->]|Hin]; [by vm_compute in Hz|].
      by apply elem_of_nil in Hin.
Defined.

Lemma classify_obj_changed ts td od k fv f t mx :
  classify ts td od (k, fv) = Ok (ObjChanged f t mx) ->
  exists rel, PyFloat.div (PyFloat.sub t f) f = Ok rel
              /\ PyFloat.gtb (PyFloat.abs rel) od = true.
Proof.
  destruct fv as [[[fs ft] fo] fm]. unfold classify.
  destruct (dict_get k ts) as [[[tst tt] to]|]; [|done].
  destruct (negb _); [done|].
  destruct (time_branch fs fm).
  - intros H. apply bind_Ok_inv in H as (rel & Hrel & H).
    by destruct (PyFloat.gtb (PyFloat.abs rel) td).
  - destruct (obj_branch fs fm); [|done].
    intros H. apply bind_Ok_inv in H as (rel & Hrel & H).
    destruct (PyFloat.gtb (PyFloat.abs rel) od) eqn:Hgt; [|done].
    injection H as <- <- _. eauto.
Qed.

Lemma compare_no_zero_denominator (float_of_str : string -> option float)
    (rows : list Row) (from_conf to_conf : string) (td od : float)
    (changes : PerformanceChanges) :
  compare_configurations float_of_str rows from_conf to_conf td od = Ok changes ->
  ~ zero_denominator changes.
Proof.
  intros Hcmp Hz.
  pose proof Hcmp as H. unfold compare_configurations in H.
  apply bind_Ok_inv in H as ([fs ts] & _ & H). simpl in H.
  rewrite compare_loop_outcomes in H.
  apply bind_Ok_inv in H as (kos & Hall & [= <-]).
  apply classify_all_Forall2 in Hall.
  destruct Hz as [(m & d & f & t & Hin & Hzero)|(m & d & f & t & mx & Hin & Hzero)].
  - apply elem_time_changes_record_all in Hin.
    destruct Hin as [Hin|(k & f' & t' & Hin & [= -> -> -> ->])];
      [by apply elem_of_nil in Hin|].
    destruct (Forall2_elem_r _ _ _ _ Hall Hin) as ([k' fv] & _ & Hk & Hcl).
    simpl in Hk. cbn [snd] in Hcl. subst k'.
    destruct (classify_time_changed _ _ _ _ _ _ _ Hcl) as (rel & Hrel & _).
    unfold PyFloat.div in Hrel. by rewrite Hzero in Hrel.
  - apply elem_obj_changes_record_all in Hin.
    destruct Hin as [Hin|(k & f' & t' & mx' & Hin & [= -> -> -> -> ->])];
      [by apply elem_of_nil in Hin|].
    destruct (Forall2_elem_r _ _ _ _ Hall Hin) as ([k' fv] & _ & Hk & Hcl).
    simpl in Hk. cbn [snd] in Hcl. subst k'.
    destruct (classify_obj_changed _ _ _ _ _ _ _ _ Hcl) as (rel & Hrel & _).
    unfold PyFloat.div in Hrel. by rewrite Hzero in Hrel.
Qed.

(** X11. Rendering the result of a comparison never fails: every change that
    [compare_configurations] records went through its division, so the
    divisions of [__str__] have the same non-zero denominators. *)
Theorem str_of_comparison_never_fails
    (float_of_str : string -> option float) (format_f : nat -> float -> string)
    (rows : list Row) (from_conf to_conf : string) (td od : float)
    (changes : PerformanceChanges) :
  compare_configurations float_of_str rows from_conf to_conf td od = Ok changes ->
  exists s, performance_changes_str format_f changes = Ok s.
Proof.
  intros Hcmp. apply str_total.
  - intros [[[m d] f] t] Hin. unfold time_rel.
    destruct (div_cases (PyFloat.sub t f) f) as [[Hz _]|[_ ?]]; [|done].
    destruct (compare_no_zero_denominator _ _ _ _ _ _ _ Hcmp). left. eauto 8.
  - intros [[[[m d] f] t] mx] Hin. unfold obj_key.
    destruct (div_cases
                (PyFloat.mul (PyFloat.of_Z (if mx then 1 else -1))
                   (PyFloat.sub t f)) f) as [[Hz _]|[_ ?]]; [|done].
    destruct (compare_no_zero_denominator _ _ _ _ _ _ _ Hcmp). right. eauto 8.
Qed.

Lemma str_of_comparison_never_fails_witness :
  exists s, performance_changes_str Concrete.format_f Sample.mixed_changes = Ok s.
Proof.
  apply (str_of_comparison_never_fails Concrete.float_of_str Concrete.format_f
           Sample.mixed "confA" "confB" Sample.tenth Sample.tenth).
  vm_compute. reflexivity.
Defined.

(** ** The counts of the summary block *)

Lemma conflicting_not_positive (pair : string * string) :
  pair ∈ conflicting_status_changes -> pair ∉ pos_status_changes.
Proof.
  unfold conflicting_status_changes, pos_status_changes. intros Hin.
  repeat (apply elem_of_cons in Hin as [->|Hin];
          [intros Hp;
           repeat (apply elem_of_cons in Hp as [Hp|Hp]; [discriminate Hp|]);
           by apply elem_of_nil in Hp|]).
  by apply elem_of_nil in Hin.
Qed.

Lemma sections_counts (d : list ((string * string) * list Key)) (acc : StatusSections) :
  n_bad_status_changes (foldl sections_step acc d)
  = n_bad_status_changes acc + count_in conflicting_status_changes d
  /\ n_pos_status_changes (foldl sections_step acc d)
     = n_pos_status_changes acc + count_in pos_status_changes d
  /\ count_in conflicting_status_changes d + count_in pos_status_changes d
     <= sum_list (map (fun e => length (snd e)) d).
Proof.
  unfold count_in. revert acc.
  induction d as [|[change li] d IH]; intros acc; simpl; [lia|].
  destruct (bool_decide (change ∈ conflicting_status_changes)) eqn:Hbad.
  - assert (bool_decide (change ∈ pos_status_changes) = false) as ->.
    { apply bool_decide_eq_true in Hbad. apply bool_decide_eq_false.
      by apply conflicting_not_positive. }
    destruct (IH (mkSections (n_pos_status_changes acc)
                    (n_bad_status_changes acc + length li)
                    (stat_bad_str acc +:+ change_block change li)
                    (stat_pos_str acc) (stat_neg_str acc))) as (-> & -> & Hle).
    simpl. lia.
  - destruct (bool_decide (change ∈ pos_status_changes)) eqn:Hpos.
    + destruct (IH (mkSections (n_pos_status_changes acc + length li)
                      (n_bad_status_changes acc) (stat_bad_str acc)
                      (stat_pos_str acc +:+ change_block change li)
                      (stat_neg_str acc))) as (-> & -> & Hle).
      simpl. lia.
    + destruct (IH (mkSections (n_pos_status_changes acc)
                      (n_bad_status_changes acc) (stat_bad_str acc)
                      (stat_pos_str acc)
                      (stat_neg_str acc +:+ change_block change li)))
        as (-> & -> & Hle).
      simpl. lia.
Qed.

(** X12. The summary counts every instance of a conflicting pair as a conflict
    and every instance of a pair of the positive table as positive (no pair
    is in both tables, so the order of the two tests hides none), and the
    two counts together never exceed the number of status changes. *)
Theorem summary_counts_by_table (ch : PerformanceChanges) :
  n_bad_status_changes (status_sections ch)
  = count_in conflicting_status_changes (status_changes ch)
  /\ n_pos_status_changes (status_sections ch)
     = count_in pos_status_changes (status_changes ch)
  /\ n_bad_status_changes (status_sections ch)
     + n_pos_status_changes (status_sections ch)
     <= n_status_changes ch.
Proof.
  unfold status_sections, n_status_changes.
  destruct (sections_counts (status_changes ch) (mkSections 0 0 "" "" ""))
    as (Hbad & Hpos & Hle).
  rewrite Hbad, Hpos. simpl. split_and!; [done | done | exact Hle].
Qed.

(** * Further properties of [report_status] *)

Lemma sum_dict_set {K V : Type} `{EqDecision K} (g : V -> nat) (k : K) (v : V)
    (d : list (K * V)) :
  sum_list (map (fun kv => g (snd kv)) (dict_set k v d))
  + match dict_get k d with Some v0 => g v0 | None => 0 end
  = sum_list (map (fun kv => g (snd kv)) d) + g v.
Proof.
  induction d as [|[k' v'] d IH]; simpl; [lia|].
  destruct (decide (k = k')); simpl; lia.
Qed.

Section ReportTable.
Variable float_of_str : string -> option float.
Variable path_name : string -> string.
Variables per_problem per_model per_instance : bool.
Variable avg : option string.

Lemma report_row_inv seen table seen' table' row :
  report_row float_of_str path_name per_problem per_model per_instance avg
    (seen, table) row = Ok (seen', table') ->
  exists key status time,
    group_key path_name per_problem per_model per_instance row = Ok key
    /\ row_get row "status" = Ok status
    /\ avg_time float_of_str avg row = Ok time
    /\ seen' = {[ status ]} ∪ seen
    /\ table'
       = dict_set key
           match dict_get key table with
           | Some r => dict_set status (default [] (dict_get status r) ++ [time]) r
           | None => [(status, [time])]
           end
           table.
Proof.
  unfold report_row. intros H.
  apply bind_Ok_inv in H as (key & Hkey & H).
  apply bind_Ok_inv in H as (status & Hst & H).
  apply bind_Ok_inv in H as (time & Htime & H).
  exists key, status, time. split_and!; try done.
  - destruct (dict_get key table) as [r|]; [|by injection H as <- _].
    destruct (dict_get status r); by injection H as <- _.
  - destruct (dict_get key table) as [r|]; [|by injection H as _ <-].
    destruct (dict_get status r); by injection H as _ <-.
Qed.

Lemma table_times_step key s k status time (table : Table) :
  table_times key s
    (dict_set k
       match dict_get k table with
       | Some r => dict_set status (default [] (dict_get status r) ++ [time]) r
       | None => [(status, [time])]
       end
       table)
  = table_times key s table
    ++ (if bool_decide (k = key) && bool_decide (status = s) then [time] else []).
Proof.
  unfold table_times. rewrite dict_get_set.
  destruct (decide (key = k)) as [->|Hne].
  - rewrite bool_decide_true by done. simpl.
    destruct (dict_get k table) as [r|]; simpl.
    + rewrite dict_get_set. destruct (decide (s = status)) as [->|Hs].
      * by rewrite bool_decide_true.
      * rewrite bool_decide_false by congruence. by rewrite app_nil_r.
    + destruct (decide (s = status)) as [->|Hs].
      * by rewrite bool_decide_true.
      * by rewrite bool_decide_false by congruence.
  - rewrite (bool_decide_false (k = key)) by congruence. simpl.
    by rewrite app_nil_r.
Qed.

Lemma for_each_report_times rows seen0 table0 seen table key s :
  for_each (report_row float_of_str path_name per_problem per_model per_instance avg)
    (seen0, table0) rows = Ok (seen, table) ->
  table_times key s table
  = table_times key s table0
    ++ group_times float_of_str path_name per_problem per_model per_instance avg
         key s rows.
Proof.
  revert seen0 table0. induction rows as [|row rows IH]; intros seen0 table0 H.
  - injection H as _ <-. simpl. by rewrite app_nil_r.
  - simpl in H. apply bind_Ok_inv in H as ([seen1 table1] & Hrow & Hrest).
    apply report_row_inv in Hrow
      as (k & status & time & Hk & Hst & Htime & _ & ->).
    rewrite (IH _ _ Hrest), table_times_step. simpl.
    rewrite Hk, Hst, Htime. by rewrite <- app_assoc.
Qed.

Lemma total_runs_step k status time (table : Table) :
  total_runs
    (dict_set k
       match dict_get k table with
       | Some r => dict_set status (default [] (dict_get status r) ++ [time]) r
       | None => [(status, [time])]
       end
       table)
  = S (total_runs table).
Proof.
  unfold total_runs.
  pose proof (sum_dict_set
                (fun r : StatusTimes => sum_list (map (fun sl => length (snd sl)) r))
                k
                match dict_get k table with
                | Some r =>
                    dict_set status (default [] (dict_get status r) ++ [time]) r
                | None => [(status, [time])]
                end table) as H.
  destruct (dict_get k table) as [r|]; simpl in H.
  - pose proof (sum_dict_set (fun l : list float => length l) status
                  (default [] (dict_get status r) ++ [time]) r) as Hr.
    rewrite length_app in Hr. unfold StatusTimes in *.
    destruct (dict_get status r); cbn [from_option id length] in *; lia.
  - unfold StatusTimes in *. lia.
Qed.

Lemma for_each_report_total rows seen0 table0 seen table :
  for_each (report_row float_of_str path_name per_problem per_model per_instance avg)
    (seen0, table0) rows = Ok (seen, table) ->
  total_runs table = total_runs table0 + length rows.
Proof.
  revert seen0 table0. induction rows as [|row rows IH]; intros seen0 table0 H.
  - injection H as _ <-. simpl. lia.
  - simpl in H. apply bind_Ok_inv in H as ([seen1 table1] & Hrow & Hrest).
    apply report_row_inv in Hrow as (k & status & time & _ & _ & _ & _ & ->).
    rewrite (IH _ _ Hrest), total_runs_step. simpl. lia.
Qed.

End ReportTable.

Lemma table_holds_values_of_its_rows_aux
    (float_of_str : string -> option float) (path_name : string -> string)
    (per_problem per_model per_instance : bool) (avg : option string)
    (rows : list Row) (seen_status : gset string) (table : Table)
    (key : list string) (s : string) :
  report_scan float_of_str path_name per_problem per_model per_instance avg rows
  = Ok (seen_status, table) ->
  table_times key s table
  = group_times float_of_str path_name per_problem per_model per_instance avg
      key s rows.
Proof.
  intros H. unfold report_scan in H.
  by rewrite (for_each_report_times _ _ _ _ _ _ _ _ _ _ _ key s H).
Qed.

(** X13. For every group key and status, the table built by the scan holds the
    values of the average field of exactly the rows with that group key and
    that status, in file order; so the count in a cell is the number of
    those rows, and its mean is taken over their values. *)
Theorem table_holds_values_of_its_rows
    (float_of_str : string -> option float) (path_name : string -> string)
    (per_problem per_model per_instance : bool) (avg : option string)
    (rows : list Row) (seen_status : gset string) (table : Table)
    (key : list string) (s : string) :
  report_scan float_of_str path_name per_problem per_model per_instance avg rows
  = Ok (seen_status, table) ->
  table_times key s table
  = group_times float_of_str path_name per_problem per_model per_instance avg
      key s rows.
Proof.
  intros H. unfold report_scan in H.
  by rewrite (for_each_report_times _ _ _ _ _ _ _ _ _ _ _ key s H).
Qed.

Lemma table_holds_values_of_its_rows_witness :
  table_times ["c1"] "SATISFIED" Sample.statuses_table
  = group_times Concrete.float_of_str Concrete.path_name false false false
      (Some "time") ["c1"] "SATISFIED" Sample.statuses.
Proof.
  apply (table_holds_values_of_its_rows Concrete.float_of_str Concrete.path_name
           false false false (Some "time") Sample.statuses Sample.statuses_seen).
  vm_compute. reflexivity.
Defined.

(** X14. Every row is counted exactly once: the table holds as many values as
    the file has rows. *)
Theorem table_counts_every_row_once
    (float_of_str : string -> option float) (path_name : string -> string)
    (per_problem per_model per_instance : bool) (avg : option string)
    (rows : list Row) (seen_status : gset string) (table : Table) :
  report_scan float_of_str path_name per_problem per_model per_instance avg rows
  = Ok (seen_status, table) ->
  total_runs table = length rows.
Proof.
  intros H. unfold report_scan in H.
  by rewrite (for_each_report_total _ _ _ _ _ _ _ _ _ _ _ H).
Qed.

Lemma table_counts_every_row_once_witness :
  total_runs Sample.statuses_table = length Sample.statuses.
Proof.
  apply (table_counts_every_row_once Concrete.float_of_str Concrete.path_name
           false false false (Some "time") Sample.statuses Sample.statuses_seen).
  vm_compute. reflexivity.
Defined.

Lemma map_result_app {X Y : Type} (f : X -> result Y) (l1 l2 : list X) :
  map_result f (l1 ++ l2)
  = (map_result f l1 ≫= fun ys1 =>
     map_result f l2 ≫= fun ys2 => Ok (ys1 ++ ys2)).
Proof.
  induction l1 as [|x l1 IH]; simpl.
  - by destruct (map_result f l2).
  - destruct (f x) as [y|e]; simpl; [|done]. rewrite IH.
    destruct (map_result f l1) as [ys1|e]; simpl; [|done].
    by destruct (map_result f l2).
Qed.

Lemma map_result_pure {X Y : Type} (f : X -> result Y) (g : X -> Y) (l : list X) :
  (forall x, x ∈ l -> f x = Ok (g x)) -> map_result f l = Ok (map g l).
Proof.
  induction l as [|x l IH]; intros H; simpl; [done|].
  rewrite (H x) by apply list_elem_of_here. simpl.
  rewrite IH; [done|]. intros y Hy. apply H. by apply list_elem_of_further.
Qed.

Lemma map_result_length {X Y : Type} (f : X -> result Y) (l : list X) (ys : list Y) :
  map_result f l = Ok ys -> length ys = length l.
Proof. intros H%map_result_Forall2. symmetry. by eapply Forall2_length. Qed.

Lemma first_occurrences_snoc (keys : list (list string)) (k : list string) :
  first_occurrences (keys ++ [k])
  = if decide (k ∈ keys) then first_occurrences keys
    else first_occurrences keys ++ [k].
Proof.
  unfold first_occurrences. rewrite rev_app_distr. simpl.
  destruct (decide_rel elem_of k (rev keys)) as [Hin|Hnin].
  - rewrite decide_True; [done|].
    apply list_elem_of_In. apply in_rev. by apply list_elem_of_In.
  - rewrite decide_False; [done|]. intros Hin. apply Hnin.
    apply list_elem_of_In. rewrite <- in_rev. by apply list_elem_of_In.
Qed.

Lemma elem_of_first_occurrences (keys : list (list string)) (k : list string) :
  k ∈ first_occurrences keys <-> k ∈ keys.
Proof.
  unfold first_occurrences. rewrite list_elem_of_In, <- in_rev, <- list_elem_of_In.
  rewrite elem_of_remove_dups. by rewrite list_elem_of_In, <- in_rev, <- list_elem_of_In.
Qed.

Lemma NoDup_first_occurrences (keys : list (list string)) :
  NoDup (first_occurrences keys).
Proof.
  unfold first_occurrences. apply NoDup_ListNoDup, List.NoDup_rev, NoDup_ListNoDup.
  apply NoDup_remove_dups.
Qed.

Section ReportKeys.
Variable float_of_str : string -> option float.
Variable path_name : string -> string.
Variables per_problem per_model per_instance : bool.
Variable avg : option string.

Lemma report_scan_keys rows seen table :
  report_scan float_of_str path_name per_problem per_model per_instance avg rows
  = Ok (seen, table) ->
  exists keys,
    map_result (group_key path_name per_problem per_model per_instance) rows
    = Ok keys
    /\ dict_keys table = first_occurrences keys.
Proof.
  unfold report_scan. revert seen table.
  induction rows as [|row rows IH] using rev_ind; intros seen table H.
  - injection H as _ <-. by exists [].
  - rewrite for_each_app in H.
    apply bind_Ok_inv in H as ([seen1 table1] & Hrows & Hrow).
    destruct (IH _ _ Hrows) as (keys & Hkeys & Htable1).
    simpl in Hrow. apply bind_Ok_inv in Hrow as ([seen2 table2] & Hrow & [= <- <-]).
    apply report_row_inv in Hrow as (k & status & time & Hk & _ & _ & _ & ->).
    exists (keys ++ [k]). split.
    + rewrite map_result_app, Hkeys. simpl. by rewrite Hk.
    + rewrite dict_keys_set, first_occurrences_snoc, <- Htable1.
      destruct (dict_get k table1) eqn:Hget.
      * rewrite decide_True; [done|].
        apply elem_of_first_occurrences. rewrite <- Htable1.
        destruct (decide (k ∈ dict_keys table1)) as [?|Hn]; [done|].
        apply dict_get_None in Hn. congruence.
      * rewrite decide_False; [done|]. intros Hin.
        apply elem_of_first_occurrences in Hin. rewrite <- Htable1 in Hin.
        by apply dict_get_None in Hget.
Qed.

End ReportKeys.

(** X15. The report has one row per distinct group key, in the order of the
    first row of each group; every row consists of its group key followed
    by one cell per status column. *)
Theorem report_has_one_row_per_group
    (float_of_str : string -> option float) (path_name : string -> string)
    (py_sum : list float -> float) (format_f : nat -> float -> string)
    (per_problem per_model per_instance : bool) (rows : list Row)
    (avg : option string) (tablefmt : string) (out : Tabulate) :
  report_status float_of_str path_name py_sum format_f
    per_problem per_model per_instance rows avg tablefmt = Ok out ->
  exists keys columns,
    map_result (group_key path_name per_problem per_model per_instance) rows
    = Ok keys
    /\ tab_headers out
       = header_keys per_problem per_model per_instance ++ columns
    /\ Forall2 (fun key r => exists cells,
                  r = key ++ cells /\ length cells = length columns)
         (first_occurrences keys) (tab_rows out).
Proof.
  unfold report_status. intros H.
  apply bind_Ok_inv in H as ([seen table] & Hscan & H).
  apply bind_Ok_inv in H as (body & Hbody & [= <-]). simpl in *.
  destruct (report_scan_keys _ _ _ _ _ _ _ _ _ Hscan) as (keys & Hkeys & Htable).
  exists keys, (status_columns seen). split_and!; [done | done |].
  rewrite <- Htable. unfold dict_keys. apply Forall2_fmap_l.
  apply map_result_Forall2 in Hbody.
  eapply Forall2_impl; [exact Hbody|].
  intros [key r] row Hrow. simpl in *.
  apply bind_Ok_inv in Hrow as (cells & Hcells & [= <-]).
  exists cells. split; [done|]. by eapply map_result_length.
Qed.

Lemma report_has_one_row_per_group_witness :
  exists keys columns,
    map_result (group_key Concrete.path_name false false false) Sample.statuses
    = Ok keys
    /\ ["configuration"; "UNKNOWN"; "SATISFIED"; "ERROR"]
       = header_keys false false false ++ columns
    /\ Forall2 (fun key r => exists cells,
                  r = key ++ cells /\ length cells = length columns)
         (first_occurrences keys)
         [["c1"; "1 (60.00s)"; "2 (10.00s)"; "1 (1.00s)"]].
Proof.
  apply (report_has_one_row_per_group Concrete.float_of_str Concrete.path_name
           Concrete.py_sum Concrete.format_f false false false Sample.statuses
           (Some "time") "grid"
           (mkTabulate [["c1"; "1 (60.00s)"; "2 (10.00s)"; "1 (1.00s)"]]
              ["configuration"; "UNKNOWN"; "SATISFIED"; "ERROR"] "grid")).
  vm_compute. reflexivity.
Defined.

Lemma report_scan_table_NoDup (float_of_str : string -> option float)
    (path_name : string -> string) (per_problem per_model per_instance : bool)
    (avg : option string) (rows : list Row) (seen : gset string) (table : Table) :
  report_scan float_of_str path_name per_problem per_model per_instance avg rows
  = Ok (seen, table) ->
  NoDup (dict_keys table).
Proof.
  intros H. destruct (report_scan_keys _ _ _ _ _ _ _ _ _ H) as (keys & _ & ->).
  apply NoDup_first_occurrences.
Qed.

Lemma cell_without_average (py_sum : list float -> float)
    (format_f : nat -> float -> string) (r : StatusTimes) (s : string) :
  cell py_sum format_f None r s = Ok (str_nat (length (default [] (dict_get s r)))).
Proof. unfold cell. by destruct (dict_get s r). Qed.

Lemma report_without_average_table
    (float_of_str : string -> option float) (path_name : string -> string)
    (py_sum : list float -> float) (format_f : nat -> float -> string)
    (per_problem per_model per_instance : bool) (rows : list Row)
    (tablefmt : string) (seen_status : gset string) (table : Table) :
  report_scan float_of_str path_name per_problem per_model per_instance None rows
  = Ok (seen_status, table) ->
  report_status float_of_str path_name py_sum format_f
    per_problem per_model per_instance rows None tablefmt
  = Ok (mkTabulate
          (map (fun key =>
                  key ++ map (fun s =>
                                str_nat
                                  (length
                                     (group_times float_of_str path_name
                                        per_problem per_model per_instance None
                                        key s rows)))
                           (status_columns seen_status))
             (dict_keys table))
          (header_keys per_problem per_model per_instance
             ++ status_columns seen_status)
          tablefmt).
Proof.
  intros Hscan. unfold report_status. rewrite Hscan. simpl.
  pose proof (report_scan_table_NoDup _ _ _ _ _ _ _ _ _ Hscan) as Hnd.
  rewrite (map_result_pure _
             (fun kr : list string * StatusTimes =>
                fst kr ++ map (fun s =>
                                 str_nat
                                   (length
                                      (group_times float_of_str path_name
                                         per_problem per_model per_instance None
                                         (fst kr) s rows)))
                            (status_columns seen_status))).
  { simpl. unfold dict_keys. by rewrite map_map. }
  intros [key r] Hin. simpl.
  rewrite (map_result_pure _
             (fun s => str_nat
                         (length
                            (group_times float_of_str path_name per_problem
                               per_model per_instance None key s rows)))).
  { done. }
  intros s _. rewrite cell_without_average. do 2 f_equal.
  rewrite <- (table_holds_values_of_its_rows_aux _ _ _ _ _ _ _ _ _ key s Hscan).
  unfold table_times. by rewrite (dict_elem_get _ _ _ Hnd Hin).
Qed.

(** X16. Without an average field the report is a table of counts: when
    [report_status] returns, the row of a group is its key followed, for
    each status column, by the decimal number of the rows with that group
    key and that status ("0" when there is none). *)
Theorem report_without_average_counts_rows
    (float_of_str : string -> option float) (path_name : string -> string)
    (py_sum : list float -> float) (format_f : nat -> float -> string)
    (per_problem per_model per_instance : bool) (rows : list Row)
    (tablefmt : string) (out : Tabulate) :
  report_status float_of_str path_name py_sum format_f
    per_problem per_model per_instance rows None tablefmt = Ok out ->
  exists keys columns,
    map_result (group_key path_name per_problem per_model per_instance) rows
    = Ok keys
    /\ tab_headers out
       = header_keys per_problem per_model per_instance ++ columns
    /\ tab_rows out
       = map (fun key =>
                key ++ map (fun s =>
                              str_nat
                                (length
                                   (group_times float_of_str path_name
                                      per_problem per_model per_instance None
                                      key s rows)))
                         columns)
           (first_occurrences keys).
Proof.
  intros H.
  destruct (report_scan float_of_str path_name per_problem per_model
              per_instance None rows) as [[seen table]|e] eqn:Hscan.
  - rewrite (report_without_average_table _ _ py_sum format_f _ _ _ _ tablefmt
               _ _ Hscan) in H.
    injection H as <-.
    destruct (report_scan_keys _ _ _ _ _ _ _ _ _ Hscan) as (keys & Hkeys & Htable).
    exists keys, (status_columns seen). split_and!; [done | done |].
    cbn [tab_rows]. by rewrite Htable.
  - unfold report_status in H. rewrite Hscan in H. discriminate H.
Qed.

Lemma report_without_average_counts_rows_witness :
  exists keys columns,
    map_result (group_key Concrete.path_name false false false) Sample.statuses
    = Ok keys
    /\ ["configuration"; "UNKNOWN"; "SATISFIED"; "ERROR"]
       = header_keys false false false ++ columns
    /\ [["c1"; "1"; "2"; "1"]]
       = map (fun key =>
                key ++ map (fun s =>
                              str_nat
                                (length
                                   (group_times Concrete.float_of_str
                                      Concrete.path_name false false false None
                                      key s Sample.statuses)))
                         columns)
           (first_occurrences keys).
Proof.
  apply (report_without_average_counts_rows Concrete.float_of_str
           Concrete.path_name Concrete.py_sum Concrete.format_f false false false
           Sample.statuses "grid"
           (mkTabulate [["c1"; "1"; "2"; "1"]]
              ["configuration"; "UNKNOWN"; "SATISFIED"; "ERROR"] "grid")).
  vm_compute. reflexivity.
Defined.

Example statuses_counted_scan :
  report_scan Concrete.float_of_str Concrete.path_name false false false None
    Sample.statuses
  = Ok (Sample.statuses_seen, Sample.statuses_counted).
Proof. vm_compute. reflexivity. Qed.

Example statuses_counted_report :
  report_status Concrete.float_of_str Concrete.path_name Concrete.py_sum
    Concrete.format_f false false false Sample.statuses None "grid"
  = Ok (mkTabulate [["c1"; "1"; "2"; "1"]]
          ["configuration"; "UNKNOWN"; "SATISFIED"; "ERROR"] "grid").
Proof. vm_compute. reflexivity. Qed.

(** X17. The counterpart of C4 without [per_model]: every row of the report is
    as long as the header, so each cell stands under the name of its
    column. *)
Theorem report_rows_fit_header_without_per_model
    (float_of_str : string -> option float) (path_name : string -> string)
    (py_sum : list float -> float) (format_f : nat -> float -> string)
    (per_problem per_instance : bool) (rows : list Row)
    (avg : option string) (tablefmt : string) (out : Tabulate) :
  report_status float_of_str path_name py_sum format_f
    per_problem false per_instance rows avg tablefmt = Ok out ->
  Forall (fun r => length r = length (tab_headers out)) (tab_rows out).
Proof.
  unfold report_status. intros H.
  apply bind_Ok_inv in H as ([seen table] & Hscan & H).
  apply bind_Ok_inv in H as (body & Hbody & [= <-]).
  cbn [tab_rows tab_headers fst snd] in *.
  destruct (report_scan_keys _ _ _ _ _ _ _ _ _ Hscan) as (keys & Hkeys & Htable).
  apply map_result_Forall2 in Hbody, Hkeys.
  apply Forall_forall. intros r Hr.
  destruct (Forall2_elem_r _ _ _ _ Hbody Hr) as ([key st] & Hin & Hrow).
  simpl in Hrow. apply bind_Ok_inv in Hrow as (cells & Hcells & [= <-]).
  apply map_result_length in Hcells.
  assert (key ∈ keys) as Hkey.
  { apply elem_of_first_occurrences. rewrite <- Htable. unfold dict_keys.
    apply list_elem_of_fmap. by exists (key, st). }
  destruct (Forall2_elem_r _ _ _ _ Hkeys Hkey) as (row & _ & Hgk).
  rewrite length_app, Hcells, (group_key_length _ _ _ _ _ _ Hgk).
  destruct per_problem, per_instance; cbn [length app]; lia.
Qed.

Lemma report_rows_fit_header_without_per_model_witness :
  Forall (fun r => length r
                   = length ["configuration"; "UNKNOWN"; "SATISFIED"; "ERROR"])
    [["c1"; "1 (60.00s)"; "2 (10.00s)"; "1 (1.00s)"]].
Proof.
  apply (report_rows_fit_header_without_per_model Concrete.float_of_str
           Concrete.path_name Concrete.py_sum Concrete.format_f false false
           Sample.statuses (Some "time") "grid"
           (mkTabulate [["c1"; "1 (60.00s)"; "2 (10.00s)"; "1 (1.00s)"]]
              ["configuration"; "UNKNOWN"; "SATISFIED"; "ERROR"] "grid")).
  vm_compute. reflexivity.
Defined.

(** ** Status names and their cells under [per_model] *)

(** C7, on the code: [report_status] sorts the status names as the claim
    says, but with [per_model] set they do not head their columns. The
    header handed to [tabulate] names "model" twice (C4), so every row has
    one cell fewer than the header has names: the cell counted for a status
    stands one place before the name of that status, and no row has a cell
    at the place of the last status name. *)
Theorem C7_status_names_one_column_off
    (float_of_str : string -> option float) (path_name : string -> string)
    (py_sum : list float -> float) (format_f : nat -> float -> string)
    (per_problem per_instance : bool) (rows : list Row)
    (avg : option string) (tablefmt : string) (out : Tabulate) :
  report_status float_of_str path_name py_sum format_f
    per_problem true per_instance rows avg tablefmt = Ok out ->
  exists columns,
    tab_headers out = header_keys per_problem true per_instance ++ columns
    /\ (forall s, s ∈ columns
                  <-> exists row, row ∈ rows /\ row !! "status" = Some s)
    /\ StronglySorted (fun a b => String.ltb b a = true) columns
    /\ Forall (fun r =>
                 exists row key times cells,
                   row ∈ rows
                   /\ group_key path_name per_problem true per_instance row
                      = Ok key
                   /\ r = key ++ cells
                   /\ forall i s,
                        columns !! i = Some s ->
                        tab_headers out !! (length key + S i) = Some s
                        /\ exists c, r !! (length key + i) = Some c
                                     /\ cell py_sum format_f avg times s = Ok c)
         (tab_rows out)
    /\ Forall (fun r => S (length r) = length (tab_headers out)) (tab_rows out).
Proof.
  unfold report_status. intros H.
  assert (Hhk : forall row key,
            group_key path_name per_problem true per_instance row = Ok key ->
            length (header_keys per_problem true per_instance) = S (length key)).
  { intros row key Hgk. rewrite (group_key_length _ _ _ _ _ _ Hgk).
    by destruct per_problem, per_instance. }
  remember (header_keys per_problem true per_instance) as names eqn:Hnames in *.
  clear Hnames.
  apply bind_Ok_inv in H as ([seen table] & Hscan & H).
  apply bind_Ok_inv in H as (body & Hbody & [= <-]).
  cbn [tab_rows tab_headers fst snd] in *.
  destruct (status_columns_of_scan _ _ _ _ _ _ _ _ _ Hscan) as [Hmem Hsorted].
  destruct (report_scan_keys _ _ _ _ _ _ _ _ _ Hscan) as (keys & Hkeys & Htable).
  apply map_result_Forall2 in Hbody, Hkeys.
  assert (Hrows : forall r, r ∈ body ->
            exists row key times cells,
              row ∈ rows
              /\ group_key path_name per_problem true per_instance row = Ok key
              /\ r = key ++ cells
              /\ Forall2 (fun s c => cell py_sum format_f avg times s = Ok c)
                   (status_columns seen) cells).
  { intros r Hr.
    destruct (Forall2_elem_r _ _ _ _ Hbody Hr) as ([key times] & Hin & Hrow).
    simpl in Hrow. apply bind_Ok_inv in Hrow as (cells & Hcells & [= <-]).
    apply map_result_Forall2 in Hcells.
    assert (key ∈ keys) as Hkey.
    { apply elem_of_first_occurrences. rewrite <- Htable. unfold dict_keys.
      apply list_elem_of_fmap. by exists (key, times). }
    destruct (Forall2_elem_r _ _ _ _ Hkeys Hkey) as (row & Hrow & Hgk).
    by exists row, key, times, cells. }
  exists (status_columns seen). split_and!; [done | done | done | |].
  - apply Forall_forall. intros r Hr.
    destruct (Hrows r Hr) as (row & key & times & cells & Hrow & Hgk & -> & Hcells).
    pose proof (Hhk _ _ Hgk) as Hlen.
    exists row, key, times, cells. split_and!; [done | done | done |].
    intros i s Hi. split.
    + rewrite lookup_app_r by lia.
      by replace (length key + S i - length names) with i by lia.
    + destruct (Forall2_lookup_l _ _ _ _ _ Hcells Hi) as (c & Hc & Hcell).
      exists c. split; [|done].
      rewrite lookup_app_r by lia. by replace (length key + i - length key) with i by lia.
  - apply Forall_forall. intros r Hr.
    destruct (Hrows r Hr) as (row & key & times & cells & Hrow & Hgk & -> & Hcells).
    pose proof (Hhk _ _ Hgk) as Hlen.
    apply Forall2_length in Hcells.
    rewrite !length_app. lia.
Qed.

Lemma C7_status_names_one_column_off_witness :
  exists columns,
    ["configuration"; "model"; "model"; "UNKNOWN"; "SATISFIED"; "ERROR"]
    = header_keys false true false ++ columns
    /\ (forall s, s ∈ columns
                  <-> exists row, row ∈ Sample.statuses /\ row !! "status" = Some s)
    /\ StronglySorted (fun a b => String.ltb b a = true) columns
    /\ Forall (fun r =>
                 exists row key times cells,
                   row ∈ Sample.statuses
                   /\ group_key Concrete.path_name false true false row = Ok key
                   /\ r = key ++ cells
                   /\ forall i s,
                        columns !! i = Some s ->
                        ["configuration"; "model"; "model";
                         "UNKNOWN"; "SATISFIED"; "ERROR"] !! (length key + S i)
                        = Some s
                        /\ exists c, r !! (length key + i) = Some c
                                     /\ cell Concrete.py_sum Concrete.format_f
                                          None times s = Ok c)
         [["c1"; "m1"; "1"; "2"; "1"]]
    /\ Forall (fun r => S (length r)
                        = length ["configuration"; "model"; "model";
                                  "UNKNOWN"; "SATISFIED"; "ERROR"])
         [["c1"; "m1"; "1"; "2"; "1"]].
Proof.
  apply (C7_status_names_one_column_off Concrete.float_of_str Concrete.path_name
           Concrete.py_sum Concrete.format_f false false Sample.statuses None
           "simple"
           (mkTabulate [["c1"; "m1"; "1"; "2"; "1"]]
              ["configuration"; "model"; "model"; "UNKNOWN"; "SATISFIED"; "ERROR"]
              "simple")).
  vm_compute. reflexivity.
Defined.

(** The counts of UNKNOWN, SATISFIED and ERROR stand at the places of the
    second "model", of UNKNOWN and of SATISFIED; nothing stands at the
    place of ERROR. *)
Example statuses_reported_per_model :
  report_status Concrete.float_of_str Concrete.path_name Concrete.py_sum
    Concrete.format_f false true false Sample.statuses None "simple"
  = Ok (mkTabulate [["c1"; "m1"; "1"; "2"; "1"]]
          ["configuration"; "model"; "model"; "UNKNOWN"; "SATISFIED"; "ERROR"]
          "simple").
Proof. vm_compute. reflexivity. Qed.

(** ** The mean of a group never divides by zero *)

(** A positive integer converts to a non-zero float: rounding to 53 bits
    shifts out fewer bits than the number has. *)

Section PositiveIntegers.
Local Open Scope Z_scope.

Lemma digits2_size p : digits2_pos p = Pos.size p.
Proof. induction p; simpl; congruence. Qed.

Lemma Zdigits2_log2 m : 0 < m -> Zdigits2 m = Z.log2 m + 1.
Proof.
  destruct m as [|p|p]; try lia. intros _.
  destruct p; simpl; rewrite ?digits2_size, ?Pos2Z.inj_succ; lia.
Qed.

Lemma Zdigits2_mono m m' : 0 < m -> m <= m' -> Zdigits2 m <= Zdigits2 m'.
Proof.
  intros Hm Hle. rewrite !Zdigits2_log2 by lia.
  pose proof (Z.log2_le_mono m m' Hle). lia.
Qed.

Lemma Zdigits2_pos m : 0 < m -> 0 < Zdigits2 m.
Proof. destruct m; simpl; lia. Qed.

Lemma shr_1_spec mrs :
  0 <= shr_m mrs ->
  0 <= shr_m (shr_1 mrs)
  /\ Zdigits2 (shr_m (shr_1 mrs)) = Z.max 0 (Zdigits2 (shr_m mrs) - 1).
Proof.
  destruct mrs as [m r s]. simpl.
  destruct m as [|[p|p|]|p]; cbn [shr_1 shr_m Zdigits2 digits2_pos];
    intros H; rewrite ?Pos2Z.inj_succ; lia.
Qed.

Lemma iter_shr_spec p : forall mrs,
  0 <= shr_m mrs ->
  0 <= shr_m (SpecFloat.iter_pos shr_1 p mrs)
  /\ Zdigits2 (shr_m (SpecFloat.iter_pos shr_1 p mrs))
     = Z.max 0 (Zdigits2 (shr_m mrs) - Z.pos p).
Proof.
  induction p as [p IH|p IH|]; intros mrs H; simpl.
  - destruct (shr_1_spec mrs H) as [H1 E1].
    destruct (IH _ H1) as [H2 E2]. destruct (IH _ H2) as [H3 E3].
    split; [done|]. rewrite E3, E2, E1. lia.
  - destruct (IH _ H) as [H2 E2]. destruct (IH _ H2) as [H3 E3].
    split; [done|]. rewrite E3, E2. lia.
  - apply shr_1_spec, H.
Qed.

Lemma shr_m_of_loc m l : shr_m (shr_record_of_loc m l) = m.
Proof. destruct l as [|[]]; reflexivity. Qed.

Lemma shr_fexp_spec prec emax m e l :
  0 < prec -> 0 < m -> emin prec emax < Zdigits2 m + e ->
  0 < shr_m (fst (shr_fexp prec emax m e l))
  /\ Zdigits2 (shr_m (fst (shr_fexp prec emax m e l)))
     + snd (shr_fexp prec emax m e l) = Zdigits2 m + e.
Proof.
  intros Hprec Hm Hbound. unfold shr_fexp, shr.
  pose proof (Zdigits2_pos m Hm) as HD.
  destruct (fexp prec emax (Zdigits2 m + e) - e) as [|p|p] eqn:Hn; simpl;
    rewrite ?shr_m_of_loc; try lia.
  destruct (iter_shr_spec p (shr_record_of_loc m l)) as [H0 E];
    [rewrite shr_m_of_loc; lia|].
  rewrite shr_m_of_loc in E. unfold fexp in Hn.
  assert (0 < Zdigits2 (shr_m (SpecFloat.iter_pos shr_1 p (shr_record_of_loc m l)))) by lia.
  split; [|lia].
  destruct (shr_m (SpecFloat.iter_pos shr_1 p (shr_record_of_loc m l))); simpl in *; lia.
Qed.

Lemma round_nearest_even_ge m l :
  m <= round_nearest_even m l.
Proof. destruct l as [|[]]; simpl; try lia. destruct (Z.even m); lia. Qed.

Lemma binary_round_aux_not_zero prec emax sx m e l s :
  0 < prec -> 0 < m -> emin prec emax < Zdigits2 m + e ->
  binary_round_aux prec emax sx m e l <> S754_zero s.
Proof.
  intros Hprec Hm Hbound. unfold binary_round_aux.
  pose proof (shr_fexp_spec prec emax m e l Hprec Hm Hbound) as [H1 E1].
  destruct (shr_fexp prec emax m e l) as [mrs' e']. simpl in H1, E1.
  pose proof (round_nearest_even_ge (shr_m mrs') (loc_of_shr_record mrs')) as Hge.
  set (m1 := round_nearest_even (shr_m mrs') (loc_of_shr_record mrs')) in *.
  assert (Hm1 : 0 < m1) by lia.
  pose proof (Zdigits2_mono _ _ H1 Hge) as HD.
  pose proof (shr_fexp_spec prec emax m1 e' loc_Exact Hprec Hm1) as [H2 _]; [lia|].
  destruct (shr_fexp prec emax m1 e' loc_Exact) as [mrs'' e'']. simpl in H2.
  destruct (shr_m mrs''); try lia.
  destruct (e'' <=? emax - prec); discriminate.
Qed.

Lemma of_Z_pos_not_zero p s : PyFloat.of_Z (Z.pos p) <> S754_zero s.
Proof.
  unfold PyFloat.of_Z, binary_normalize, binary_round.
  destruct (shl_align p 0 (fexp PyFloat.prec PyFloat.emax (Z.pos (digits2_pos p) + 0)))
    as [mz ez] eqn:Hal.
  apply binary_round_aux_not_zero; [done|done|].
  unfold shl_align in Hal.
  destruct (fexp PyFloat.prec PyFloat.emax (Z.pos (digits2_pos p) + 0) - 0) as [|d|d] eqn:Hd;
    inversion Hal; subst; unfold fexp, emin, PyFloat.prec, PyFloat.emax in *; simpl; lia.
Qed.

Lemma SFeqb_not_zero x :
  (forall s, x <> S754_zero s) -> SFeqb x (S754_zero false) = false.
Proof.
  intros H. destruct x as [s|s| |s m e]; try (by destruct s); try done.
  destruct (H s eq_refl).
Qed.

End PositiveIntegers.

Lemma div_by_length_returns (x : float) (l : list float) :
  l <> [] ->
  exists q, PyFloat.div x (PyFloat.of_Z (Z.of_nat (length l))) = Ok q.
Proof.
  intros Hl. destruct l as [|y l]; [done|].
  unfold PyFloat.div, PyFloat.eqb.
  change (PyFloat.of_Z 0) with (S754_zero false).
  cbn [length Z.of_nat].
  rewrite SFeqb_not_zero; [eauto|].
  intros s. apply of_Z_pos_not_zero.
Qed.

Lemma report_scan_lists_filled (float_of_str : string -> option float)
    (path_name : string -> string) (per_problem per_model per_instance : bool)
    (avg : option string) (rows : list Row) st :
  report_scan float_of_str path_name per_problem per_model per_instance avg rows
  = Ok st ->
  lists_filled (snd st).
Proof.
  unfold report_scan.
  apply (for_each_invariant _ (fun st => lists_filled (snd st))); [|constructor].
  intros [seen table] row [seen' table'] Hinv Hrow. simpl in *.
  apply report_row_inv in Hrow as (key & status & time & _ & _ & _ & _ & ->).
  apply dict_set_Forall; [|done]. simpl.
  destruct (dict_get key table) as [r|] eqn:Hr.
  - apply dict_get_Some_elem in Hr.
    pose proof (proj1 (Forall_forall _ _) Hinv _ Hr) as Hfilled. simpl in Hfilled.
    apply dict_set_Forall; [|done]. simpl.
    by destruct (default [] (dict_get status r)).
  - constructor; [|constructor]. done.
Qed.

Lemma cell_returns (py_sum : list float -> float) (format_f : nat -> float -> string)
    (avg : option string) (r : StatusTimes) (s : string) :
  Forall (fun sl : string * list float => snd sl <> []) r ->
  exists c, cell py_sum format_f avg r s = Ok c.
Proof.
  intros Hr. unfold cell.
  destruct (dict_get s r) as [l|] eqn:Hl; [|destruct avg; eauto].
  destruct avg as [a|]; [|eauto].
  apply dict_get_Some_elem in Hl.
  pose proof (proj1 (Forall_forall _ _) Hr _ Hl) as Hne. simpl in Hne.
  destruct (div_by_length_returns (py_sum l) l Hne) as [q ->]. simpl. eauto.
Qed.

Lemma report_raise_in_scan
    (float_of_str : string -> option float) (path_name : string -> string)
    (py_sum : list float -> float) (format_f : nat -> float -> string)
    (per_problem per_model per_instance : bool) (rows : list Row)
    (avg : option string) (tablefmt : string) (e : exn) :
  report_status float_of_str path_name py_sum format_f
    per_problem per_model per_instance rows avg tablefmt = Raise e ->
  report_scan float_of_str path_name per_problem per_model per_instance avg rows
  = Raise e.
Proof.
  unfold report_status. intros H.
  destruct (report_scan float_of_str path_name per_problem per_model
              per_instance avg rows) as [st|e'] eqn:Hscan;
    [exfalso | by injection H as ->].
  apply report_scan_lists_filled in Hscan.
  cbv beta iota zeta delta [mbind result_bind] in H.
  match type of H with
  | match map_result ?f ?l with _ => _ end = _ =>
      destruct (map_result_total f l) as [body Hok];
      [|rewrite Hok in H; discriminate H]
  end.
  intros kr Hkr.
  pose proof (proj1 (Forall_forall _ _) Hscan _ Hkr) as Hfilled.
  match goal with
  | |- exists y, match map_result ?f ?l with _ => _ end = _ =>
      destruct (map_result_total f l) as [cells ->]; [|eauto]
  end.
  intros s _. by apply cell_returns.
Qed.

(** X18. [report_status] never ends with [ZeroDivisionError]: every list of
    the table holds at least the value that created it, so the mean
    [sum(row[s]) / len(row[s])] of a cell never divides by zero. *)
Theorem report_never_divides_by_zero
    (float_of_str : string -> option float) (path_name : string -> string)
    (py_sum : list float -> float) (format_f : nat -> float -> string)
    (per_problem per_model per_instance : bool) (rows : list Row)
    (avg : option string) (tablefmt : string) (e : exn) :
  report_status float_of_str path_name py_sum format_f
    per_problem per_model per_instance rows avg tablefmt = Raise e ->
  e <> ZeroDivisionError.
Proof.
  intros H%report_raise_in_scan. unfold report_scan in H.
  apply for_each_Raise_inv in H as (st & row & _ & Hrow).
  apply report_row_raise in Hrow.
  destruct Hrow as [(col & -> & _)|(s & ->)]; discriminate.
Qed.

Lemma report_never_divides_by_zero_witness :
  KeyError "status" <> ZeroDivisionError.
Proof.
  apply (report_never_divides_by_zero Concrete.float_of_str Concrete.path_name
           Concrete.py_sum Concrete.format_f false false false
           Sample.without_status (Some "time") "grid").
  vm_compute. reflexivity.
Defined.

